(** * GoToMarket Compliance Lab: the server's request handlers

    A shallow embedding of [server.js] (the session/PostgreSQL version with the
    two-tier [parseGeminiJSON]): the response normalizer, the [/api/analyze],
    [/api/extract] and [/api/analyze-confirmed] flows, the health check, the
    report routes, registration, login, logout and [/api/auth/me]; and of the
    [/api/analyze] handler as it stood before the normalizer was factored
    out.

    Conventions.
    - A JavaScript string is the list of its UTF-16 code units ([jsstring]);
      [.length], [indexOf], [substring] count code units, as in the runtime.
    - A JavaScript value that can travel in a JSON body is a [value].
    - A handler is a computation in the monad [M]: it threads the [World]
      (upload directory, database, session) and may throw.
    - What the runtime, the driver or the database engine decide, and the
      source does not, is a [Variable] of the section that uses it. *)

From Stdlib Require Import ZArith List String Ascii Bool Lia Sorted.
From stdpp Require Import base list gmap sets.

Local Open Scope Z_scope.
Set Warnings "-register-all".

(** ** JavaScript strings *)

Module Js.

Definition jsstring := list Z.

(** The bytes of a Rocq string literal (source text is UTF-8). *)
Fixpoint bytes (s : string) : list Z :=
  match s with
  | EmptyString => []
  | String a r => Z.of_N (N_of_ascii a) :: bytes r
  end.

(** Low six bits of a UTF-8 continuation byte. *)
Definition cont (b : Z) : Z := Z.land b 63.

(** A code point as UTF-16: itself in the basic plane, a surrogate pair above. *)
Definition units_of_codepoint (cp : Z) : list Z :=
  if cp <? 65536 then [cp]
  else [55296 + Z.shiftr (cp - 65536) 10; 56320 + Z.land (cp - 65536) 1023].

(** UTF-8 to UTF-16; a truncated sequence becomes U+FFFD. Used for literals. *)
Fixpoint decode (bs : list Z) : jsstring :=
  match bs with
  | [] => []
  | b0 :: r0 =>
    if b0 <? 128 then b0 :: decode r0
    else match r0 with
    | [] => [65533]
    | b1 :: r1 =>
      if b0 <? 224 then (Z.shiftl (Z.land b0 31) 6 + cont b1) :: decode r1
      else match r1 with
      | [] => [65533]
      | b2 :: r2 =>
        if b0 <? 240
        then (Z.shiftl (Z.land b0 15) 12 + Z.shiftl (cont b1) 6 + cont b2)
               :: decode r2
        else match r2 with
        | [] => [65533]
        | b3 :: r3 =>
          units_of_codepoint
            (Z.shiftl (Z.land b0 7) 18 + Z.shiftl (cont b1) 12
             + Z.shiftl (cont b2) 6 + cont b3) ++ decode r3
        end
      end
    end
  end.

(** The JavaScript string a source literal denotes. *)
Definition lit (s : string) : jsstring := decode (bytes s).
Arguments lit s%_string.

(** The double quote, which a literal here cannot contain. *)
Definition dq : jsstring := [34].

Definition eqb (a b : jsstring) : bool := bool_decide (a = b).

(** [WhiteSpace] and [LineTerminator] of ECMA-262: what [\s] matches and
    what [String.prototype.trim] strips. *)
Definition isWhiteSpace (c : Z) : bool :=
  bool_decide (c ∈ [9; 10; 11; 12; 13; 32; 160; 5760; 8232; 8233; 8239; 8287;
                    12288; 65279])
  || ((8192 <=? c) && (c <=? 8202)).

Fixpoint dropWhile (p : Z -> bool) (s : jsstring) : jsstring :=
  match s with
  | [] => []
  | c :: r => if p c then dropWhile p r else s
  end.

(** [s.trim()] *)
Definition trim (s : jsstring) : jsstring :=
  rev (dropWhile isWhiteSpace (rev (dropWhile isWhiteSpace s))).

(** [s.indexOf(c)] for a one-unit needle: first position, or -1. *)
Fixpoint indexOf (c : Z) (s : jsstring) : Z :=
  match s with
  | [] => -1
  | x :: r =>
    if x =? c then 0
    else let i := indexOf c r in if i =? -1 then -1 else i + 1
  end.

(** [s.lastIndexOf(c)] for a one-unit needle: last position, or -1. *)
Fixpoint lastIndexOf (c : Z) (s : jsstring) : Z :=
  match s with
  | [] => -1
  | x :: r =>
    let i := lastIndexOf c r in
    if i =? -1 then (if x =? c then 0 else -1) else i + 1
  end.

(** [s.substring(a, b)]: both ends clamped to [0, length], swapped when
    [a > b]. *)
Definition substring (a b : Z) (s : jsstring) : jsstring :=
  let len := Z.of_nat (length s) in
  let a' := Z.min (Z.max a 0) len in
  let b' := Z.min (Z.max b 0) len in
  let lo := Z.min a' b' in
  let hi := Z.max a' b' in
  take (Z.to_nat (hi - lo)) (drop (Z.to_nat lo) s).

End Js.
Export Js.

(** ** JavaScript values *)

(** A number, kept as the decimal it was written as:
    [(-1)^neg * mant * 10^exp]. Two records may denote the same binary64. *)
Record number := Num { num_neg : bool; num_mant : Z; num_exp : Z }.

Definition num_of_Z (z : Z) : number := Num (z <? 0) (Z.abs z) 0.

(** Whether the binary64 nearest to the decimal is (plus or minus) zero:
    the magnitude is at most [2^-1075], half the least subnormal. *)
Definition num_is_zero (n : number) : bool :=
  (num_mant n =? 0)
  || ((num_exp n <? 0) && (num_mant n * 2 ^ 1075 <=? 10 ^ (- num_exp n))).

Inductive value :=
| VUndefined
| VNull
| VBool (b : bool)
| VNum (n : number)
| VStr (s : jsstring)
| VArr (items : list value)
| VObj (fields : list (jsstring * value))
| VDate (ms : Z).

(** A thrown [Error] object; only its [message] is ever read. *)
Record exn := Thrown { message : jsstring }.

(** A computation that returns or throws. *)
Definition result (A : Type) : Type := exn + A.

(** [ToBoolean]: the test behind [!v], [v || d] and [if (v)]. *)
Definition ToBoolean (v : value) : bool :=
  match v with
  | VUndefined | VNull => false
  | VBool b => b
  | VNum n => negb (num_is_zero n)
  | VStr s => negb (eqb s [])
  | VArr _ | VObj _ | VDate _ => true
  end.

(** [a || b] *)
Definition or_else (a b : value) : value := if ToBoolean a then a else b.

(** [v === "s"] against a string literal. *)
Definition is_string (v : value) (s : jsstring) : bool :=
  match v with
  | VStr t => eqb t s
  | _ => false
  end.

(** Own property [k] of an object built by [JSON.parse] or by a literal: a
    later binding of the same key replaces an earlier one. *)
Fixpoint own (k : jsstring) (fields : list (jsstring * value)) : option value :=
  match fields with
  | [] => None
  | (k', v) :: r =>
    match own k r with
    | Some w => Some w
    | None => if eqb k' k then Some v else None
    end
  end.

(** [o.k] on an object literal or a request body: absent keys read as
    [undefined]. (No key read by the handlers lives on [Object.prototype].) *)
Definition field (k : jsstring) (fields : list (jsstring * value)) : value :=
  default VUndefined (own k fields).

(** [v.k] for the keys the handlers read ([overallRiskLevel], [length]):
    reading through [undefined] or [null] throws; strings and arrays own
    [length]; other primitives and dates have no such key. *)
Definition get_prop (v : value) (k : jsstring) : result value :=
  match v with
  | VUndefined | VNull =>
    inl (Thrown (lit "Cannot read properties of undefined"))
  | VObj fields => inr (field k fields)
  | VStr s =>
    inr (if eqb k (lit "length") then VNum (num_of_Z (Z.of_nat (length s)))
         else VUndefined)
  | VArr l =>
    inr (if eqb k (lit "length") then VNum (num_of_Z (Z.of_nat (length l)))
         else VUndefined)
  | VBool _ | VNum _ | VDate _ => inr VUndefined
  end.

(** ** The response normalizer: [parseGeminiJSON] *)

Module Fence.

(** Whether code unit [c] is the letter [upper] in either case (flag [i]). *)
Definition ci (upper c : Z) : bool := (c =? upper) || (c =? upper + 32).

(** One match of [```json\s*] (flags [gi]) at the head of [s]: the text left
    after the match. [\s*] is greedy and nothing follows it. *)
Definition match_json_fence (s : jsstring) : option jsstring :=
  match s with
  | 96 :: 96 :: 96 :: j :: s' :: o :: n :: r =>
    if ci 74 j && ci 83 s' && ci 79 o && ci 78 n
    then Some (dropWhile isWhiteSpace r) else None
  | _ => None
  end.

(** One match of [```\s*] (flag [g]) at the head of [s]. *)
Definition match_fence (s : jsstring) : option jsstring :=
  match s with
  | 96 :: 96 :: 96 :: r => Some (dropWhile isWhiteSpace r)
  | _ => None
  end.

(** [s.replace(re, "")] for a global pattern [re] given by its matcher [m]:
    scan left to right; a match is dropped and the scan resumes after it,
    otherwise one unit is copied. Every match is at least one unit long, so
    [length s] steps reach the end. *)
Fixpoint remove_all_from (m : jsstring -> option jsstring) (fuel : nat)
    (s : jsstring) : jsstring :=
  match fuel with
  | O => s
  | S fuel' =>
    match m s with
    | Some rest => remove_all_from m fuel' rest
    | None =>
      match s with
      | [] => []
      | c :: r => c :: remove_all_from m fuel' r
      end
    end
  end.

Definition remove_all (m : jsstring -> option jsstring) (s : jsstring)
  : jsstring :=
  remove_all_from m (length s) s.

End Fence.

(** [text.replace(/```json\s*/gi, "").replace(/```\s*/g, "").trim()] *)
Definition cleaned (text : jsstring) : jsstring :=
  trim (Fence.remove_all Fence.match_fence
          (Fence.remove_all Fence.match_json_fence text)).

(** The two recovery strategies, in the order of the source. *)
Inductive tier := Strict | Salvage.

Section Normalizer.

(** [JSON.parse], the runtime's: the value, or the [SyntaxError] thrown. *)
Variable JSON_parse : jsstring -> result value.

(** [parseGeminiJSON(text)], instrumented: next to what the function
    returns or throws, the arguments of its [JSON.parse] calls in call
    order, each tagged with the tier that made the call. *)
Definition parseGeminiJSON_trace (text : jsstring)
  : list (tier * jsstring) * result value :=
  match JSON_parse (cleaned text) with
  | inr v => ([(Strict, cleaned text)], inr v)
  | inl e1 =>
    let firstBrace := indexOf 123 text in
    let lastBrace := lastIndexOf 125 text in
    if negb (firstBrace =? -1) && (firstBrace <? lastBrace) then
      let jsonStr := substring firstBrace (lastBrace + 1) text in
      ([(Strict, cleaned text); (Salvage, jsonStr)], JSON_parse jsonStr)
    else
      ([(Strict, cleaned text)],
       inl (Thrown (lit "No JSON object found in response")))
  end.

(** [parseGeminiJSON(text)] *)
Definition parseGeminiJSON (text : jsstring) : result value :=
  snd (parseGeminiJSON_trace text).

End Normalizer.

(** ** The world a handler runs in *)

(** A row of table [users]. *)
Record user_row := UserRow {
  u_id : Z;
  u_email : jsstring;
  u_password_hash : jsstring;
  u_name : jsstring;
  u_company : jsstring;
  u_created_at : Z
}.

(** A row of table [reports]. [title], [lang] and [data] hold the parameter
    as the handler bound it. *)
Record report_row := ReportRow {
  r_id : Z;
  r_user_id : Z;
  r_report_id : jsstring;
  r_title : value;
  r_data : value;
  r_lang : value;
  r_score : Z;
  r_created_at : Z
}.

(** The PostgreSQL store behind [pool]; [online = false] makes every
    [pool.query] reject. *)
Record Db := MkDb {
  online : bool;
  users : list user_row;
  reports : list report_row
}.

(** Upload directory (path to content), store, and [req.session.userId]. *)
Record World := MkWorld {
  uploads : gmap jsstring (list Z);
  db : Db;
  session_userId : option Z
}.

Definition with_uploads (f : gmap jsstring (list Z)) (w : World) : World :=
  MkWorld f (db w) (session_userId w).
Definition with_db (d : Db) (w : World) : World :=
  MkWorld (uploads w) d (session_userId w).
Definition with_session (u : option Z) (w : World) : World :=
  MkWorld (uploads w) (db w) u.

(** State and exceptions: a thrown error keeps the effects made so far. *)
Definition M (A : Type) : Type := World -> World * result A.

#[export] Instance M_ret : MRet M := fun A a w => (w, inr a).
#[export] Instance M_bind : MBind M := fun A B f m w =>
  match m w with
  | (w', inr a) => f a w'
  | (w', inl e) => (w', inl e)
  end.

Definition throw {A} (e : exn) : M A := fun w => (w, inl e).
Definition lift {A} (r : result A) : M A := fun w => (w, r).
Definition gets {A} (f : World -> A) : M A := fun w => (w, inr (f w)).
Definition modify (f : World -> World) : M unit := fun w => (f w, inr tt).

(** What a handler sends: [res.status(s).json(body)]. *)
Record response := Response { status : Z; body : value }.

(** [res.json(body)] *)
Definition json (b : value) : response := Response 200 b.

(** A handler: the world after it, and the response it sent. *)
Definition handler : Type := World -> World * response.

(** [try { body } catch (err) { return onError(err) }] around a whole
    handler. *)
Definition try_catch (body : M response) (onError : exn -> response)
  : handler :=
  fun w =>
    match body w with
    | (w', inr r) => (w', r)
    | (w', inl e) => (w', onError e)
    end.

(** Object-literal helpers. *)
Definition kv (k : string) (v : value) : jsstring * value := (lit k, v).
Arguments kv k%_string v.
Definition str (s : string) : value := VStr (lit s).
Arguments str s%_string.
Definition num (z : Z) : value := VNum (num_of_Z z).

(** ** Requests, configuration, uploaded files *)

(** An uploaded file as multer describes it in [req.files]. *)
Record file := File { path : jsstring; mimetype : jsstring }.

(** What the handlers read of [req]: [req.files] ([None] when the request
    was not multipart), [req.body] (an object) and [req.params.reportId]. *)
Record request := Request {
  req_files : option (list file);
  req_body : list (jsstring * value);
  req_reportId : jsstring
}.

(** [process.env], as far as the handlers read it. *)
Record config := Config { GEMINI_API_KEY : option jsstring }.

(** An [inlineData] part handed to the model. *)
Record part := Part { data : list Z; mimeType : jsstring }.

(** [getGeminiClient()]: [null] when the key is unset or empty, else a
    client (identified with its key). *)
Definition getGeminiClient (cfg : config) : option jsstring :=
  match GEMINI_API_KEY cfg with
  | None => None
  | Some apiKey => if eqb apiKey [] then None else Some apiKey
  end.

(** [s.startsWith(p)] *)
Definition startsWith (p s : jsstring) : bool := eqb (take (length p) s) p.

(** [fs.readFileSync(p)] *)
Definition readFileSync (p : jsstring) : M (list Z) := fun w =>
  match uploads w !! p with
  | Some content => (w, inr content)
  | None =>
    (w, inl (Thrown (lit "ENOENT: no such file or directory, open '"
                       ++ p ++ lit "'")))
  end.

(** [fs.unlink(p, () => {})]: the file goes; an error is dropped by the
    empty callback. *)
Definition unlink (p : jsstring) : M unit :=
  modify (fun w => with_uploads (delete p (uploads w)) w).

(** [filesToImageParts(files)] *)
Fixpoint filesToImageParts (files : list file) : M (list part) :=
  match files with
  | [] => mret []
  | f :: rest =>
    if startsWith (lit "image/") (mimetype f) then
      d ← readFileSync (path f);
      imageParts ← filesToImageParts rest;
      mret (Part d (mimetype f) :: imageParts)
    else if eqb (mimetype f) (lit "application/pdf") then
      d ← readFileSync (path f);
      imageParts ← filesToImageParts rest;
      mret (Part d (lit "application/pdf") :: imageParts)
    else filesToImageParts rest
  end.

(** [cleanupFiles(files)] *)
Fixpoint cleanupFiles (files : list file) : M unit :=
  match files with
  | [] => mret tt
  | f :: rest => _ ← unlink (path f); cleanupFiles rest
  end.

(** [getDemoData(lang)]: the fixed demonstration record; only the four
    section summaries depend on [lang]. *)
Definition getDemoData (lang : value) : value :=
  VObj [
    kv "ingredientRisk" (VObj [
      kv "status" (str "warn");
      kv "flagCount" (num 3);
      kv "items" (VArr [
        VObj [
          kv "name" (str "Sodium Benzoate (E211)");
          kv "nameCn" (str "苯甲酸钠 (E211)");
          kv "status" (str "pass");
          kv "note" (str "FDA-affirmed GRAS preservative per 21 CFR 184.1733")];
        VObj [
          kv "name" (str "Red No. 40 (Allura Red)");
          kv "nameCn" (str "诱惑红40号");
          kv "status" (str "warn");
          kv "note" (str "Requires specific listing on label per 21 CFR 74")];
        VObj [
          kv "name" (str "Steviol Glycosides");
          kv "nameCn" (str "甜菊糖苷");
          kv "status" (str "pass");
          kv "note" (str "GRAS approved sweetener")];
        VObj [
          kv "name" (str "Titanium Dioxide (E171)");
          kv "nameCn" (str "二氧化钛 (E171)");
          kv "status" (str "fail");
          kv "note" (str "Subject to ongoing regulatory review — requires verification of current guidance")]]);
      kv "overallRisk" (str "medium");
      kv "riskPercent" (num 55);
      kv "summary" (if is_string lang (lit "cn")
        then str "检测到 3 项需关注的成分标记，整体风险等级为中等。"
        else str "3 ingredient flags detected. Overall risk level is medium.")]);
    kv "labelCompliance" (VObj [
      kv "status" (str "warn");
      kv "passCount" (num 7);
      kv "totalCount" (num 9);
      kv "items" (VArr [
        VObj [
          kv "name" (str "Nutrition Facts Format (2020)");
          kv "nameCn" (str "营养成分表格式 (2020)");
          kv "status" (str "pass");
          kv "note" (str "Compliant")];
        VObj [
          kv "name" (str "Allergen Declaration (FALCPA)");
          kv "nameCn" (str "过敏原声明 (FALCPA)");
          kv "status" (str "warn");
          kv "note" (str "Wheat allergen needs bold or separate Contains line")];
        VObj [
          kv "name" (str "Net Weight (Dual Units)");
          kv "nameCn" (str "净含量（双单位）");
          kv "status" (str "fail");
          kv "note" (str "Missing US customary units (oz)")];
        VObj [
          kv "name" (str "Country of Origin");
          kv "nameCn" (str "原产国标注");
          kv "status" (str "pass");
          kv "note" (str "Clearly displayed")];
        VObj [
          kv "name" (str "English Product Name");
          kv "nameCn" (str "英文产品名称");
          kv "status" (str "pass");
          kv "note" (str "Present and legible")]]);
      kv "summary" (if is_string lang (lit "cn")
        then str "9 项标签检查中 7 项通过，2 项需修正。"
        else str "7 of 9 label checks passed. 2 items need correction.")]);
    kv "facilityRegistration" (VObj [
      kv "status" (str "info");
      kv "items" (VArr [
        VObj [
          kv "name" (str "FDA Registration Number");
          kv "nameCn" (str "FDA 注册编号");
          kv "value" (str "Not provided");
          kv "status" (str "info")];
        VObj [
          kv "name" (str "Registration Status");
          kv "nameCn" (str "注册状态");
          kv "value" (str "Needs verification");
          kv "status" (str "info")];
        VObj [
          kv "name" (str "US Agent Designated");
          kv "nameCn" (str "美国代理人");
          kv "value" (str "Unknown");
          kv "status" (str "warn")];
        VObj [
          kv "name" (str "FSVP Importer");
          kv "nameCn" (str "FSVP 进口商");
          kv "value" (str "Pending");
          kv "status" (str "warn")]]);
      kv "summary" (if is_string lang (lit "cn")
        then str "工厂注册信息需要手动提供以完成验证。"
        else str "Facility registration details need to be provided for verification.")]);
    kv "marketingClaims" (VObj [
      kv "status" (str "warn");
      kv "issueCount" (num 2);
      kv "items" (VArr [
        VObj [
          kv "claim" (VStr (dq ++ lit "All Natural" ++ dq));
          kv "claimCn" (VStr (dq ++ lit "纯天然" ++ dq));
          kv "status" (str "warn");
          kv "note" (str "Vague claim — FDA has no formal definition")];
        VObj [
          kv "claim" (VStr (dq ++ lit "Boosts Immunity" ++ dq));
          kv "claimCn" (VStr (dq ++ lit "增强免疫力" ++ dq));
          kv "status" (str "fail");
          kv "note" (str "Requires review — health-related claim warrants regulatory assessment per DSHEA")];
        VObj [
          kv "claim" (VStr (dq ++ lit "Low Sugar" ++ dq));
          kv "claimCn" (VStr (dq ++ lit "低糖" ++ dq));
          kv "status" (str "pass");
          kv "note" (str "Meets nutrient content claim criteria")];
        VObj [
          kv "claim" (VStr (dq ++ lit "Non-GMO" ++ dq));
          kv "claimCn" (VStr (dq ++ lit "非转基因" ++ dq));
          kv "status" (str "info");
          kv "note" (str "Requires third-party certification")]]);
      kv "riskLevel" (str "high");
      kv "riskPercent" (num 72);
      kv "summary" (if is_string lang (lit "cn")
        then str "发现 2 项宣传语言问题，风险等级较高。"
        else str "2 marketing claim issues found. Risk level is high.")]);
    kv "overallRiskLevel" (str "medium");
    kv "overallVerdict" (str "Medium structural risk identified. Multiple items require optimization prior to U.S. market entry.");
    kv "overallVerdictCn" (str "识别到中等结构风险。多项内容需在进入美国市场前进行优化。");
    kv "recommendations" (VArr [
      str "Add U.S. customary weight units (oz) per 21 CFR 101.105";
      VStr (lit "Add allergen " ++ dq ++ lit "Contains" ++ dq ++ lit " statement or bold declaration per FALCPA Sec. 203");
      VStr (lit "Review and revise health-related marketing claim " ++ dq ++ lit "Boosts Immunity" ++ dq ++ lit " per DSHEA Sec. 403(r)(6)");
      VStr (lit "Clarify or revise " ++ dq ++ lit "All Natural" ++ dq ++ lit " claim per FD&C Act Sec. 403(a)(1)");
      str "Confirm facility FEI number and DUNS with manufacturer per 21 CFR 1.225"]);
    kv "recommendationsCn" (VArr [
      str "依据 21 CFR 101.105 添加美制重量单位 (oz)";
      VStr (lit "依据 FALCPA Sec. 203 添加过敏原" ++ dq ++ lit "含有" ++ dq ++ lit "声明或加粗标注");
      VStr (lit "依据 DSHEA Sec. 403(r)(6) 审查并修订健康相关宣传语" ++ dq ++ lit "增强免疫力" ++ dq);
      VStr (lit "依据 FD&C Act Sec. 403(a)(1) 明确或修订" ++ dq ++ lit "纯天然" ++ dq ++ lit "声称");
      str "依据 21 CFR 1.225 与工厂确认设施 FEI 编号及 DUNS 信息"])].

(** ** [POST /api/analyze] *)

Section Analyze.

Variable JSON_parse : jsstring -> result value.

(** The model call, [model.generateContent([buildAnalysisPrompt(lang),
    ...imageParts])] and [(await result.response).text()], as a function of
    what the handler varies: the client, [lang] and the parts. *)
Variable generateContent : jsstring -> value -> list part -> result jsstring.

Variable cfg : config.

Definition analyze_body (req : request) : M response :=
  let files := req_files req in
  let lang := or_else (field (lit "lang") (req_body req)) (str "en") in
  match files with
  | None | Some [] =>
    mret (Response 400 (VObj [kv "error" (str "No files uploaded")]))
  | Some files =>
    match getGeminiClient cfg with
    | None =>
      mret (json (VObj [
        kv "success" (VBool true);
        kv "demo" (VBool true);
        kv "message"
           (str "GEMINI_API_KEY not configured. Returning demo analysis.");
        kv "data" (getDemoData lang)]))
    | Some genAI =>
      imageParts ← filesToImageParts files;
      if bool_decide (length imageParts = 0%nat) then
        mret (Response 400
                (VObj [kv "error" (str "No valid image/PDF files found")]))
      else
        text ← lift (generateContent genAI lang imageParts);
        match parseGeminiJSON JSON_parse text with
        | inl e =>
          mret (Response 500 (VObj [
            kv "error" (str "Failed to parse AI response");
            kv "raw" (VStr (substring 0 800 text))]))
        | inr data =>
          _ ← cleanupFiles files;
          mret (json (VObj [
            kv "success" (VBool true);
            kv "demo" (VBool false);
            kv "data" data]))
        end
    end
  end.

(** The handler of [app.post("/api/analyze", ...)]. *)
Definition post_api_analyze (req : request) : handler :=
  try_catch (analyze_body req)
    (fun err =>
       Response 500 (VObj [
         kv "error"
            (or_else (VStr (message err)) (str "Internal server error"))])).

End Analyze.

(** ** [POST /api/extract] *)

(** [getDemoExtractedData(lang)] *)
Definition getDemoExtractedData (lang : value) : value :=
  let cn := is_string lang (lit "cn") in
  VObj [
    kv "productName" (if cn then str "超级能量饮品" else str "Super Energy Drink");
    kv "productNameCn" (str "超级能量饮品");
    kv "productType" (if cn then str "饮料" else str "beverage");
    kv "ingredients" (VArr [
      VObj [
        kv "name" (str "Carbonated Water");
        kv "nameCn" (str "碳酸水");
        kv "amount" (VStr []);
        kv "unit" (VStr [])];
      VObj [
        kv "name" (str "High Fructose Corn Syrup");
        kv "nameCn" (str "高果糖玉米糖浆");
        kv "amount" (VStr []);
        kv "unit" (VStr [])];
      VObj [
        kv "name" (str "Citric Acid");
        kv "nameCn" (str "柠檬酸");
        kv "amount" (VStr []);
        kv "unit" (VStr [])];
      VObj [
        kv "name" (str "Sodium Benzoate");
        kv "nameCn" (str "苯甲酸钠");
        kv "amount" (str "0.1");
        kv "unit" (str "%")];
      VObj [
        kv "name" (str "Red No. 40");
        kv "nameCn" (str "诱惑红40号");
        kv "amount" (VStr []);
        kv "unit" (VStr [])];
      VObj [
        kv "name" (str "Caffeine");
        kv "nameCn" (str "咖啡因");
        kv "amount" (str "80");
        kv "unit" (str "mg")];
      VObj [
        kv "name" (str "Taurine");
        kv "nameCn" (str "牛磺酸");
        kv "amount" (str "1000");
        kv "unit" (str "mg")];
      VObj [
        kv "name" (str "Steviol Glycosides");
        kv "nameCn" (str "甜菊糖苷");
        kv "amount" (VStr []);
        kv "unit" (VStr [])]]);
    kv "nutritionFacts" (VArr [
      VObj [
        kv "nutrient" (str "Calories");
        kv "amount" (str "110");
        kv "dailyValue" (VStr [])];
      VObj [
        kv "nutrient" (str "Total Fat");
        kv "amount" (str "0g");
        kv "dailyValue" (str "0%")];
      VObj [
        kv "nutrient" (str "Sodium");
        kv "amount" (str "40mg");
        kv "dailyValue" (str "2%")];
      VObj [
        kv "nutrient" (str "Total Carbohydrate");
        kv "amount" (str "28g");
        kv "dailyValue" (str "10%")];
      VObj [
        kv "nutrient" (str "Total Sugars");
        kv "amount" (str "27g");
        kv "dailyValue" (VStr [])];
      VObj [
        kv "nutrient" (str "Protein");
        kv "amount" (str "0g");
        kv "dailyValue" (VStr [])]]);
    kv "allergens" (VArr []);
    kv "netWeight" (str "250ml");
    kv "servingSize" (str "1 can (250ml)");
    kv "servingsPerContainer" (str "1");
    kv "countryOfOrigin" (str "China");
    kv "manufacturerInfo" (str "XYZ Beverage Co., Guangzhou, China");
    kv "labelClaims" (VArr [
      VObj [
        kv "claim" (str "All Natural Energy");
        kv "claimCn" (str "纯天然能量")];
      VObj [kv "claim" (str "Boosts Performance"); kv "claimCn" (str "提升表现")];
      VObj [kv "claim" (str "Low Sugar"); kv "claimCn" (str "低糖")]]);
    kv "fdaStatus" (VObj [
      kv "facilityRegStatus" (str "unknown");
      kv "usAgentStatus" (str "unknown");
      kv "fsvpStatus" (str "tbd");
      kv "importerStructure" (str "not_determined");
      kv "facilityIdNumber" (VStr [])]);
    kv "otherInfo" (VStr [])].

Section Extract.

Variable JSON_parse : jsstring -> result value.

(** The model call of this route, [model.generateContent(
    [buildExtractionPrompt(lang), ...imageParts])] and its text. *)
Variable generateContent : jsstring -> value -> list part -> result jsstring.

Variable cfg : config.

Definition extract_body (req : request) : M response :=
  let files := req_files req in
  let lang := or_else (field (lit "lang") (req_body req)) (str "en") in
  match files with
  | None | Some [] =>
    mret (Response 400 (VObj [kv "error" (str "No files uploaded")]))
  | Some files =>
    match getGeminiClient cfg with
    | None =>
      _ ← cleanupFiles files;
      mret (json (VObj [
        kv "success" (VBool true);
        kv "demo" (VBool true);
        kv "message"
           (str "GEMINI_API_KEY not configured. Returning demo extraction.");
        kv "data" (getDemoExtractedData lang)]))
    | Some genAI =>
      imageParts ← filesToImageParts files;
      if bool_decide (length imageParts = 0%nat) then
        mret (Response 400
                (VObj [kv "error" (str "No valid image/PDF files found")]))
      else
        text ← lift (generateContent genAI lang imageParts);
        match parseGeminiJSON JSON_parse text with
        | inl e =>
          mret (Response 500 (VObj [
            kv "error" (str "Failed to parse AI extraction response");
            kv "raw" (VStr (substring 0 800 text))]))
        | inr data =>
          _ ← cleanupFiles files;
          mret (json (VObj [
            kv "success" (VBool true);
            kv "demo" (VBool false);
            kv "data" data]))
        end
    end
  end.

(** The handler of [app.post("/api/extract", ...)]. *)
Definition post_api_extract (req : request) : handler :=
  try_catch (extract_body req)
    (fun err =>
       Response 500 (VObj [
         kv "error"
            (or_else (VStr (message err)) (str "Internal server error"))])).

End Extract.

(** ** A reference [JSON.parse]

    The JSON grammar of ECMA-404, as [JSON.parse] reads it. The theorems
    below hold for any [JSON_parse]; this one instantiates them on concrete
    texts. *)

Module Ecma404.

Definition is_ws (c : Z) : bool :=
  (c =? 9) || (c =? 10) || (c =? 13) || (c =? 32).

Definition skip_ws (s : jsstring) : jsstring := dropWhile is_ws s.

Definition is_digit (c : Z) : bool := (48 <=? c) && (c <=? 57).

(** Leading digits and what follows them. *)
Fixpoint span_digits (s : jsstring) : list Z * jsstring :=
  match s with
  | [] => ([], [])
  | c :: r =>
    if is_digit c then let '(ds, rest) := span_digits r in (c :: ds, rest)
    else ([], s)
  end.

Definition digits_value (ds : list Z) : Z :=
  fold_left (fun acc d => 10 * acc + (d - 48)) ds 0.

(** [int]: a single [0], or a non-zero digit followed by digits. *)
Definition parse_int (s : jsstring) : option (list Z * jsstring) :=
  match s with
  | [] => None
  | c :: r =>
    if c =? 48 then Some ([48], r)
    else if is_digit c then Some (span_digits s)
    else None
  end.

(** [frac]: nothing, or a dot and at least one digit. *)
Definition parse_frac (s : jsstring) : option (list Z * jsstring) :=
  match s with
  | c :: r =>
    if c =? 46 then
      match span_digits r with
      | ([], _) => None
      | (ds, rest) => Some (ds, rest)
      end
    else Some ([], s)
  | [] => Some ([], s)
  end.

(** [exp]: nothing, or [e]/[E], an optional sign and at least one digit. *)
Definition parse_exp (s : jsstring) : option (Z * jsstring) :=
  match s with
  | c :: r =>
    if (c =? 101) || (c =? 69) then
      let '(neg, r') :=
        match r with
        | sgn :: r1 =>
          if sgn =? 45 then (true, r1)
          else if sgn =? 43 then (false, r1) else (false, r)
        | [] => (false, r)
        end in
      match span_digits r' with
      | ([], _) => None
      | (ds, rest) =>
        Some (if neg then - digits_value ds else digits_value ds, rest)
      end
    else Some (0, s)
  | [] => Some (0, s)
  end.

Definition parse_number (s : jsstring) : option (number * jsstring) :=
  let '(neg, s1) :=
    match s with
    | c :: r => if c =? 45 then (true, r) else (false, s)
    | [] => (false, s)
    end in
  '(ip, s2) ← parse_int s1;
  '(fp, s3) ← parse_frac s2;
  '(e, s4) ← parse_exp s3;
  Some (Num neg (digits_value (ip ++ fp)) (e - Z.of_nat (length fp)), s4).

Definition hex_digit (c : Z) : option Z :=
  if is_digit c then Some (c - 48)
  else if (65 <=? c) && (c <=? 70) then Some (c - 55)
  else if (97 <=? c) && (c <=? 102) then Some (c - 87)
  else None.

(** The unit a one-letter escape stands for. *)
Definition simple_escape (e : Z) : option Z :=
  if (e =? 34) || (e =? 92) || (e =? 47) then Some e
  else if e =? 98 then Some 8
  else if e =? 102 then Some 12
  else if e =? 110 then Some 10
  else if e =? 114 then Some 13
  else if e =? 116 then Some 9
  else None.

(** The characters of a string after its opening quote, up to and
    including the closing one. *)
Fixpoint parse_chars (s : jsstring) : option (jsstring * jsstring) :=
  match s with
  | [] => None
  | c :: r =>
    if c =? 34 then Some ([], r)
    else if c =? 92 then
      match r with
      | [] => None
      | e :: r1 =>
        if e =? 117 then
          match r1 with
          | h1 :: h2 :: h3 :: h4 :: r2 =>
            a ← hex_digit h1; b ← hex_digit h2;
            c' ← hex_digit h3; d ← hex_digit h4;
            '(t, rest) ← parse_chars r2;
            Some ((4096 * a + 256 * b + 16 * c' + d) :: t, rest)
          | _ => None
          end
        else
          u ← simple_escape e;
          '(t, rest) ← parse_chars r1;
          Some (u :: t, rest)
      end
    else if c <? 32 then None
    else '(t, rest) ← parse_chars r; Some (c :: t, rest)
  end.

Section Composite.

(** The parser of one value, leading whitespace included. *)
Variable pv : jsstring -> option (value * jsstring).

(** Elements after [[], at least one, up to and including []]. *)
Fixpoint parse_elements (fuel : nat) (s : jsstring)
  : option (list value * jsstring) :=
  match fuel with
  | O => None
  | S fuel' =>
    '(v, r) ← pv s;
    match skip_ws r with
    | c :: r' =>
      if c =? 44 then
        '(vs, rest) ← parse_elements fuel' r'; Some (v :: vs, rest)
      else if c =? 93 then Some ([v], r')
      else None
    | [] => None
    end
  end.

(** Members after [{], at least one, up to and including [}]. *)
Fixpoint parse_members (fuel : nat) (s : jsstring)
  : option (list (jsstring * value) * jsstring) :=
  match fuel with
  | O => None
  | S fuel' =>
    match skip_ws s with
    | q :: r0 =>
      if q =? 34 then
        '(k, r1) ← parse_chars r0;
        match skip_ws r1 with
        | colon :: r2 =>
          if colon =? 58 then
            '(v, r3) ← pv r2;
            match skip_ws r3 with
            | c :: r4 =>
              if c =? 44 then
                '(kvs, rest) ← parse_members fuel' r4;
                Some ((k, v) :: kvs, rest)
              else if c =? 125 then Some ([(k, v)], r4)
              else None
            | [] => None
            end
          else None
        | [] => None
        end
      else None
    | [] => None
    end
  end.

End Composite.

(** One value; [fuel] bounds the nesting depth. *)
Fixpoint parse_value (fuel : nat) (s : jsstring) : option (value * jsstring) :=
  match fuel with
  | O => None
  | S fuel' =>
    match skip_ws s with
    | [] => None
    | c :: r =>
      if c =? 123 then
        match skip_ws r with
        | c2 :: r2 =>
          if c2 =? 125 then Some (VObj [], r2)
          else
            '(kvs, rest) ← parse_members (parse_value fuel') (length r) r;
            Some (VObj kvs, rest)
        | [] => None
        end
      else if c =? 91 then
        match skip_ws r with
        | c2 :: r2 =>
          if c2 =? 93 then Some (VArr [], r2)
          else
            '(vs, rest) ← parse_elements (parse_value fuel') (length r) r;
            Some (VArr vs, rest)
        | [] => None
        end
      else if c =? 34 then
        '(t, rest) ← parse_chars r; Some (VStr t, rest)
      else if (c =? 45) || is_digit c then
        '(n, rest) ← parse_number (c :: r); Some (VNum n, rest)
      else if startsWith (lit "true") (c :: r)
        then Some (VBool true, drop 4 (c :: r))
      else if startsWith (lit "false") (c :: r)
        then Some (VBool false, drop 5 (c :: r))
      else if startsWith (lit "null") (c :: r)
        then Some (VNull, drop 4 (c :: r))
      else None
    end
  end.

(** A text is JSON when it is one value between optional whitespace. *)
Definition parse (s : jsstring) : option value :=
  match parse_value (S (length s)) s with
  | Some (v, rest) =>
    match skip_ws rest with
    | [] => Some v
    | _ => None
    end
  | None => None
  end.

(** As [JSON.parse]: a failure is a thrown [SyntaxError] (V8 words the
    message after the offending token; no handler shows it). *)
Definition JSON_parse (s : jsstring) : result value :=
  match parse s with
  | Some v => inr v
  | None => inl (Thrown (lit "Unexpected token in JSON"))
  end.

End Ecma404.

(** ** The store: the statements the handlers send through [pool.query] *)

(** [n.toString(36)] for an integer. *)
Module Radix.

Definition digit (d : Z) : Z := if d <? 10 then 48 + d else 87 + d.

Fixpoint digits36 (fuel : nat) (n : Z) (acc : jsstring) : jsstring :=
  match fuel with
  | O => acc
  | S fuel' =>
    let acc' := digit (n mod 36) :: acc in
    if n / 36 =? 0 then acc' else digits36 fuel' (n / 36) acc'
  end.

(** A number has no more base-36 digits than bits. *)
Definition toString36 (z : Z) : jsstring :=
  (if z <? 0 then [45] else [])
  ++ digits36 (S (Z.to_nat (Z.log2 (Z.abs z)))) (Z.abs z) [].

(** [toUpperCase] on the digits and lower-case letters [toString36] yields. *)
Definition toUpperCase (s : jsstring) : jsstring :=
  map (fun c => if (97 <=? c) && (c <=? 122) then c - 32 else c) s.

End Radix.

(** Rows by descending [created_at]; rows of equal time keep table order
    (the engine leaves their order open). *)
Fixpoint insert_desc (r : report_row) (rows : list report_row)
  : list report_row :=
  match rows with
  | [] => [r]
  | x :: rest =>
    if r_created_at x <? r_created_at r then r :: rows
    else x :: insert_desc r rest
  end.

Definition order_by_created_at_desc (rows : list report_row)
  : list report_row :=
  foldr insert_desc [] rows.

Section Store.

(** The engine's type and width checks on a row about to be inserted
    (VARCHAR limits, text encoding, JSONB). *)
Variable admits_user : user_row -> bool.
Variable admits_report : report_row -> bool.

(** The value the [SERIAL] sequence hands to this request's insert, and
    the engine's [NOW()]. *)
Variable nextval : Z.
Variable NOW : Z.

(** Every statement needs the store reachable. *)
Definition connected : M unit := fun w =>
  if online (db w) then (w, inr tt)
  else (w, inl (Thrown (lit "connect ECONNREFUSED"))).

(** [SELECT id FROM users WHERE email=$1] *)
Definition select_users_by_email (email : jsstring) : M (list user_row) :=
  _ ← connected;
  gets (fun w => List.filter (fun u => eqb (u_email u) email) (users (db w))).

(** [INSERT INTO users (email, password_hash, name, company) VALUES
    ($1,$2,$3,$4) RETURNING ...]: [email] is UNIQUE. *)
Definition insert_user (email hash name company : jsstring) : M user_row :=
  _ ← connected;
  d ← gets db;
  let row := UserRow nextval email hash name company NOW in
  if existsb (fun u => eqb (u_email u) email) (users d) then
    throw (Thrown (lit "duplicate key value violates unique constraint"))
  else if negb (admits_user row) then
    throw (Thrown (lit "value rejected by column type"))
  else
    _ ← modify (with_db (MkDb (online d) (users d ++ [row]) (reports d)));
    mret row.

(** [INSERT INTO reports (user_id, report_id, title, data, lang, score)
    VALUES ($1,...,$6) RETURNING ...]: [user_id] is NOT NULL and
    references [users(id)]; [report_id] is UNIQUE. *)
Definition insert_report (user_id : option Z) (report_id : jsstring)
    (title data lang : value) (score : Z) : M report_row :=
  _ ← connected;
  d ← gets db;
  match user_id with
  | None =>
    throw (Thrown (lit "null value in column violates not-null constraint"))
  | Some uid =>
    let row := ReportRow nextval uid report_id title data lang score NOW in
    if negb (existsb (fun u => u_id u =? uid) (users d)) then
      throw (Thrown (lit "insert violates foreign key constraint"))
    else if existsb (fun r => eqb (r_report_id r) report_id) (reports d) then
      throw (Thrown (lit "duplicate key value violates unique constraint"))
    else if negb (admits_report row) then
      throw (Thrown (lit "value rejected by column type"))
    else
      _ ← modify (with_db (MkDb (online d) (users d) (reports d ++ [row])));
      mret row
  end.

(** Whether column [user_id] equals the bound parameter (NULL equals
    nothing). *)
Definition owned_by (user_id : option Z) (r : report_row) : bool :=
  match user_id with
  | Some uid => r_user_id r =? uid
  | None => false
  end.

(** [SELECT ... FROM reports WHERE user_id=$1 ORDER BY created_at DESC
    LIMIT 50] *)
Definition select_reports_of (user_id : option Z) : M (list report_row) :=
  _ ← connected;
  gets (fun w =>
    take 50 (order_by_created_at_desc
               (List.filter (owned_by user_id) (reports (db w))))).

(** [... WHERE report_id=$1 AND user_id=$2] *)
Definition matches (report_id : jsstring) (user_id : option Z)
    (r : report_row) : bool :=
  eqb (r_report_id r) report_id && owned_by user_id r.

(** [SELECT ... FROM reports WHERE report_id=$1 AND user_id=$2] *)
Definition select_report (report_id : jsstring) (user_id : option Z)
  : M (list report_row) :=
  _ ← connected;
  gets (fun w => List.filter (matches report_id user_id) (reports (db w))).

(** [DELETE FROM reports WHERE report_id=$1 AND user_id=$2] *)
Definition delete_report (report_id : jsstring) (user_id : option Z)
  : M unit :=
  _ ← connected;
  modify (fun w =>
    with_db (MkDb (online (db w)) (users (db w))
               (List.filter (fun r => negb (matches report_id user_id r))
                            (reports (db w)))) w).

End Store.

(** ** Report routes *)

(** [req.session.userId] is truthy: there is a user id and it is not 0. *)
Definition authenticated (w : World) : bool :=
  match session_userId w with
  | Some uid => negb (uid =? 0)
  | None => false
  end.

(** The [requireAuth] middleware in front of a handler. *)
Definition requireAuth (next : handler) : handler := fun w =>
  if authenticated w then next w
  else (w, Response 401 (VObj [kv "error" (str "Not authenticated")])).

(** The columns a statement returns, as the row object in [result.rows]. *)
Definition saved_columns (r : report_row) : value :=
  VObj [kv "id" (num (r_id r)); kv "report_id" (VStr (r_report_id r));
        kv "title" (r_title r); kv "score" (num (r_score r));
        kv "created_at" (VDate (r_created_at r))].

Definition listed_columns (r : report_row) : value :=
  VObj [kv "id" (num (r_id r)); kv "report_id" (VStr (r_report_id r));
        kv "title" (r_title r); kv "score" (num (r_score r));
        kv "lang" (r_lang r); kv "created_at" (VDate (r_created_at r))].

(** [jsonb] is what a SELECT gives back for the JSONB column [data] into
    which the parameter was bound: the driver serialises the value on the
    way in and parses the column on the way out, and the engine keeps the
    record in its own form in between (keys in its order, one binding per
    key). *)
Definition loaded_columns (jsonb : value -> value) (r : report_row) : value :=
  VObj [kv "id" (num (r_id r)); kv "report_id" (VStr (r_report_id r));
        kv "title" (r_title r); kv "data" (jsonb (r_data r));
        kv "score" (num (r_score r)); kv "lang" (r_lang r);
        kv "created_at" (VDate (r_created_at r))].

(** [riskLevel === "low" ? 1 : riskLevel === "high" ? 3 : 2] *)
Definition score_of (riskLevel : value) : Z :=
  if is_string riskLevel (lit "low") then 1
  else if is_string riskLevel (lit "high") then 3
  else 2.

Section Reports.

Variable admits_report : report_row -> bool.
Variable nextval : Z.
Variable NOW : Z.

(** [Date.now()] when the save handler runs. *)
Variable Date_now : Z.

Definition save_report_body (req : request) : M response :=
  let reportData := field (lit "reportData") (req_body req) in
  let lang := field (lit "lang") (req_body req) in
  let title := field (lit "title") (req_body req) in
  if negb (ToBoolean reportData) then
    mret (Response 400 (VObj [kv "error" (str "Report data is required")]))
  else
    let reportId :=
      lit "GTM-" ++ Radix.toUpperCase (Radix.toString36 Date_now) in
    overallRiskLevel ← lift (get_prop reportData (lit "overallRiskLevel"));
    let riskLevel := or_else overallRiskLevel (str "medium") in
    let score := score_of riskLevel in
    let reportTitle :=
      or_else title
        (if is_string lang (lit "cn") then str "产品合规结构评估报告"
         else str "Product Compliance Structural Assessment Report") in
    userId ← gets session_userId;
    row ← insert_report admits_report nextval NOW
            userId reportId reportTitle reportData
            (or_else lang (str "en")) score;
    mret (json (VObj [kv "success" (VBool true);
                      kv "report" (saved_columns row)])).

(** [app.post("/api/reports", requireAuth, ...)] *)
Definition post_api_reports (req : request) : handler :=
  requireAuth
    (try_catch (save_report_body req)
       (fun err =>
          Response 500 (VObj [kv "error" (str "Failed to save report")]))).

End Reports.

(** [app.get("/api/reports", requireAuth, ...)] *)
Definition get_api_reports (req : request) : handler :=
  requireAuth
    (try_catch
       (userId ← gets session_userId;
        rows ← select_reports_of userId;
        mret (json (VObj [kv "reports" (VArr (map listed_columns rows))])))
       (fun err =>
          Response 500 (VObj [kv "error" (str "Failed to list reports")]))).

Section LoadReport.

(** The engine's and the driver's rendering of a JSONB column: what comes
    back for the value that was bound. *)
Variable jsonb : value -> value.

(** [app.get("/api/reports/:reportId", requireAuth, ...)] *)
Definition get_api_reports_id (req : request) : handler :=
  requireAuth
    (try_catch
       (userId ← gets session_userId;
        rows ← select_report (req_reportId req) userId;
        match rows with
        | [] =>
          mret (Response 404 (VObj [kv "error" (str "Report not found")]))
        | row :: _ =>
          mret (json (VObj [kv "report" (loaded_columns jsonb row)]))
        end)
       (fun err =>
          Response 500 (VObj [kv "error" (str "Failed to load report")]))).

End LoadReport.

(** [app.delete("/api/reports/:reportId", requireAuth, ...)] *)
Definition delete_api_reports_id (req : request) : handler :=
  requireAuth
    (try_catch
       (userId ← gets session_userId;
        _ ← delete_report (req_reportId req) userId;
        mret (json (VObj [kv "success" (VBool true)])))
       (fun err =>
          Response 500 (VObj [kv "error" (str "Failed to delete report")]))).

(** ** Registration *)

Section Register.

Variable admits_user : user_row -> bool.
Variable nextval : Z.
Variable NOW : Z.

(** [String.prototype.toLowerCase], the runtime's. *)
Variable toLowerCase : jsstring -> jsstring.

(** [bcrypt.hash(password, 12)]: the hash, or the rejection. *)
Variable bcrypt_hash : value -> result jsstring.

(** [v < n] of the runtime, for a [v] that is not the length of a string
    or an array. *)
Variable less_than : value -> Z -> bool.

(** [v.length < n] for a [v] that is neither [undefined] nor [null]. *)
Definition length_below (v : value) (n : Z) : bool :=
  match v with
  | VStr s => Z.of_nat (length s) <? n
  | VArr l => Z.of_nat (length l) <? n
  | VObj fields => less_than (field (lit "length") fields) n
  | _ => false
  end.

(** The receiver of a string method: anything else has no such method
    and the call throws a [TypeError]. *)
Definition receiver (what : jsstring) (v : value) : M jsstring :=
  match v with
  | VStr s => mret s
  | _ => throw (Thrown (what ++ lit " is not a function"))
  end.

Definition register_body (req : request) : M response :=
  let email := field (lit "email") (req_body req) in
  let password := field (lit "password") (req_body req) in
  let name := field (lit "name") (req_body req) in
  let company := field (lit "company") (req_body req) in
  if negb (ToBoolean email) || negb (ToBoolean password)
     || negb (ToBoolean name) then
    mret (Response 400
            (VObj [kv "error" (str "Email, password, and name are required")]))
  else if length_below password 6 then
    mret (Response 400
            (VObj [kv "error" (str "Password must be at least 6 characters")]))
  else
    e ← receiver (lit "email.toLowerCase") email;
    existing ← select_users_by_email (trim (toLowerCase e));
    if negb (bool_decide (length existing = 0%nat)) then
      mret (Response 409 (VObj [kv "error" (str "Email already registered")]))
    else
      hash ← lift (bcrypt_hash password);
      n ← receiver (lit "name.trim") name;
      c ← receiver (lit "(company || " ++ dq ++ dq ++ lit ").trim")
            (or_else company (VStr []));
      user ← insert_user admits_user nextval NOW
               (trim (toLowerCase e)) hash (trim n) (trim c);
      _ ← modify (with_session (Some (u_id user)));
      mret (json (VObj [
        kv "success" (VBool true);
        kv "user" (VObj [kv "id" (num (u_id user));
                         kv "email" (VStr (u_email user));
                         kv "name" (VStr (u_name user));
                         kv "company" (VStr (u_company user))])])).

(** [app.post("/api/auth/register", ...)] *)
Definition post_api_auth_register (req : request) : handler :=
  try_catch (register_body req)
    (fun err => Response 500 (VObj [kv "error" (str "Registration failed")])).

End Register.

(** ** Login, logout, current user *)

(** [SELECT id, email, name, company FROM users WHERE id=$1] *)
Definition select_users_by_id (user_id : option Z) : M (list user_row) :=
  _ ← connected;
  gets (fun w =>
    List.filter
      (fun u => match user_id with
                | Some uid => u_id u =? uid
                | None => false
                end)
      (users (db w))).

(** The [user] object the auth routes answer with: no password hash. *)
Definition public_user (u : user_row) : value :=
  VObj [kv "id" (num (u_id u)); kv "email" (VStr (u_email u));
        kv "name" (VStr (u_name u)); kv "company" (VStr (u_company u))].

Section Login.

(** [String.prototype.toLowerCase], the runtime's. *)
Variable toLowerCase : jsstring -> jsstring.

(** [bcrypt.compare(password, hash)]: the verdict, or the rejection. *)
Variable bcrypt_compare : value -> jsstring -> result bool.

Definition login_body (req : request) : M response :=
  let email := field (lit "email") (req_body req) in
  let password := field (lit "password") (req_body req) in
  if negb (ToBoolean email) || negb (ToBoolean password) then
    mret (Response 400
            (VObj [kv "error" (str "Email and password are required")]))
  else
    e ← receiver (lit "email.toLowerCase") email;
    rows ← select_users_by_email (trim (toLowerCase e));
    match rows with
    | [] =>
      mret (Response 401 (VObj [kv "error" (str "Invalid email or password")]))
    | user :: _ =>
      valid ← lift (bcrypt_compare password (u_password_hash user));
      if negb valid then
        mret (Response 401
                (VObj [kv "error" (str "Invalid email or password")]))
      else
        _ ← modify (with_session (Some (u_id user)));
        mret (json (VObj [kv "success" (VBool true);
                          kv "user" (public_user user)]))
    end.

(** [app.post("/api/auth/login", ...)] *)
Definition post_api_auth_login (req : request) : handler :=
  try_catch (login_body req)
    (fun err => Response 500 (VObj [kv "error" (str "Login failed")])).

End Login.

(** [app.post("/api/auth/logout", ...)]: [req.session.destroy] drops the
    session, then the callback answers. *)
Definition post_api_auth_logout (req : request) : handler := fun w =>
  (with_session None w, json (VObj [kv "success" (VBool true)])).

(** [app.get("/api/auth/me", ...)] *)
Definition get_api_auth_me (req : request) : handler := fun w =>
  if negb (authenticated w) then (w, json (VObj [kv "user" VNull]))
  else
    try_catch
      (userId ← gets session_userId;
       rows ← select_users_by_id userId;
       match rows with
       | [] => mret (json (VObj [kv "user" VNull]))
       | user :: _ => mret (json (VObj [kv "user" (public_user user)]))
       end)
      (fun err => json (VObj [kv "user" VNull])) w.

(** ** [GET /api/health] *)

Section Health.

(** [new Date().toISOString()] at the time of the request. *)
Variable timestamp : jsstring.

(** [process.env.DATABASE_URL] *)
Variable DATABASE_URL : option jsstring.

(** [!!v] for an environment variable: set and not empty. *)
Definition env_set (v : option jsstring) : bool :=
  match v with
  | Some s => negb (eqb s [])
  | None => false
  end.

(** [app.get("/api/health", ...)] *)
Definition get_api_health (cfg : config) (req : request) : handler := fun w =>
  (w, json (VObj [kv "status" (str "ok");
                  kv "geminiConfigured" (VBool (env_set (GEMINI_API_KEY cfg)));
                  kv "dbConfigured" (VBool (env_set DATABASE_URL));
                  kv "timestamp" (VStr timestamp)])).

End Health.

(** ** [POST /api/analyze-confirmed] *)

Section Confirmed.

Variable JSON_parse : jsstring -> result value.

(** [formatConfirmedDataAsText(confirmedData)], the prompt built around it
    and the model call, [model.generateContent(prompt)] with its text, as a
    function of what the handler varies: the client, the language and the
    confirmed data. What any of the three throws reaches the same [catch]. *)
Variable generateConfirmed : jsstring -> value -> value -> result jsstring.

Variable cfg : config.

Definition confirmed_body (req : request) : M response :=
  let confirmedData := field (lit "confirmedData") (req_body req) in
  let lang := field (lit "lang") (req_body req) in
  if negb (ToBoolean confirmedData) then
    mret (Response 400 (VObj [kv "error" (str "No confirmed data provided")]))
  else
    match getGeminiClient cfg with
    | None =>
      mret (json (VObj [
        kv "success" (VBool true);
        kv "demo" (VBool true);
        kv "message"
           (str "GEMINI_API_KEY not configured. Returning demo analysis.");
        kv "data" (getDemoData (or_else lang (str "en")))]))
    | Some genAI =>
      text ← lift (generateConfirmed genAI (or_else lang (str "en"))
                     confirmedData);
      match parseGeminiJSON JSON_parse text with
      | inl e =>
        mret (Response 500 (VObj [
          kv "error" (str "Failed to parse AI response");
          kv "raw" (VStr (substring 0 800 text))]))
      | inr data =>
        mret (json (VObj [
          kv "success" (VBool true);
          kv "demo" (VBool false);
          kv "data" data]))
      end
    end.

(** [app.post("/api/analyze-confirmed", ...)] *)
Definition post_api_analyze_confirmed (req : request) : handler :=
  try_catch (confirmed_body req)
    (fun err =>
       Response 500 (VObj [
         kv "error"
            (or_else (VStr (message err)) (str "Internal server error"))])).

End Confirmed.

(** ** [POST /api/analyze] before [parseGeminiJSON] was factored out

    The handler with everything inline: the parts are pushed in a loop, the
    two parse methods are nested [try] blocks, the files are unlinked in a
    loop. *)

(** [for (const file of files) { ... imageParts.push(...) ... }], with the
    parts pushed so far. *)
Fixpoint push_parts (files : list file) (imageParts : list part)
  : M (list part) :=
  match files with
  | [] => mret imageParts
  | f :: rest =>
    if startsWith (lit "image/") (mimetype f) then
      imageData ← readFileSync (path f);
      push_parts rest (imageParts ++ [Part imageData (mimetype f)])
    else if eqb (mimetype f) (lit "application/pdf") then
      pdfData ← readFileSync (path f);
      push_parts rest (imageParts ++ [Part pdfData (lit "application/pdf")])
    else push_parts rest imageParts
  end.

(** [for (const file of files) { fs.unlink(file.path, () => {}); }] *)
Definition unlink_each (files : list file) : M unit :=
  foldl (fun done f => _ ← done; unlink (path f)) (mret tt) files.

Section AnalyzeInline.

Variable JSON_parse : jsstring -> result value.
Variable generateContent : jsstring -> value -> list part -> result jsstring.
Variable cfg : config.

(** Method 2: [try { ... } catch (e2)] around the brace extraction. *)
Definition method2 (text : jsstring) : result value :=
  let firstBrace := indexOf 123 text in
  let lastBrace := lastIndexOf 125 text in
  if negb (firstBrace =? -1) && (firstBrace <? lastBrace) then
    JSON_parse (substring firstBrace (lastBrace + 1) text)
  else inl (Thrown (lit "No JSON object found in response")).

Definition analyze_inline_body (req : request) : M response :=
  let files := req_files req in
  let lang := or_else (field (lit "lang") (req_body req)) (str "en") in
  match files with
  | None | Some [] =>
    mret (Response 400 (VObj [kv "error" (str "No files uploaded")]))
  | Some files =>
    match getGeminiClient cfg with
    | None =>
      mret (json (VObj [
        kv "success" (VBool true);
        kv "demo" (VBool true);
        kv "message"
           (str "GEMINI_API_KEY not configured. Returning demo analysis.");
        kv "data" (getDemoData lang)]))
    | Some genAI =>
      imageParts ← push_parts files [];
      if bool_decide (length imageParts = 0%nat) then
        mret (Response 400
                (VObj [kv "error" (str "No valid image/PDF files found")]))
      else
        text ← lift (generateContent genAI lang imageParts);
        let failed :=
          Response 500 (VObj [
            kv "error" (str "Failed to parse AI response");
            kv "raw" (VStr (substring 0 800 text))]) in
        let finish (data : value) : M response :=
          _ ← unlink_each files;
          mret (json (VObj [
            kv "success" (VBool true);
            kv "demo" (VBool false);
            kv "data" data])) in
        match JSON_parse (cleaned text) with
        | inr data => finish data
        | inl e1 =>
          match method2 text with
          | inr data => finish data
          | inl e2 => mret failed
          end
        end
    end
  end.

(** The handler of [app.post("/api/analyze", ...)] in that version. *)
Definition post_api_analyze_inline (req : request) : handler :=
  try_catch (analyze_inline_body req)
    (fun err =>
       Response 500 (VObj [
         kv "error"
            (or_else (VStr (message err)) (str "Internal server error"))])).

End AnalyzeInline.

(** ** Vocabulary of the statements *)

(** A string is free of fence delimiters when no three backticks stand
    together in it. *)
Definition fence_free (t : jsstring) : Prop :=
  forall pre post, t ≠ pre ++ [96; 96; 96] ++ post.

(** The [fileFilter] of the upload middleware: the media types it lets
    through to [req.files]. *)
Definition fileFilter (f : file) : bool :=
  bool_decide (mimetype f ∈ [lit "image/jpeg"; lit "image/png";
                             lit "image/webp"; lit "application/pdf"]).

(** A file of [req.files] as multer leaves it: accepted by the filter and
    written to the upload directory. *)
Definition uploaded (w : World) (f : file) : Prop :=
  fileFilter f = true ∧ is_Some (uploads w !! path f).

(** The parts read from such files. *)
Definition parts_read (fs : gmap jsstring (list Z)) (files : list file)
  : list part :=
  omap (fun f => content ← fs !! path f; Some (Part content (mimetype f)))
       files.

(** [req.body.lang || "en"] *)
Definition lang_of (req : request) : value :=
  or_else (field (lit "lang") (req_body req)) (str "en").

(** The upload directory once [cleanupFiles(files)] has run. *)
Definition without (files : list file) (fs : gmap jsstring (list Z))
  : gmap jsstring (list Z) :=
  foldl (fun m f => delete (path f) m) fs files.

(** The response of the parse-failure branch of [/api/analyze]. *)
Definition parse_failure_response (text : jsstring) : response :=
  Response 500 (VObj [kv "error" (str "Failed to parse AI response");
                      kv "raw" (VStr (substring 0 800 text))]).

(** The response of the live success branch. *)
Definition live_response (v : value) : response :=
  json (VObj [kv "success" (VBool true); kv "demo" (VBool false);
              kv "data" v]).

(** The response of the demo branch. *)
Definition demo_response (lang : value) : response :=
  json (VObj [
    kv "success" (VBool true);
    kv "demo" (VBool true);
    kv "message" (str "GEMINI_API_KEY not configured. Returning demo analysis.");
    kv "data" (getDemoData lang)]).

(** The four sections the specification requires of an assessment record. *)
Definition spec_required_sections : list jsstring :=
  [lit "ingredientRisk"; lit "labelCompliance"; lit "facilityRegistration";
   lit "marketingClaims"].

Definition is_object (v : value) : bool :=
  match v with
  | VObj _ => true
  | _ => false
  end.

(** The first requirement of the specification's shape validation: each
    required section is present as an object. *)
Definition spec_sections_present (v : value) : bool :=
  match v with
  | VObj fields =>
    forallb (fun k => is_object (field k fields)) spec_required_sections
  | _ => false
  end.

(** The UNIQUE constraint on [reports.report_id], as an invariant of the
    table. *)
Definition report_ids_unique (d : Db) : Prop :=
  NoDup (map r_report_id (reports d)).

(** The conditions under which the store takes a new report row. *)
Definition store_takes (admits_report : report_row -> bool) (d : Db)
    (row : report_row) : Prop :=
  online d = true
  ∧ existsb (fun u => u_id u =? r_user_id row) (users d) = true
  ∧ existsb (fun r => eqb (r_report_id r) (r_report_id row)) (reports d) = false
  ∧ admits_report row = true.

(** [reportData.overallRiskLevel || "medium"] *)
Definition risk_level_of (overallRiskLevel : value) : value :=
  or_else overallRiskLevel (str "medium").

(** The report id the save handler makes at time [Date_now]. *)
Definition report_id_at (Date_now : Z) : jsstring :=
  lit "GTM-" ++ Radix.toUpperCase (Radix.toString36 Date_now).

(** The title the save handler stores. *)
Definition title_of (req : request) : value :=
  or_else (field (lit "title") (req_body req))
    (if is_string (field (lit "lang") (req_body req)) (lit "cn")
     then str "产品合规结构评估报告"
     else str "Product Compliance Structural Assessment Report").

(** The request reaches the parse step of [/api/analyze] with the model's
    reply [text]: a credential is configured, [req.files] holds the uploaded
    [files] (at least one), and the model call returns [text]. *)
Definition reaches_parser
    (generateContent : jsstring -> value -> list part -> result jsstring)
    (cfg : config) (req : request) (w : World) (files : list file)
    (text : jsstring) : Prop :=
  exists genAI,
    getGeminiClient cfg = Some genAI
    ∧ req_files req = Some files
    ∧ files ≠ []
    ∧ Forall (uploaded w) files
    ∧ generateContent genAI (lang_of req) (parts_read (uploads w) files)
      = inr text.

(** The row the save handler binds for user [uid] when the record's
    [overallRiskLevel] reads [level]. *)
Definition row_to_save (nextval NOW Date_now uid : Z) (req : request)
    (level : value) : report_row :=
  ReportRow nextval uid (report_id_at Date_now) (title_of req)
    (field (lit "reportData") (req_body req))
    (or_else (field (lit "lang") (req_body req)) (str "en"))
    (score_of (risk_level_of level)) NOW.

(** [r.body.k] of a response whose body is an object. *)
Definition body_field (k : string) (r : response) : value :=
  match body r with
  | VObj fields => field (lit k) fields
  | _ => VUndefined
  end.
Arguments body_field k%_string r.

(** The response of the demo branch of [/api/extract]. *)
Definition demo_extraction_response (lang : value) : response :=
  json (VObj [
    kv "success" (VBool true);
    kv "demo" (VBool true);
    kv "message"
       (str "GEMINI_API_KEY not configured. Returning demo extraction.");
    kv "data" (getDemoExtractedData lang)]).

(** The UNIQUE constraint on [users.email], as an invariant of the table. *)
Definition emails_unique (d : Db) : Prop :=
  NoDup (map u_email (users d)).

(** The row registration binds for the strings [e], [n], [c] and the hash
    [h]: email lower-cased and trimmed, name and company trimmed. *)
Definition row_to_register (nextval NOW : Z)
    (toLowerCase : jsstring -> jsstring) (e h n c : jsstring) : user_row :=
  UserRow nextval (trim (toLowerCase e)) h (trim n) (trim c) NOW.

(** Rows in the order [ORDER BY created_at DESC] asks for: no row is
    followed by a newer one. *)
Definition newest_first (rows : list report_row) : Prop :=
  StronglySorted (fun a b => r_created_at b <= r_created_at a) rows.

(** The value of an upper-case base-36 digit, and of a string of them. *)
Definition digit_value (c : Z) : Z := if c <? 58 then c - 48 else c - 55.

Definition parse36 (s : jsstring) : Z :=
  foldl (fun a c => a * 36 + digit_value c) 0 s.

(** The time a report id was made at: the digits after ["GTM-"]. *)
Definition time_of_report_id (id : jsstring) : Z :=
  parse36 (drop 4 id).

(** What [id SERIAL PRIMARY KEY] gives the rows of [users]: ids are
    unique and positive. *)
Definition user_ids_serial (d : Db) : Prop :=
  NoDup (map u_id (users d)) ∧ forall u, u ∈ users d -> 0 < u_id u.

(** [r.body.report.k] of a response that carries a report row. *)
Definition report_field (k : string) (r : response) : result value :=
  get_prop (body_field "report" r) (lit k).
Arguments report_field k%_string r.

(** ** Sample requests *)

(** One PNG as multer stores it, and the upload directory holding it. *)
Definition png : file :=
  File (lit "uploads/1700000000000-424242.png") (lit "image/png").

Definition disk : World :=
  MkWorld {[ path png := [137; 80; 78; 71] ]} (MkDb true [] []) None.

(** [POST /api/analyze] with that file and no [lang] field. *)
Definition upload_request : request := Request (Some [png]) [] [].

Definition no_key : config := Config None.
Definition with_key : config := Config (Some (lit "AIza-key")).

(** A model that answers [text] whatever it is asked. *)
Definition model_says (text : jsstring)
  : jsstring -> value -> list part -> result jsstring :=
  fun _ _ _ => inr text.

(** A model call that rejects with [msg]. *)
Definition model_fails (msg : jsstring)
  : jsstring -> value -> list part -> result jsstring :=
  fun _ _ _ => inl (Thrown msg).

(** Two registered users, one report saved by the second, and the first
    logged in. *)
Definition alice : user_row :=
  UserRow 1 (lit "alice@example.com") (lit "$2a$12$aaaa") (lit "Alice") [] 0.

Definition bob : user_row :=
  UserRow 2 (lit "bob@example.com") (lit "$2a$12$bbbb") (lit "Bob") [] 0.

Definition bobs_report : report_row :=
  ReportRow 1 2 (lit "GTM-LOYW3V00") (str "Tea label")
    (VObj [kv "overallRiskLevel" (str "high")]) (str "en") 3 1699999999000.

Definition alice_session : World :=
  MkWorld ∅ (MkDb true [alice; bob] [bobs_report]) (Some 1).

(** A request for the report [reportId]. *)
Definition report_request (reportId : jsstring) : request :=
  Request None [] reportId.

(** A save request whose body is [{reportData}]. *)
Definition save_request (reportData : value) : request :=
  Request None [kv "reportData" reportData] [].

(** An engine that takes every row. *)
Definition admit_all {A} (row : A) : bool := true.

(** A fresh deployment: nothing uploaded, nobody registered or logged in. *)
Definition fresh_world : World := MkWorld ∅ (MkDb true [] []) None.

(** A registration body. *)
Definition register_request (email password name : string) : request :=
  Request None
    [kv "email" (str email); kv "password" (str password);
     kv "name" (str name)] [].
Arguments register_request (email password name)%_string.

(** [toLowerCase] on ASCII text. *)
Definition ascii_toLowerCase (s : jsstring) : jsstring :=
  map (fun c => if (65 <=? c) && (c <=? 90) then c + 32 else c) s.

(** A stand-in for [bcrypt.hash]: strings hash, anything else is refused. *)
Definition sample_hash (password : value) : result jsstring :=
  match password with
  | VStr s => inr (lit "$2a$12$" ++ s)
  | _ => inl (Thrown (lit "Illegal arguments: object, number"))
  end.

(** A stand-in for the runtime's [<] on other operands. *)
Definition never_less (v : value) (n : Z) : bool := false.

(** A stand-in for [bcrypt.compare] that goes with [sample_hash]. *)
Definition sample_compare (password : value) (hash : jsstring)
  : result bool :=
  match password with
  | VStr s => inr (eqb hash (lit "$2a$12$" ++ s))
  | _ => inl (Thrown (lit "Illegal arguments: object, string"))
  end.

(** A login body. *)
Definition login_request (email password : string) : request :=
  Request None [kv "email" (str email); kv "password" (str password)] [].
Arguments login_request (email password)%_string.

(** [POST /api/analyze-confirmed] with an empty confirmed record. *)
Definition confirmed_request : request :=
  Request None [kv "confirmedData" (VObj [])] [].

(** A confirmed-analysis model call that answers [text]. *)
Definition confirmed_says (text : jsstring)
  : jsstring -> value -> value -> result jsstring :=
  fun _ _ _ => inr text.

(** The same store with the second user logged in. *)
Definition bob_session : World :=
  MkWorld ∅ (MkDb true [alice; bob] [bobs_report]) (Some 2).

(** The millisecond whose report id is the one of [bobs_report]. *)
Definition bobs_millisecond : Z :=
  Eval vm_compute in time_of_report_id (r_report_id bobs_report).

(** A stand-in for the JSONB column on records of objects, arrays, strings,
    numbers, booleans and [null]: an object comes back with its keys in the
    engine's order (shorter keys first, then by code unit) and a repeated
    key keeps its last value. *)
Fixpoint units_before (a b : jsstring) : bool :=
  match a, b with
  | [], _ :: _ => true
  | x :: a', y :: b' => (x <? y) || ((x =? y) && units_before a' b')
  | _, _ => false
  end.

Definition key_before (a b : jsstring) : bool :=
  (length a <? length b)%nat
  || ((length a =? length b)%nat && units_before a b).

Fixpoint put_key (k : jsstring) (v : value) (l : list (jsstring * value))
  : list (jsstring * value) :=
  match l with
  | [] => [(k, v)]
  | (k', v') :: rest =>
    if eqb k' k then l
    else if key_before k k' then (k, v) :: l
    else (k', v') :: put_key k v rest
  end.

Fixpoint jsonb_sorted (v : value) : value :=
  match v with
  | VArr items => VArr (map jsonb_sorted items)
  | VObj fields =>
    VObj (foldr (fun b acc => put_key (fst b) (snd b) acc) []
            (map (fun b => match b with (k, x) => (k, jsonb_sorted x) end)
               fields))
  | _ => v
  end.

(** * Examples *)

Example lit_ascii : lit "{ok}" = [123; 111; 107; 125].
Proof. reflexivity. Qed.

Example lit_cjk : lit "低糖" = [20302; 31958].
Proof. reflexivity. Qed.

Example substring_swaps : substring 3 1 (lit "abcdef") = lit "bc".
Proof. reflexivity. Qed.

Example falsy_values :
  map ToBoolean [VUndefined; VNull; VBool false; VNum (num_of_Z 0); VStr []]
  = [false; false; false; false; false].
Proof. reflexivity. Qed.

Example truthy_values :
  map ToBoolean [VStr (lit "0"); VNum (num_of_Z 3); VArr []; VObj []]
  = [true; true; true; true].
Proof. reflexivity. Qed.

Example own_last_wins :
  field (lit "a") [(lit "a", VNull); (lit "b", VBool true); (lit "a", VStr (lit "x"))]
  = VStr (lit "x").
Proof. reflexivity. Qed.

Example cleaned_fenced :
  cleaned (lit "```json {} ```  ") = lit "{}".
Proof. reflexivity. Qed.

Example cleaned_upper_fence :
  cleaned (lit "```JSON
[1]
```") = lit "[1]".
Proof. reflexivity. Qed.

Example cleaned_keeps_prose :
  cleaned (lit "Here: ```json{}``` bye") = lit "Here: {}bye".
Proof. reflexivity. Qed.

Example parse_empty_object : Ecma404.parse (lit "{}") = Some (VObj []).
Proof. vm_compute. reflexivity. Qed.

Example parse_nested :
  Ecma404.parse (lit " [1, -2.50e1, true, null, {}, [[]]] ")
  = Some (VArr [VNum (Num false 1 0); VNum (Num true 250 (-1)); VBool true;
                VNull; VObj []; VArr [VArr []]]).
Proof. vm_compute. reflexivity. Qed.

Example parse_string_escape :
  Ecma404.parse (dq ++ lit "aA\n" ++ dq)
  = Some (VStr [97; 65; 10]).
Proof. vm_compute. reflexivity. Qed.

Example parse_members_example :
  Ecma404.parse (lit "{ " ++ dq ++ lit "k" ++ dq ++ lit " : [ ] , "
                 ++ dq ++ dq ++ lit ":0}")
  = Some (VObj [(lit "k", VArr []); ([], VNum (Num false 0 0))]).
Proof. vm_compute. reflexivity. Qed.

Example parse_rejects :
  map Ecma404.parse
    [lit "{ invalid json"; lit "01"; lit "[1,]"; lit "{} x"; lit "";
     lit "1."; lit "tru"; lit "{'a':1}"; lit "-"; lit "[1 2]"]
  = [None; None; None; None; None; None; None; None; None; None].
Proof. vm_compute. reflexivity. Qed.

Example toString36_examples :
  map Radix.toString36 [0; 35; 36; 1700000000000]
  = [lit "0"; lit "z"; lit "10"; lit "loyw3v28"].
Proof. vm_compute. reflexivity. Qed.

(** Prose, a fenced object, prose: the strict tier fails on the prose and
    the salvage tier recovers the object. *)
Example fenced_object_in_prose :
  parseGeminiJSON_trace Ecma404.JSON_parse
    (lit "Here is the result:
```json
{" ++ dq ++ lit "ingredientRisk" ++ dq ++ lit ":{}}
```
Hope this helps!")
  = ([(Strict,
       lit "Here is the result:
{" ++ dq ++ lit "ingredientRisk" ++ dq ++ lit ":{}}
Hope this helps!");
      (Salvage, lit "{" ++ dq ++ lit "ingredientRisk" ++ dq ++ lit ":{}}")],
     inr (VObj [kv "ingredientRisk" (VObj [])])).
Proof. vm_compute. reflexivity. Qed.

(** A fenced object alone is parsed by the strict tier. *)
Example fenced_object_alone :
  parseGeminiJSON_trace Ecma404.JSON_parse
    (lit "```json
{" ++ dq ++ lit "overallRiskLevel" ++ dq ++ lit ": " ++ dq ++ lit "low" ++ dq
     ++ lit "}
```")
  = ([(Strict,
       lit "{" ++ dq ++ lit "overallRiskLevel" ++ dq ++ lit ": " ++ dq
       ++ lit "low" ++ dq ++ lit "}")],
     inr (VObj [kv "overallRiskLevel" (str "low")])).
Proof. vm_compute. reflexivity. Qed.

(** Salvage may itself fail: braces around something that is not JSON. *)
Example salvage_fails :
  parseGeminiJSON_trace Ecma404.JSON_parse (lit "see {this} please")
  = ([(Strict, lit "see {this} please"); (Salvage, lit "{this}")],
     inl (Thrown (lit "Unexpected token in JSON"))).
Proof. vm_compute. reflexivity. Qed.

(** A closing brace before the only opening one: nothing to salvage. *)
Example braces_out_of_order :
  parseGeminiJSON_trace Ecma404.JSON_parse (lit "} then {")
  = ([(Strict, lit "} then {")],
     inl (Thrown (lit "No JSON object found in response"))).
Proof. vm_compute. reflexivity. Qed.

(** Alice's list is empty, Bob's holds his report. *)
Example lists_are_per_owner :
  snd (get_api_reports (report_request []) alice_session)
    = json (VObj [kv "reports" (VArr [])])
  ∧ snd (get_api_reports (report_request [])
           (with_session (Some 2) alice_session))
    = json (VObj [kv "reports" (VArr [listed_columns bobs_report])])
  ∧ snd (get_api_reports_id jsonb_sorted (report_request (lit "GTM-LOYW3V00"))
           (with_session (Some 2) alice_session))
    = json (VObj [kv "report" (loaded_columns jsonb_sorted bobs_report)])
  ∧ reports (db (fst (delete_api_reports_id
                        (report_request (lit "GTM-LOYW3V00"))
                        (with_session (Some 2) alice_session))))
    = [].
Proof. repeat split; vm_compute; reflexivity. Qed.

(** Without a session the report routes answer 401. *)
Example report_routes_need_a_session :
  map (fun h => status (snd (h (report_request []) fresh_world)))
    [get_api_reports; get_api_reports_id jsonb_sorted; delete_api_reports_id;
     post_api_reports admit_all 1 0 0]
  = [401; 401; 401; 401].
Proof. vm_compute. reflexivity. Qed.

(** The report id made at 2023-11-14T22:13:20Z. *)
Example report_id_example :
  report_id_at 1700000000000 = lit "GTM-LOYW3V28".
Proof. vm_compute. reflexivity. Qed.

(** No file, no analysis. *)
Example no_files_uploaded :
  post_api_analyze Ecma404.JSON_parse (model_says []) with_key
    (Request (Some []) [] []) disk
  = (disk, Response 400 (VObj [kv "error" (str "No files uploaded")])).
Proof. reflexivity. Qed.

(** * String facts *)

Section Strings.

Implicit Types (s r : jsstring) (c : Z).

Lemma dropWhile_length p s : (length (dropWhile p s) <= length s)%nat.
Proof.
  induction s as [|c s IH]; simpl; [lia|].
  destruct (p c); simpl; lia.
Qed.

Lemma dropWhile_head p s c r : dropWhile p s = c :: r -> p c = false.
Proof.
  induction s as [|x s IH]; simpl; [discriminate|].
  destruct (p x) eqn:Hx; [exact IH|].
  intros [= -> _]. exact Hx.
Qed.

Lemma dropWhile_suffix p s : exists pre, s = pre ++ dropWhile p s.
Proof.
  induction s as [|c s [pre IH]]; simpl; [by exists []|].
  destruct (p c); [|by exists []].
  exists (c :: pre). simpl. by rewrite <- IH.
Qed.

(** [trim] leaves no whitespace at the front. *)
Lemma trim_head s c r : trim s = c :: r -> isWhiteSpace c = false.
Proof.
  unfold trim. intros H.
  destruct (dropWhile_suffix isWhiteSpace (rev (dropWhile isWhiteSpace s)))
    as [pre Hpre].
  apply (f_equal (@rev Z)) in Hpre.
  rewrite rev_involutive, rev_app_distr, H in Hpre. simpl in Hpre.
  eapply dropWhile_head. exact Hpre.
Qed.

Lemma indexOf_range c s :
  indexOf c s = -1 ∨ 0 <= indexOf c s < Z.of_nat (length s).
Proof.
  induction s as [|x s IH]; simpl; [left; reflexivity|].
  destruct (x =? c); [right; lia|].
  destruct (indexOf c s =? -1) eqn:E; [left; reflexivity|].
  apply Z.eqb_neq in E. right. lia.
Qed.

(** [indexOf] answers -1 exactly when the unit does not occur. *)
Lemma indexOf_absent c s : indexOf c s = -1 <-> c ∉ s.
Proof.
  induction s as [|x s IH]; simpl.
  - split; [intros _; apply not_elem_of_nil | reflexivity].
  - destruct (x =? c) eqn:Ex.
    + apply Z.eqb_eq in Ex. subst x. split; [discriminate|].
      intros H. exfalso. apply H. left.
    + apply Z.eqb_neq in Ex.
      destruct (indexOf c s =? -1) eqn:E.
      * apply Z.eqb_eq in E. split; [|reflexivity].
        intros _ [?|?]%elem_of_cons; [congruence|]. by apply IH in E.
      * apply Z.eqb_neq in E. split.
        -- pose proof (indexOf_range c s). lia.
        -- intros H. exfalso. apply E, IH. intros ?. apply H. by right.
Qed.


Lemma lastIndexOf_range c s :
  lastIndexOf c s = -1 ∨ 0 <= lastIndexOf c s < Z.of_nat (length s).
Proof.
  induction s as [|x s IH]; simpl; [left; reflexivity|].
  destruct (lastIndexOf c s =? -1) eqn:E.
  - destruct (x =? c); [right; lia | left; reflexivity].
  - apply Z.eqb_neq in E. right. lia.
Qed.

Lemma lastIndexOf_absent c s : lastIndexOf c s = -1 <-> c ∉ s.
Proof.
  induction s as [|x s IH]; simpl.
  - split; [intros _; apply not_elem_of_nil | reflexivity].
  - destruct (lastIndexOf c s =? -1) eqn:E.
    + apply Z.eqb_eq in E. destruct (x =? c) eqn:Ex.
      * apply Z.eqb_eq in Ex. subst. split; [discriminate|].
        intros H. exfalso. apply H. left.
      * apply Z.eqb_neq in Ex. split; [|reflexivity].
        intros _ [?|?]%elem_of_cons; [congruence|]. by apply IH in E.
    + apply Z.eqb_neq in E. split.
      * pose proof (lastIndexOf_range c s). lia.
      * intros H. exfalso. apply E, IH. intros ?. apply H. by right.
Qed.

(** [substring(0, n)] is the first [n] units. *)
Lemma substring_prefix n s :
  0 <= n -> substring 0 n s = take (Z.to_nat n) s.
Proof.
  intros Hn. unfold substring.
  set (len := Z.of_nat (length s)).
  assert (Hlen : 0 <= len) by (unfold len; lia).
  replace (Z.min (Z.min (Z.max 0 0) len) (Z.min (Z.max n 0) len))
    with 0 by lia.
  replace (Z.max (Z.min (Z.max 0 0) len) (Z.min (Z.max n 0) len) - 0)
    with (Z.min n len) by lia.
  change (Z.to_nat 0) with 0%nat. rewrite drop_0.
  destruct (decide (n <= len)) as [Hle|Hgt].
  - by replace (Z.min n len) with n by lia.
  - replace (Z.min n len) with len by lia.
    unfold len in *. rewrite !take_ge; [reflexivity| lia | lia].
Qed.

Lemma substring_length_le a b s :
  0 <= a -> 0 <= b -> (length (substring a b s) <= Z.to_nat (Z.max a b))%nat.
Proof.
  intros Ha Hb. unfold substring. rewrite length_take. lia.
Qed.


(** Nothing after a found last index is the unit. *)
Lemma lastIndexOf_nothing_after c s j :
  lastIndexOf c s = j -> j ≠ -1 -> c ∉ drop (S (Z.to_nat j)) s.
Proof.
  revert j. induction s as [|x s IH]; simpl; intros j Hj Hne; [congruence|].
  destruct (lastIndexOf c s =? -1) eqn:E.
  - apply Z.eqb_eq in E. destruct (x =? c); [|congruence].
    subst j. simpl. rewrite drop_0. by apply lastIndexOf_absent.
  - apply Z.eqb_neq in E.
    pose proof (lastIndexOf_range c s) as [?|?]; [congruence|].
    subst j.
    replace (Z.to_nat (lastIndexOf c s + 1))
      with (S (Z.to_nat (lastIndexOf c s))) by lia.
    by apply IH.
Qed.



End Strings.

(** * The fence-stripping scan *)

Section Scan.

Variable m : jsstring -> option jsstring.

(** A match consumes at least one unit. *)
Hypothesis m_shrinks :
  forall s rest, m s = Some rest -> (length rest < length s)%nat.

Lemma remove_all_from_fuel fuel1 fuel2 s :
  (length s <= fuel1)%nat -> (length s <= fuel2)%nat ->
  Fence.remove_all_from m fuel1 s = Fence.remove_all_from m fuel2 s.
Proof.
  revert fuel2 s.
  induction fuel1 as [|fuel1 IH]; intros fuel2 s H1 H2.
  - destruct s; [|simpl in H1; lia].
    destruct fuel2 as [|fuel2]; simpl; [reflexivity|].
    destruct (m []) as [rest|] eqn:E; [|reflexivity].
    apply m_shrinks in E. simpl in E. lia.
  - destruct fuel2 as [|fuel2].
    + destruct s; [|simpl in H2; lia]. simpl.
      destruct (m []) as [rest|] eqn:E; [|reflexivity].
      apply m_shrinks in E. simpl in E. lia.
    + simpl. destruct (m s) as [rest|] eqn:E.
      * apply m_shrinks in E. apply IH; lia.
      * destruct s as [|c r]; [reflexivity|].
        simpl in *. f_equal. apply IH; lia.
Qed.

(** The scan, without fuel: drop a match and go on after it, else copy
    one unit. *)
Lemma remove_all_unfold s :
  Fence.remove_all m s =
  match m s with
  | Some rest => Fence.remove_all m rest
  | None =>
    match s with
    | [] => []
    | c :: r => c :: Fence.remove_all m r
    end
  end.
Proof.
  unfold Fence.remove_all.
  destruct s as [|c r].
  - simpl. destruct (m []) as [rest|] eqn:E; [|reflexivity].
    apply m_shrinks in E. simpl in E. lia.
  - simpl. destruct (m (c :: r)) as [rest|] eqn:E; [|reflexivity].
    apply m_shrinks in E. simpl in E.
    apply remove_all_from_fuel; lia.
Qed.

End Scan.

Lemma match_json_fence_shrinks s rest :
  Fence.match_json_fence s = Some rest -> (length rest < length s)%nat.
Proof.
  unfold Fence.match_json_fence. intros H.
  repeat (destruct s as [|? s]; [repeat case_match; discriminate|]).
  repeat case_match; try discriminate.
  injection H as <-. pose proof (dropWhile_length isWhiteSpace s).
  simpl. lia.
Qed.

Lemma match_fence_shrinks s rest :
  Fence.match_fence s = Some rest -> (length rest < length s)%nat.
Proof.
  unfold Fence.match_fence. intros H.
  repeat case_match; try discriminate.
  injection H as <-.
  match goal with |- context [dropWhile _ ?l] =>
    pose proof (dropWhile_length isWhiteSpace l) end.
  simpl. lia.
Qed.

Lemma fence_free_infix pre t post : fence_free (pre ++ t ++ post) -> fence_free t.
Proof.
  intros H a b ->. apply (H (pre ++ a) (b ++ post)).
  by rewrite <- !app_assoc.
Qed.

(** What does not begin with a backtick is copied as it begins. *)
Lemma remove_fence_head s :
  (forall r, s ≠ 96 :: r) ->
  forall r, Fence.remove_all Fence.match_fence s ≠ 96 :: r.
Proof.
  intros Hs r. rewrite (remove_all_unfold _ match_fence_shrinks).
  destruct s as [|c s]; [discriminate|].
  destruct (decide (c = 96)) as [->|Hc]; [by destruct (Hs s)|].
  assert (Fence.match_fence (c :: s) = None) as ->.
  { unfold Fence.match_fence. repeat case_match; congruence. }
  congruence.
Qed.

(** The second scan leaves no fence delimiter behind. *)
Lemma remove_fence_free s :
  fence_free (Fence.remove_all Fence.match_fence s).
Proof.
  remember (length s) as n eqn:Hn.
  revert s Hn. induction (lt_wf n) as [n _ IH]. intros s ->.
  rewrite (remove_all_unfold _ match_fence_shrinks).
  destruct (Fence.match_fence s) as [rest|] eqn:Hm.
  - eapply IH; [|reflexivity]. by apply match_fence_shrinks.
  - destruct s as [|c s]; [by intros [|? ?] ?|].
    assert (Hrec : fence_free (Fence.remove_all Fence.match_fence s))
      by (eapply IH; [|reflexivity]; simpl; lia).
    intros [|p pre] post Heq.
    + simpl in Heq. injection Heq as -> Htail.
      destruct s as [|c1 s].
      { by rewrite (remove_all_unfold _ match_fence_shrinks) in Htail. }
      destruct (decide (c1 = 96)) as [->|Hc1].
      * destruct s as [|c2 s].
        { rewrite (remove_all_unfold _ match_fence_shrinks) in Htail.
          simpl in Htail.
          by rewrite (remove_all_unfold _ match_fence_shrinks) in Htail. }
        destruct (decide (c2 = 96)) as [->|Hc2]; [discriminate Hm|].
        rewrite (remove_all_unfold _ match_fence_shrinks) in Htail.
        assert (Fence.match_fence (96 :: c2 :: s) = None) as Hn.
        { unfold Fence.match_fence. repeat case_match; congruence. }
        rewrite Hn in Htail. injection Htail as Htail.
        eapply (remove_fence_head (c2 :: s)); [congruence|exact Htail].
      * eapply (remove_fence_head (c1 :: s)); [congruence|exact Htail].
    + simpl in Heq. injection Heq as -> Htail. by apply Hrec in Htail.
Qed.

(** [trim] keeps a contiguous piece of its argument. *)
Lemma trim_infix s : exists pre post, s = pre ++ trim s ++ post.
Proof.
  unfold trim.
  destruct (dropWhile_suffix isWhiteSpace s) as [pre Hpre].
  destruct (dropWhile_suffix isWhiteSpace (rev (dropWhile isWhiteSpace s)))
    as [post Hpost].
  apply (f_equal (@rev Z)) in Hpost.
  rewrite rev_involutive, rev_app_distr in Hpost.
  exists pre, (rev post). by rewrite <- Hpost.
Qed.

(** [trim] leaves no whitespace at the end. *)
Lemma trim_last s c : last (trim s) = Some c -> isWhiteSpace c = false.
Proof.
  unfold trim.
  destruct (dropWhile isWhiteSpace (rev (dropWhile isWhiteSpace s)))
    as [|x l] eqn:E; simpl; [discriminate|].
  rewrite last_snoc. intros [= <-]. by apply dropWhile_head in E.
Qed.

(** What the strict tier parses: no fence delimiter in it, no whitespace
    around it. *)
Lemma cleaned_is_clean text :
  fence_free (cleaned text)
  ∧ (forall c r, cleaned text = c :: r -> isWhiteSpace c = false)
  ∧ (forall c, last (cleaned text) = Some c -> isWhiteSpace c = false).
Proof.
  unfold cleaned. split; [|split].
  - destruct (trim_infix (Fence.remove_all Fence.match_fence
                 (Fence.remove_all Fence.match_json_fence text)))
      as (pre & post & H).
    apply (fence_free_infix pre _ post). rewrite <- H.
    apply remove_fence_free.
  - apply trim_head.
  - apply trim_last.
Qed.

(** * The normalizer *)

Section NormalizerFacts.

Variable JSON_parse : jsstring -> result value.

Lemma parseGeminiJSON_strict text v :
  JSON_parse (cleaned text) = inr v ->
  parseGeminiJSON_trace JSON_parse text = ([(Strict, cleaned text)], inr v).
Proof. intros H. unfold parseGeminiJSON_trace. by rewrite H. Qed.

Lemma parseGeminiJSON_salvage text e :
  JSON_parse (cleaned text) = inl e ->
  indexOf 123 text ≠ -1 -> indexOf 123 text < lastIndexOf 125 text ->
  parseGeminiJSON_trace JSON_parse text =
  ([(Strict, cleaned text);
    (Salvage,
     substring (indexOf 123 text) (lastIndexOf 125 text + 1) text)],
   JSON_parse
     (substring (indexOf 123 text) (lastIndexOf 125 text + 1) text)).
Proof.
  intros H Hi Hlt. unfold parseGeminiJSON_trace. rewrite H.
  apply Z.eqb_neq in Hi. apply Z.ltb_lt in Hlt. by rewrite Hi, Hlt.
Qed.

Lemma parseGeminiJSON_no_object text e :
  JSON_parse (cleaned text) = inl e ->
  indexOf 123 text = -1 ∨ lastIndexOf 125 text <= indexOf 123 text ->
  parseGeminiJSON_trace JSON_parse text =
  ([(Strict, cleaned text)],
   inl (Thrown (lit "No JSON object found in response"))).
Proof.
  intros H Hb. unfold parseGeminiJSON_trace. rewrite H.
  destruct Hb as [Hb|Hb].
  - rewrite Hb. reflexivity.
  - apply Z.ltb_ge in Hb. rewrite Hb. by rewrite andb_false_r.
Qed.


End NormalizerFacts.


(** * The analyze flow *)

Lemma fileFilter_reads (f : file) :
  fileFilter f = true ->
  (startsWith (lit "image/") (mimetype f) = true
   ∨ (startsWith (lit "image/") (mimetype f) = false
      ∧ mimetype f = lit "application/pdf")).
Proof.
  unfold fileFilter. intros H. apply bool_decide_eq_true in H.
  repeat (apply elem_of_cons in H as [H|H]; [rewrite H; vm_compute; auto|]).
  by apply elem_of_nil in H.
Qed.

Lemma parts_read_cons (fs : gmap jsstring (list Z)) (f : file)
    (files : list file) (content : list Z) :
  fs !! path f = Some content ->
  parts_read fs (f :: files)
  = Part content (mimetype f) :: parts_read fs files.
Proof. intros H. unfold parts_read. simpl. by rewrite H. Qed.

(** Files that passed the filter and are on disk are all read, and the
    upload directory is left as it was. *)
Lemma filesToImageParts_uploaded (w : World) (files : list file) :
  Forall (uploaded w) files ->
  filesToImageParts files w = (w, inr (parts_read (uploads w) files)).
Proof.
  induction 1 as [|f files [Hfilter [content Hcontent]] _ IH]; [reflexivity|].
  assert (Hread : forall (mt : jsstring) ,
    (d ← readFileSync (path f);
     imageParts ← filesToImageParts files;
     mret (Part d mt :: imageParts)) w
    = (w, inr (Part content mt :: parts_read (uploads w) files))).
  { intros mt. unfold mbind, M_bind, readFileSync.
    rewrite Hcontent. cbv beta iota. rewrite IH. reflexivity. }
  rewrite (parts_read_cons _ _ _ _ Hcontent). cbn [filesToImageParts].
  destruct (fileFilter_reads f Hfilter) as [Himg|[Himg Hpdf]]; rewrite Himg.
  - apply Hread.
  - destruct f as [p mt]. simpl in *. subst mt.
    change (eqb (lit "application/pdf") (lit "application/pdf")) with true.
    cbv iota. apply Hread.
Qed.

Lemma parts_read_length (w : World) (files : list file) :
  Forall (uploaded w) files ->
  length (parts_read (uploads w) files) = length files.
Proof.
  induction 1 as [|f files [_ [content Hcontent]] _ IH]; [reflexivity|].
  rewrite (parts_read_cons _ _ _ _ Hcontent). simpl. by rewrite IH.
Qed.

(** [cleanupFiles] unlinks every path it is given. *)
Lemma cleanupFiles_run (files : list file) (w : World) :
  cleanupFiles files w = (with_uploads (without files (uploads w)) w, inr tt).
Proof.
  revert w. induction files as [|f files IH]; intros w.
  - by destruct w.
  - simpl. unfold mbind, M_bind, unlink, modify. rewrite IH. reflexivity.
Qed.

Lemma without_lookup (files : list file) (fs : gmap jsstring (list Z))
    (p : jsstring) :
  without files fs !! p
  = if bool_decide (p ∈ map path files) then None else fs !! p.
Proof.
  unfold without. revert fs.
  induction files as [|f files IH]; intros fs; simpl; [reflexivity|].
  rewrite IH. destruct (decide (path f = p)) as [<-|Hne].
  - rewrite lookup_delete_eq.
    rewrite (bool_decide_eq_true_2 (path f ∈ path f :: _)) by left.
    by case_bool_decide.
  - rewrite lookup_delete_ne by done.
    do 2 case_bool_decide; try reflexivity.
    + exfalso. match goal with H : ¬ _ |- _ => apply H end. by right.
    + exfalso. match goal with H : _ ∈ _ :: _ |- _ =>
        apply elem_of_cons in H as [?|?] end; [congruence|contradiction].
Qed.

Section AnalyzeFacts.

Variable JSON_parse : jsstring -> result value.
Variable generateContent : jsstring -> value -> list part -> result jsstring.
Variable cfg : config.

(** The handler on a request that reaches the parse step: the outcome of
    [parseGeminiJSON] decides between the two responses, and only the
    success branch cleans up. *)
Lemma analyze_after_reply (req : request) (w : World) (files : list file)
    (text : jsstring) :
  reaches_parser generateContent cfg req w files text ->
  post_api_analyze JSON_parse generateContent cfg req w =
  match parseGeminiJSON JSON_parse text with
  | inl _ => (w, parse_failure_response text)
  | inr v => (with_uploads (without files (uploads w)) w, live_response v)
  end.
Proof.
  intros (genAI & Hclient & Hfiles & Hne & Hup & Hreply).
  unfold post_api_analyze, try_catch, analyze_body.
  rewrite Hfiles, Hclient.
  destruct files as [|f files]; [done|].
  unfold mbind, M_bind at 1.
  rewrite (filesToImageParts_uploaded w (f :: files) Hup).
  rewrite bool_decide_eq_false_2
    by (rewrite parts_read_length by done; simpl; lia).
  unfold mbind, M_bind, lift. fold (lang_of req). rewrite Hreply.
  destruct (parseGeminiJSON JSON_parse text) as [e|v]; [reflexivity|].
  rewrite cleanupFiles_run. reflexivity.
Qed.

(** The handler without a credential: the demo response, and the world
    untouched. *)
Lemma analyze_demo (req : request) (w : World) (files : list file) :
  getGeminiClient cfg = None ->
  req_files req = Some files -> files ≠ [] ->
  post_api_analyze JSON_parse generateContent cfg req w
  = (w, demo_response (lang_of req)).
Proof.
  intros Hclient Hfiles Hne.
  unfold post_api_analyze, try_catch, analyze_body.
  rewrite Hfiles, Hclient. destruct files; [done|]. reflexivity.
Qed.

End AnalyzeFacts.

Lemma sample_reaches_parser (text : jsstring) :
  reaches_parser (model_says text) with_key upload_request disk [png] text.
Proof.
  exists (lit "AIza-key"). repeat split; try done.
  constructor; [|constructor]. split; [reflexivity|].
  exists [137; 80; 78; 71]. apply lookup_singleton_eq.
Qed.

Section AnalyzeClaims.

Variable JSON_parse : jsstring -> result value.
Variable generateContent : jsstring -> value -> list part -> result jsstring.
Variable cfg : config.

(** C2 (as amended). No shape validation runs. A value that [JSON.parse]
    yields for the cleaned reply (strict tier), or, after a strict failure,
    for the text from the first opening brace through the last closing
    brace (salvage tier), is what [parseGeminiJSON] returns, as it is and
    whatever its shape, and the handler answers 200 with success,
    [demo: false] and that value as [data]. The normalizer fails only when
    no [JSON.parse] call yielded a value, and the handler then answers
    with the parse-failure response: there is no other diagnostic. *)
Theorem parsed_value_returned_unvalidated (req : request) (w : World)
    (files : list file) (text : jsstring) :
  reaches_parser generateContent cfg req w files text ->
  (forall v, JSON_parse (cleaned text) = inr v ->
     parseGeminiJSON JSON_parse text = inr v
     ∧ snd (post_api_analyze JSON_parse generateContent cfg req w)
       = json (VObj [kv "success" (VBool true); kv "demo" (VBool false);
                     kv "data" v]))
  ∧ (forall e v, JSON_parse (cleaned text) = inl e ->
       indexOf 123 text ≠ -1 ->
       indexOf 123 text < lastIndexOf 125 text ->
       JSON_parse
         (substring (indexOf 123 text) (lastIndexOf 125 text + 1) text)
       = inr v ->
       parseGeminiJSON JSON_parse text = inr v
       ∧ snd (post_api_analyze JSON_parse generateContent cfg req w)
         = json (VObj [kv "success" (VBool true); kv "demo" (VBool false);
                       kv "data" v]))
  ∧ (forall e, parseGeminiJSON JSON_parse text = inl e ->
       (exists e1, JSON_parse (cleaned text) = inl e1)
       ∧ (indexOf 123 text = -1
          ∨ lastIndexOf 125 text <= indexOf 123 text
          ∨ JSON_parse
              (substring (indexOf 123 text) (lastIndexOf 125 text + 1) text)
            = inl e)
       ∧ snd (post_api_analyze JSON_parse generateContent cfg req w)
         = Response 500
             (VObj [kv "error" (str "Failed to parse AI response");
                    kv "raw" (VStr (substring 0 800 text))])).
Proof.
  intros Hreach.
  rewrite (analyze_after_reply _ _ _ _ _ _ _ Hreach).
  split; [|split].
  - intros v Hstrict. unfold parseGeminiJSON.
    rewrite (parseGeminiJSON_strict _ _ _ Hstrict). by split.
  - intros e v Hstrict Hopen Hspan Hsalvage. unfold parseGeminiJSON.
    rewrite (parseGeminiJSON_salvage _ _ _ Hstrict Hopen Hspan), Hsalvage.
    by split.
  - intros e Hfail. rewrite Hfail. split; [|split; [|reflexivity]].
    + destruct (JSON_parse (cleaned text)) as [e1|v] eqn:Hstrict;
        [by exists e1|].
      unfold parseGeminiJSON in Hfail.
      rewrite (parseGeminiJSON_strict _ _ _ Hstrict) in Hfail.
      discriminate Hfail.
    + destruct (JSON_parse (cleaned text)) as [e1|v] eqn:Hstrict.
      * destruct (Z.eq_dec (indexOf 123 text) (-1)) as [Hnone|Hopen];
          [by left|].
        destruct (Z_lt_le_dec (indexOf 123 text) (lastIndexOf 125 text))
          as [Hspan|Hnospan]; [|by right; left].
        right; right. unfold parseGeminiJSON in Hfail.
        by rewrite (parseGeminiJSON_salvage _ _ _ Hstrict Hopen Hspan)
          in Hfail.
      * unfold parseGeminiJSON in Hfail.
        rewrite (parseGeminiJSON_strict _ _ _ Hstrict) in Hfail.
        discriminate Hfail.
Qed.

(** C5. When the strict parse throws and the raw text has no opening brace,
    or its last closing brace does not come after its first opening brace,
    [parseGeminiJSON] throws after that single attempt, and the handler
    answers with the parse-failure response. *)
Theorem unbalanced_braces_parse_failure (req : request) (w : World)
    (files : list file) (text : jsstring) (e : exn) :
  reaches_parser generateContent cfg req w files text ->
  JSON_parse (cleaned text) = inl e ->
  123 ∉ text ∨ lastIndexOf 125 text <= indexOf 123 text ->
  parseGeminiJSON_trace JSON_parse text
    = ([(Strict, cleaned text)],
       inl (Thrown (lit "No JSON object found in response")))
  ∧ post_api_analyze JSON_parse generateContent cfg req w
    = (w, Response 500 (VObj [kv "error" (str "Failed to parse AI response");
                              kv "raw" (VStr (substring 0 800 text))])).
Proof.
  intros Hreach Hstrict Hbraces.
  assert (Htrace : parseGeminiJSON_trace JSON_parse text
            = ([(Strict, cleaned text)],
               inl (Thrown (lit "No JSON object found in response")))).
  { eapply parseGeminiJSON_no_object; [exact Hstrict|].
    destruct Hbraces as [Habsent|Hle]; [left|right; exact Hle].
    by apply indexOf_absent. }
  split; [exact Htrace|].
  rewrite (analyze_after_reply _ _ _ _ _ _ _ Hreach).
  unfold parseGeminiJSON. rewrite Htrace. reflexivity.
Qed.

(** C8. The response sent when the reply cannot be parsed carries, as
    [raw], the first units of the reply and never more than 800 of them. *)
Theorem parse_failure_excerpt_bounded (req : request) (w : World)
    (files : list file) (text : jsstring) (e : exn) :
  reaches_parser generateContent cfg req w files text ->
  parseGeminiJSON JSON_parse text = inl e ->
  exists raw,
    snd (post_api_analyze JSON_parse generateContent cfg req w)
    = Response 500 (VObj [kv "error" (str "Failed to parse AI response");
                          kv "raw" (VStr raw)])
    ∧ raw = take 800 text
    ∧ (length raw <= 800)%nat.
Proof.
  intros Hreach Hparse.
  exists (substring 0 800 text).
  rewrite (analyze_after_reply _ _ _ _ _ _ _ Hreach), Hparse.
  split; [reflexivity|].
  rewrite (substring_prefix 800 text) by lia.
  split; [reflexivity|]. rewrite length_take. lia.
Qed.

(** C6. Without a credential, a request with at least one file gets the
    demo response: flagged [demo: true], its [data] the fixed record
    [getDemoData] of the language selector, the world untouched. The
    response is a function of the selector alone, and the record depends on
    the selector only through [lang === "cn"]. *)
Theorem demo_mode_deterministic (req : request) (w : World)
    (files : list file) :
  getGeminiClient cfg = None ->
  req_files req = Some files ->
  files ≠ [] ->
  post_api_analyze JSON_parse generateContent cfg req w
    = (w, json (VObj [
         kv "success" (VBool true);
         kv "demo" (VBool true);
         kv "message"
            (str "GEMINI_API_KEY not configured. Returning demo analysis.");
         kv "data" (getDemoData (lang_of req))]))
  ∧ (forall (req' : request) (w' : World) (files' : list file),
       req_files req' = Some files' -> files' ≠ [] ->
       lang_of req' = lang_of req ->
       snd (post_api_analyze JSON_parse generateContent cfg req' w')
       = snd (post_api_analyze JSON_parse generateContent cfg req w))
  ∧ (forall lang lang' : value,
       is_string lang (lit "cn") = is_string lang' (lit "cn") ->
       getDemoData lang = getDemoData lang').
Proof.
  intros Hclient Hfiles Hne. split; [|split].
  - by apply analyze_demo with files.
  - intros req' w' files' Hfiles' Hne' Hlang.
    rewrite (analyze_demo _ _ _ req' w' files' Hclient Hfiles' Hne').
    rewrite (analyze_demo _ _ _ req w files Hclient Hfiles Hne).
    simpl. by rewrite Hlang.
  - intros lang lang' Hsel. unfold getDemoData. by rewrite Hsel.
Qed.

End AnalyzeClaims.

(** An empty object parses, and comes back as the analysis. *)
Lemma parsed_value_returned_unvalidated_witness :
  snd (post_api_analyze Ecma404.JSON_parse (model_says (lit "{}")) with_key
         upload_request disk)
  = json (VObj [kv "success" (VBool true); kv "demo" (VBool false);
                kv "data" (VObj [])]).
Proof.
  destruct (parsed_value_returned_unvalidated Ecma404.JSON_parse
              (model_says (lit "{}")) with_key upload_request disk [png]
              (lit "{}") (sample_reaches_parser (lit "{}")))
    as (Hstrict & _ & _).
  apply (Hstrict (VObj [])). vm_compute. reflexivity.
Defined.

(** C2, as stated, fails on the reply [{}]: it is JSON, it has none of the
    four required sections, and the handler answers 200 with it as [data]
    instead of rejecting it. *)
Lemma shape_invalid_json_accepted :
  parseGeminiJSON Ecma404.JSON_parse (lit "{}") = inr (VObj [])
  ∧ spec_sections_present (VObj []) = false
  ∧ snd (post_api_analyze Ecma404.JSON_parse (model_says (lit "{}")) with_key
           upload_request disk)
    = Response 200 (VObj [kv "success" (VBool true); kv "demo" (VBool false);
                          kv "data" (VObj [])]).
Proof.
  split; [vm_compute; reflexivity|].
  split; [vm_compute; reflexivity|].
  rewrite (analyze_after_reply _ _ _ _ _ _ _ (sample_reaches_parser (lit "{}"))).
  vm_compute. reflexivity.
Qed.

(** The reply of scenario D: an opening brace and no closing one. *)
Lemma unbalanced_braces_parse_failure_witness :
  post_api_analyze Ecma404.JSON_parse (model_says (lit "{ invalid json"))
    with_key upload_request disk
  = (disk, Response 500 (VObj [kv "error" (str "Failed to parse AI response");
                               kv "raw" (VStr (lit "{ invalid json"))])).
Proof.
  destruct (unbalanced_braces_parse_failure Ecma404.JSON_parse
              (model_says (lit "{ invalid json")) with_key upload_request disk
              [png] (lit "{ invalid json")
              (Thrown (lit "Unexpected token in JSON"))
              (sample_reaches_parser (lit "{ invalid json")))
    as [_ H].
  - vm_compute. reflexivity.
  - right. vm_compute. discriminate.
  - exact H.
Defined.

(** A reply of 1000 units that is not JSON: the excerpt is its first 800. *)
Lemma parse_failure_excerpt_bounded_witness :
  exists raw,
    snd (post_api_analyze Ecma404.JSON_parse (model_says (replicate 1000 120))
           with_key upload_request disk)
    = Response 500 (VObj [kv "error" (str "Failed to parse AI response");
                          kv "raw" (VStr raw)])
    ∧ raw = take 800 (replicate 1000 120)
    ∧ (length raw <= 800)%nat.
Proof.
  apply (parse_failure_excerpt_bounded Ecma404.JSON_parse
           (model_says (replicate 1000 120)) with_key upload_request disk
           [png] (replicate 1000 120)
           (Thrown (lit "No JSON object found in response"))
           (sample_reaches_parser (replicate 1000 120))).
  vm_compute. reflexivity.
Defined.

(** Scenario B: one PNG, no credential. *)
Lemma demo_mode_deterministic_witness :
  post_api_analyze Ecma404.JSON_parse (model_says []) no_key upload_request
    disk
  = (disk, demo_response (str "en")).
Proof.
  destruct (demo_mode_deterministic Ecma404.JSON_parse (model_says []) no_key
              upload_request disk [png]) as [H _].
  - reflexivity.
  - reflexivity.
  - discriminate.
  - exact H.
Defined.

(** C3, at its failing inputs. With no credential the handler answers with
    the demo record and the uploaded file is still in the upload directory;
    so it is after a reply that cannot be parsed, and after a model call
    that rejects. Only the live success path removes it, whereas
    [/api/extract] removes it in demo mode too. *)
Lemma analyze_leaks_uploads :
  (snd (post_api_analyze Ecma404.JSON_parse (model_says []) no_key
          upload_request disk) = demo_response (str "en")
   ∧ uploads (fst (post_api_analyze Ecma404.JSON_parse (model_says []) no_key
                     upload_request disk)) !! path png
     = Some [137; 80; 78; 71])
  ∧ (status (snd (post_api_analyze Ecma404.JSON_parse
                    (model_says (lit "{ invalid json")) with_key
                    upload_request disk)) = 500
     ∧ uploads (fst (post_api_analyze Ecma404.JSON_parse
                       (model_says (lit "{ invalid json")) with_key
                       upload_request disk)) !! path png
       = Some [137; 80; 78; 71])
  ∧ (snd (post_api_analyze Ecma404.JSON_parse
            (model_fails (lit "fetch failed")) with_key upload_request disk)
     = Response 500 (VObj [kv "error" (str "fetch failed")])
     ∧ uploads (fst (post_api_analyze Ecma404.JSON_parse
                       (model_fails (lit "fetch failed")) with_key
                       upload_request disk)) !! path png
       = Some [137; 80; 78; 71])
  ∧ (status (snd (post_api_analyze Ecma404.JSON_parse (model_says (lit "{}"))
                    with_key upload_request disk)) = 200
     ∧ uploads (fst (post_api_analyze Ecma404.JSON_parse (model_says (lit "{}"))
                       with_key upload_request disk)) !! path png
       = None)
  ∧ (snd (post_api_extract Ecma404.JSON_parse (model_says []) no_key
            upload_request disk)
     = json (VObj [
         kv "success" (VBool true);
         kv "demo" (VBool true);
         kv "message"
            (str "GEMINI_API_KEY not configured. Returning demo extraction.");
         kv "data" (getDemoExtractedData (str "en"))])
     ∧ uploads (fst (post_api_extract Ecma404.JSON_parse (model_says [])
                       no_key upload_request disk)) !! path png
       = None).
Proof.
  split; [|split; [|split; [split; vm_compute; reflexivity|
                            split; [|split; vm_compute; reflexivity]]]].
  - rewrite (analyze_demo Ecma404.JSON_parse (model_says []) no_key
               upload_request disk [png]) by done.
    split; [reflexivity|]. apply lookup_singleton_eq.
  - rewrite (analyze_after_reply _ _ _ _ _ _ _
               (sample_reaches_parser (lit "{ invalid json"))).
    change (parseGeminiJSON Ecma404.JSON_parse (lit "{ invalid json"))
      with (@inl exn value (Thrown (lit "No JSON object found in response"))).
    split; [reflexivity|]. apply lookup_singleton_eq.
  - rewrite (analyze_after_reply _ _ _ _ _ _ _
               (sample_reaches_parser (lit "{}"))).
    change (parseGeminiJSON Ecma404.JSON_parse (lit "{}"))
      with (@inr exn value (VObj [])).
    split; [reflexivity|]. cbn [fst uploads with_uploads].
    rewrite without_lookup. reflexivity.
Qed.

(** * The store *)

Lemma filter_none {A} (f : A -> bool) (l : list A) :
  (forall x, x ∈ l -> f x = false) -> List.filter f l = [].
Proof.
  induction l as [|a l IH]; intros H; simpl; [reflexivity|].
  rewrite (H a) by left. apply IH. intros x Hx. apply H. by right.
Qed.

Lemma filter_all {A} (f : A -> bool) (l : list A) :
  (forall x, x ∈ l -> f x = true) -> List.filter f l = l.
Proof.
  induction l as [|a l IH]; intros H; simpl; [reflexivity|].
  rewrite (H a) by left. f_equal. apply IH. intros x Hx. apply H. by right.
Qed.

Lemma elem_of_filter_bool {A} (f : A -> bool) (l : list A) (x : A) :
  x ∈ List.filter f l <-> x ∈ l ∧ f x = true.
Proof. rewrite !list_elem_of_In. apply filter_In. Qed.

Lemma elem_of_insert_desc (r x : report_row) (rows : list report_row) :
  x ∈ insert_desc r rows <-> x = r ∨ x ∈ rows.
Proof.
  induction rows as [|y rows IH]; simpl.
  - rewrite elem_of_cons. reflexivity.
  - destruct (r_created_at y <? r_created_at r).
    + rewrite elem_of_cons. reflexivity.
    + rewrite !elem_of_cons, IH. tauto.
Qed.

(** Ordering the rows neither adds nor drops one. *)
Lemma elem_of_order_by (x : report_row) (rows : list report_row) :
  x ∈ order_by_created_at_desc rows <-> x ∈ rows.
Proof.
  unfold order_by_created_at_desc.
  induction rows as [|y rows IH]; simpl; [reflexivity|].
  rewrite elem_of_insert_desc, IH, elem_of_cons. reflexivity.
Qed.

(** Under the UNIQUE constraint a report id names one row. *)
Lemma report_id_names_one_row (d : Db) (r1 r2 : report_row) :
  report_ids_unique d ->
  r1 ∈ reports d -> r2 ∈ reports d ->
  r_report_id r1 = r_report_id r2 -> r1 = r2.
Proof.
  unfold report_ids_unique. generalize (reports d) as rows.
  induction rows as [|r rows IH]; intros Hnd H1 H2 Heq.
  - by apply elem_of_nil in H1.
  - simpl in Hnd. apply NoDup_cons in Hnd as [Hnotin Hnd].
    apply elem_of_cons in H1 as [->|H1]; apply elem_of_cons in H2 as [->|H2].
    + reflexivity.
    + exfalso. apply Hnotin. rewrite Heq.
      apply list_elem_of_In, in_map, list_elem_of_In, H2.
    + exfalso. apply Hnotin. rewrite <- Heq.
      apply list_elem_of_In, in_map, list_elem_of_In, H1.
    + by apply IH.
Qed.

(** Another user's report matches no lookup of the requester. *)
Lemma foreign_report_never_matches (d : Db) (theirs : report_row) (a : Z) :
  report_ids_unique d ->
  theirs ∈ reports d -> r_user_id theirs ≠ a ->
  forall r, r ∈ reports d -> matches (r_report_id theirs) (Some a) r = false.
Proof.
  intros Huniq Hin Hother r Hr. unfold matches, owned_by, eqb.
  case_bool_decide as Hid; [|reflexivity].
  rewrite (report_id_names_one_row d r theirs Huniq Hr Hin Hid).
  simpl. by apply Z.eqb_neq.
Qed.

Lemma with_db_same (w : World) :
  with_db (MkDb (online (db w)) (users (db w)) (reports (db w))) w = w.
Proof. by destruct w as [fs [o us rs] sid]. Qed.

(** The save handler when the store takes the row: the row is appended and
    reported back. *)
Lemma save_report_stores (admits_report : report_row -> bool)
    (nextval NOW Date_now : Z) (req : request) (w : World) (uid : Z)
    (level : value) :
  session_userId w = Some uid -> uid ≠ 0 ->
  ToBoolean (field (lit "reportData") (req_body req)) = true ->
  get_prop (field (lit "reportData") (req_body req)) (lit "overallRiskLevel")
    = inr level ->
  store_takes admits_report (db w)
    (row_to_save nextval NOW Date_now uid req level) ->
  post_api_reports admits_report nextval NOW Date_now req w
  = (with_db (MkDb (online (db w)) (users (db w))
                (reports (db w)
                 ++ [row_to_save nextval NOW Date_now uid req level])) w,
     json (VObj [kv "success" (VBool true);
                 kv "report"
                    (saved_columns
                       (row_to_save nextval NOW Date_now uid req level))])).
Proof.
  intros Hsess Huid Hdata Hlevel (Honline & Hfk & Hfresh & Hadmits).
  unfold post_api_reports, requireAuth, authenticated.
  rewrite Hsess. apply Z.eqb_neq in Huid. rewrite Huid. cbn [negb].
  unfold try_catch, save_report_body. rewrite Hdata. cbn [negb].
  unfold mbind, M_bind, lift, gets. rewrite Hlevel, Hsess.
  unfold insert_report, connected, mbind, M_bind, gets, throw, modify.
  rewrite Honline.
  unfold row_to_save, store_takes in *. cbn [r_user_id r_report_id] in *.
  fold (report_id_at Date_now). fold (title_of req). fold (risk_level_of level).
  rewrite Hfk, Hfresh. cbn [negb].
  rewrite Hadmits. cbn [negb]. rewrite ?Honline. reflexivity.
Qed.

(** Any level but ["low"] and ["high"] scores 2. *)
Lemma score_of_other (level : value) :
  level ≠ VStr (lit "low") -> level ≠ VStr (lit "high") ->
  score_of (risk_level_of level) = 2.
Proof.
  intros Hlow Hhigh. unfold risk_level_of, or_else.
  destruct (ToBoolean level); [|reflexivity].
  unfold score_of, is_string, eqb. destruct level; try reflexivity.
  repeat case_bool_decide; congruence.
Qed.

(** * Report routes *)

(** C4 (as amended). A report owned by someone else is out of the
    requester's reach: GET answers 404 "Report not found"; DELETE removes
    nothing and answers 200 [{success: true}]; the requester's list holds
    only the requester's rows, so not that report; and each answer is the
    one an id that names no report gets. *)
Theorem foreign_report_out_of_reach (jsonb : value -> value) (req : request)
    (w : World) (a : Z) (theirs : report_row) :
  online (db w) = true ->
  session_userId w = Some a -> a ≠ 0 ->
  report_ids_unique (db w) ->
  theirs ∈ reports (db w) -> r_user_id theirs ≠ a ->
  req_reportId req = r_report_id theirs ->
  get_api_reports_id jsonb req w
    = (w, Response 404 (VObj [kv "error" (str "Report not found")]))
  ∧ delete_api_reports_id req w
    = (w, Response 200 (VObj [kv "success" (VBool true)]))
  ∧ (exists rows,
       get_api_reports req w
         = (w, json (VObj [kv "reports" (VArr (map listed_columns rows))]))
       ∧ (theirs ∉ rows)
       ∧ (forall r, r ∈ rows -> r ∈ reports (db w) ∧ r_user_id r = a))
  ∧ (forall req' : request,
       (forall r, r ∈ reports (db w) -> r_report_id r ≠ req_reportId req') ->
       get_api_reports_id jsonb req' w = get_api_reports_id jsonb req w
       ∧ delete_api_reports_id req' w = delete_api_reports_id req w).
Proof.
  intros Honline Hsess Ha Huniq Hin Hother Hid.
  pose proof (foreign_report_never_matches _ _ _ Huniq Hin Hother) as Hnone.
  assert (Hauth : authenticated w = true).
  { unfold authenticated. rewrite Hsess. by apply negb_true_iff, Z.eqb_neq. }
  assert (Hget : forall q : request,
            (forall r, r ∈ reports (db w) ->
                       matches (req_reportId q) (Some a) r = false) ->
            get_api_reports_id jsonb q w
            = (w, Response 404 (VObj [kv "error" (str "Report not found")]))).
  { intros q Hq. unfold get_api_reports_id, requireAuth. rewrite Hauth.
    unfold try_catch, mbind, M_bind, gets, select_report, connected.
    unfold mbind, M_bind, gets. rewrite Honline, Hsess.
    by rewrite (filter_none _ _ Hq). }
  assert (Hdel : forall q : request,
            (forall r, r ∈ reports (db w) ->
                       matches (req_reportId q) (Some a) r = false) ->
            delete_api_reports_id q w
            = (w, Response 200 (VObj [kv "success" (VBool true)]))).
  { intros q Hq. unfold delete_api_reports_id, requireAuth. rewrite Hauth.
    unfold try_catch, mbind, M_bind, gets, delete_report, connected, modify.
    unfold mbind, M_bind. rewrite Honline, Hsess.
    rewrite filter_all by (intros r Hr; by rewrite (Hq r Hr)).
    by rewrite with_db_same. }
  assert (Habsent : forall q : request,
            (forall r, r ∈ reports (db w) -> r_report_id r ≠ req_reportId q) ->
            forall r, r ∈ reports (db w) ->
                      matches (req_reportId q) (Some a) r = false).
  { intros q Hq r Hr. unfold matches, eqb.
    rewrite bool_decide_eq_false_2 by (by apply Hq). reflexivity. }
  rewrite <- Hid in Hnone.
  split; [by apply Hget|]. split; [by apply Hdel|]. split.
  - exists (take 50 (order_by_created_at_desc
                       (List.filter (owned_by (Some a)) (reports (db w))))).
    split; [|split].
    + unfold get_api_reports, requireAuth. rewrite Hauth.
      unfold try_catch, mbind, M_bind, gets, select_reports_of, connected.
      unfold mbind, M_bind, gets. by rewrite Honline, Hsess.
    + intros Hrow%elem_of_take. destruct Hrow as (i & Hrow%list_elem_of_lookup_2 & _).
      apply elem_of_order_by, elem_of_filter_bool in Hrow as [_ Howned].
      simpl in Howned. by apply Z.eqb_eq in Howned.
    + intros r Hrow%elem_of_take. destruct Hrow as (i & Hrow%list_elem_of_lookup_2 & _).
      apply elem_of_order_by, elem_of_filter_bool in Hrow as [Hr Howned].
      simpl in Howned. by apply Z.eqb_eq in Howned.
  - intros req' Hq. rewrite (Hget req), (Hdel req) by done.
    split; [apply Hget | apply Hdel]; by apply Habsent.
Qed.

Lemma alice_session_unique : report_ids_unique (db alice_session).
Proof. apply NoDup_singleton. Qed.

(** Alice asks for Bob's report, deletes it, lists her reports. *)
Lemma foreign_report_out_of_reach_witness :
  get_api_reports_id jsonb_sorted (report_request (lit "GTM-LOYW3V00")) alice_session
    = (alice_session,
       Response 404 (VObj [kv "error" (str "Report not found")]))
  ∧ delete_api_reports_id (report_request (lit "GTM-LOYW3V00")) alice_session
    = (alice_session, Response 200 (VObj [kv "success" (VBool true)])).
Proof.
  destruct (foreign_report_out_of_reach jsonb_sorted
              (report_request (lit "GTM-LOYW3V00"))
              alice_session 1 bobs_report) as (Hget & Hdelete & _).
  - reflexivity.
  - reflexivity.
  - discriminate.
  - exact alice_session_unique.
  - left.
  - discriminate.
  - reflexivity.
  - split; [exact Hget | exact Hdelete].
Defined.

(** C4, as stated, fails on DELETE: Alice's DELETE of Bob's report is
    answered 200 [{success: true}], not 404. *)
Lemma foreign_delete_answers_success :
  session_userId alice_session = Some 1
  ∧ r_user_id bobs_report = 2
  ∧ reports (db alice_session) = [bobs_report]
  ∧ snd (delete_api_reports_id (report_request (r_report_id bobs_report))
           alice_session)
    = Response 200 (VObj [kv "success" (VBool true)])
  ∧ (status (snd (delete_api_reports_id
                    (report_request (r_report_id bobs_report)) alice_session))
     =? 404) = false.
Proof. repeat split; vm_compute; reflexivity. Qed.

Section SaveClaims.

Variable admits_report : report_row -> bool.
Variables nextval NOW Date_now : Z.

(** C7. A save whose record has [overallRiskLevel] "low", "medium" or
    "high" stores, when the store takes the row, a row whose score is 1, 2
    or 3, and reports that row back. *)
Theorem saved_score_follows_risk_level (req : request) (w : World) (uid : Z)
    (level : jsstring) (score : Z) :
  (level, score) ∈ [(lit "low", 1); (lit "medium", 2); (lit "high", 3)] ->
  session_userId w = Some uid -> uid ≠ 0 ->
  get_prop (field (lit "reportData") (req_body req)) (lit "overallRiskLevel")
    = inr (VStr level) ->
  store_takes admits_report (db w)
    (row_to_save nextval NOW Date_now uid req (VStr level)) ->
  exists row,
    reports (db (fst (post_api_reports admits_report nextval NOW Date_now
                        req w)))
      = reports (db w) ++ [row]
    ∧ r_score row = score
    ∧ r_user_id row = uid
    ∧ r_data row = field (lit "reportData") (req_body req)
    ∧ snd (post_api_reports admits_report nextval NOW Date_now req w)
      = json (VObj [kv "success" (VBool true);
                    kv "report" (saved_columns row)]).
Proof.
  intros Hlevel Hsess Huid Hprop Htakes.
  assert (Htruthy :
            ToBoolean (field (lit "reportData") (req_body req)) = true).
  { destruct (field (lit "reportData") (req_body req));
      try reflexivity; exfalso; vm_compute in Hprop; discriminate Hprop. }
  exists (row_to_save nextval NOW Date_now uid req (VStr level)).
  rewrite (save_report_stores _ _ _ _ _ _ _ _ Hsess Huid Htruthy Hprop Htakes).
  split; [reflexivity|]. split; [|by repeat split].
  repeat (apply elem_of_cons in Hlevel as [[= -> ->]|Hlevel];
          [vm_compute; reflexivity|]).
  by apply elem_of_nil in Hlevel.
Qed.

(** C10. A save whose record has no [overallRiskLevel], or one that is
    neither "low" nor "high", stores a row of score 2 when the store takes
    the row: nothing is rejected on account of the level. *)
Theorem unknown_risk_level_scores_medium (req : request) (w : World)
    (uid : Z) (level : value) :
  session_userId w = Some uid -> uid ≠ 0 ->
  ToBoolean (field (lit "reportData") (req_body req)) = true ->
  get_prop (field (lit "reportData") (req_body req)) (lit "overallRiskLevel")
    = inr level ->
  level ≠ VStr (lit "low") -> level ≠ VStr (lit "high") ->
  store_takes admits_report (db w)
    (row_to_save nextval NOW Date_now uid req level) ->
  exists row,
    reports (db (fst (post_api_reports admits_report nextval NOW Date_now
                        req w)))
      = reports (db w) ++ [row]
    ∧ r_score row = 2
    ∧ r_user_id row = uid
    ∧ r_data row = field (lit "reportData") (req_body req)
    ∧ snd (post_api_reports admits_report nextval NOW Date_now req w)
      = json (VObj [kv "success" (VBool true);
                    kv "report" (saved_columns row)]).
Proof.
  intros Hsess Huid Htruthy Hprop Hlow Hhigh Htakes.
  exists (row_to_save nextval NOW Date_now uid req level).
  rewrite (save_report_stores _ _ _ _ _ _ _ _ Hsess Huid Htruthy Hprop Htakes).
  split; [reflexivity|]. split; [|by repeat split].
  by apply score_of_other.
Qed.

End SaveClaims.

(** Alice saves a record of low overall risk. *)
Lemma saved_score_follows_risk_level_witness :
  exists row,
    reports (db (fst (post_api_reports admit_all 2 1700000000500 1700000000000
                        (save_request (VObj [kv "overallRiskLevel" (str "low")]))
                        alice_session)))
      = reports (db alice_session) ++ [row]
    ∧ r_score row = 1
    ∧ r_user_id row = 1
    ∧ r_data row
      = field (lit "reportData")
          (req_body (save_request (VObj [kv "overallRiskLevel" (str "low")])))
    ∧ snd (post_api_reports admit_all 2 1700000000500 1700000000000
             (save_request (VObj [kv "overallRiskLevel" (str "low")]))
             alice_session)
      = json (VObj [kv "success" (VBool true);
                    kv "report" (saved_columns row)]).
Proof.
  apply (saved_score_follows_risk_level admit_all 2 1700000000500
           1700000000000
           (save_request (VObj [kv "overallRiskLevel" (str "low")]))
           alice_session 1 (lit "low") 1).
  - left.
  - reflexivity.
  - discriminate.
  - vm_compute. reflexivity.
  - repeat split; vm_compute; reflexivity.
Defined.

(** Alice saves a record without [overallRiskLevel], then one whose level
    is "critical". *)
Lemma unknown_risk_level_scores_medium_witness :
  (exists row,
     reports (db (fst (post_api_reports admit_all 2 1700000000500
                         1700000000000
                         (save_request (VObj [kv "summary" (str "ok")]))
                         alice_session)))
       = reports (db alice_session) ++ [row]
     ∧ r_score row = 2
     ∧ r_user_id row = 1
     ∧ r_data row
       = field (lit "reportData")
           (req_body (save_request (VObj [kv "summary" (str "ok")])))
     ∧ snd (post_api_reports admit_all 2 1700000000500 1700000000000
              (save_request (VObj [kv "summary" (str "ok")])) alice_session)
       = json (VObj [kv "success" (VBool true);
                     kv "report" (saved_columns row)]))
  ∧ (exists row,
       reports (db (fst (post_api_reports admit_all 2 1700000000500
                           1700000000000
                           (save_request
                              (VObj [kv "overallRiskLevel" (str "critical")]))
                           alice_session)))
         = reports (db alice_session) ++ [row]
       ∧ r_score row = 2
       ∧ r_user_id row = 1
       ∧ r_data row
         = field (lit "reportData")
             (req_body (save_request
                          (VObj [kv "overallRiskLevel" (str "critical")])))
       ∧ snd (post_api_reports admit_all 2 1700000000500 1700000000000
                (save_request (VObj [kv "overallRiskLevel" (str "critical")]))
                alice_session)
         = json (VObj [kv "success" (VBool true);
                       kv "report" (saved_columns row)])).
Proof.
  split.
  - apply (unknown_risk_level_scores_medium admit_all 2 1700000000500
             1700000000000 (save_request (VObj [kv "summary" (str "ok")]))
             alice_session 1 VUndefined).
    + reflexivity.
    + discriminate.
    + reflexivity.
    + vm_compute. reflexivity.
    + discriminate.
    + discriminate.
    + repeat split; vm_compute; reflexivity.
  - apply (unknown_risk_level_scores_medium admit_all 2 1700000000500
             1700000000000
             (save_request (VObj [kv "overallRiskLevel" (str "critical")]))
             alice_session 1 (str "critical")).
    + reflexivity.
    + discriminate.
    + reflexivity.
    + vm_compute. reflexivity.
    + vm_compute. discriminate.
    + vm_compute. discriminate.
    + repeat split; vm_compute; reflexivity.
Defined.

(** * Registration *)

Section RegisterClaims.

Variable admits_user : user_row -> bool.
Variables nextval NOW : Z.
Variable toLowerCase : jsstring -> jsstring.
Variable bcrypt_hash : value -> result jsstring.
Variable less_than : value -> Z -> bool.

(** C9. A registration whose password is a string of fewer than six units
    is answered 400 and leaves the world, so the [users] table, as it was;
    no statement is sent. When email, name and a non-empty password are
    supplied the answer is the password-length error. *)
Theorem short_password_rejected (req : request) (w : World) (pw : jsstring) :
  field (lit "password") (req_body req) = VStr pw ->
  (length pw < 6)%nat ->
  fst (post_api_auth_register admits_user nextval NOW toLowerCase
         bcrypt_hash less_than req w) = w
  ∧ users (db (fst (post_api_auth_register admits_user nextval NOW toLowerCase
                      bcrypt_hash less_than req w))) = users (db w)
  ∧ status (snd (post_api_auth_register admits_user nextval NOW toLowerCase
                   bcrypt_hash less_than req w)) = 400
  ∧ (ToBoolean (field (lit "email") (req_body req)) = true ->
     ToBoolean (field (lit "name") (req_body req)) = true ->
     pw ≠ [] ->
     snd (post_api_auth_register admits_user nextval NOW toLowerCase
            bcrypt_hash less_than req w)
     = Response 400
         (VObj [kv "error" (str "Password must be at least 6 characters")])).
Proof.
  intros Hpw Hshort.
  unfold post_api_auth_register, try_catch, register_body. rewrite Hpw.
  assert (Hbelow : length_below less_than (VStr pw) 6 = true).
  { simpl. apply Z.ltb_lt. lia. }
  rewrite Hbelow.
  destruct (negb (ToBoolean (field (lit "email") (req_body req)))
            || negb (ToBoolean (VStr pw))
            || negb (ToBoolean (field (lit "name") (req_body req)))) eqn:Hreq.
  - split; [reflexivity|]. split; [reflexivity|]. split; [reflexivity|].
    intros Hemail Hname Hne. exfalso.
    rewrite Hemail, Hname in Hreq. cbn [negb orb ToBoolean] in Hreq.
    rewrite orb_false_r in Hreq.
    apply negb_true_iff, negb_false_iff in Hreq.
    unfold eqb in Hreq. by apply bool_decide_eq_true in Hreq.
  - split; [reflexivity|]. split; [reflexivity|]. split; reflexivity.
Qed.

End RegisterClaims.

(** Scenario E: a four-character password. *)
Lemma short_password_rejected_witness :
  post_api_auth_register admit_all 1 1700000000500 ascii_toLowerCase
    sample_hash never_less
    (register_request "Carol@Example.com" "abcd" "Carol") fresh_world
  = (fresh_world,
     Response 400
       (VObj [kv "error" (str "Password must be at least 6 characters")])).
Proof.
  destruct (short_password_rejected admit_all 1 1700000000500
              ascii_toLowerCase sample_hash never_less
              (register_request "Carol@Example.com" "abcd" "Carol")
              fresh_world (lit "abcd")) as (Hworld & _ & _ & Hresponse).
  - reflexivity.
  - vm_compute. lia.
  - rewrite <- Hworld at 2. rewrite <- Hresponse.
    + by destruct (post_api_auth_register _ _ _ _ _ _ _ _).
    + reflexivity.
    + reflexivity.
    + discriminate.
Defined.

(** With six characters the same request registers Carol and logs her in. *)
Example six_characters_register :
  post_api_auth_register admit_all 1 1700000000500 ascii_toLowerCase
    sample_hash never_less
    (register_request " Carol@Example.com " "abcdef" " Carol ") fresh_world
  = (MkWorld ∅
       (MkDb true
          [UserRow 1 (lit "carol@example.com") (lit "$2a$12$abcdef")
             (lit "Carol") [] 1700000000500] [])
       (Some 1),
     json (VObj [kv "success" (VBool true);
                 kv "user" (VObj [kv "id" (num 1);
                                  kv "email" (VStr (lit "carol@example.com"));
                                  kv "name" (VStr (lit "Carol"));
                                  kv "company" (VStr [])])])).
Proof. vm_compute. reflexivity. Qed.

(** * Further properties *)

(** X1. The text handed to the strict tier holds no fence delimiter (three
    backticks in a row) and neither begins nor ends with whitespace. *)
Theorem strict_tier_input_clean (text : jsstring) :
  fence_free (cleaned text)
  ∧ (forall c, head (cleaned text) = Some c -> isWhiteSpace c = false)
  ∧ (forall c, last (cleaned text) = Some c -> isWhiteSpace c = false).
Proof.
  destruct (cleaned_is_clean text) as (Hfree & Hhead & Hlast).
  split; [exact Hfree|]. split; [|exact Hlast].
  intros c Hc. destruct (cleaned text) as [|x r] eqn:E; [discriminate|].
  injection Hc as ->. by apply (Hhead c r).
Qed.

Section FurtherAnalyze.

Variable JSON_parse : jsstring -> result value.
Variable generateContent : jsstring -> value -> list part -> result jsstring.
Variable cfg : config.

(** X2. On the live success path every uploaded file is gone from the
    upload directory when the handler returns. *)
Theorem live_success_removes_uploads (req : request) (w : World)
    (files : list file) (text : jsstring) (v : value) :
  reaches_parser generateContent cfg req w files text ->
  parseGeminiJSON JSON_parse text = inr v ->
  forall f, f ∈ files ->
    uploads (fst (post_api_analyze JSON_parse generateContent cfg req w))
      !! path f = None.
Proof.
  intros Hreach Hparse f Hf.
  rewrite (analyze_after_reply _ _ _ _ _ _ _ Hreach), Hparse.
  cbn [fst uploads with_uploads]. rewrite without_lookup.
  rewrite bool_decide_eq_true_2; [reflexivity|].
  apply list_elem_of_In, in_map, list_elem_of_In, Hf.
Qed.

End FurtherAnalyze.

(** The PNG is gone once [{}] was returned as its analysis. *)
Lemma live_success_removes_uploads_witness :
  uploads (fst (post_api_analyze Ecma404.JSON_parse (model_says (lit "{}"))
                  with_key upload_request disk)) !! path png = None.
Proof.
  apply (live_success_removes_uploads Ecma404.JSON_parse
           (model_says (lit "{}")) with_key upload_request disk [png]
           (lit "{}") (VObj []) (sample_reaches_parser (lit "{}"))).
  - vm_compute. reflexivity.
  - left.
Defined.

Section FurtherReports.

Variable jsonb : value -> value.
Variable admits_report : report_row -> bool.
Variables nextval NOW Date_now : Z.

(** X3. Without a session user every report route answers 401 and leaves
    the world as it was. *)
Theorem report_routes_require_session (req : request) (w : World) :
  authenticated w = false ->
  Forall (fun h : request -> handler =>
            h req w
            = (w, Response 401 (VObj [kv "error" (str "Not authenticated")])))
    [post_api_reports admits_report nextval NOW Date_now; get_api_reports;
     get_api_reports_id jsonb; delete_api_reports_id].
Proof.
  intros Hauth.
  repeat constructor;
    unfold post_api_reports, get_api_reports, get_api_reports_id,
      delete_api_reports_id, requireAuth;
    by rewrite Hauth.
Qed.

(** X4. A save without [reportData] is answered 400 and stores nothing. *)
Theorem save_requires_report_data (req : request) (w : World) :
  authenticated w = true ->
  ToBoolean (field (lit "reportData") (req_body req)) = false ->
  post_api_reports admits_report nextval NOW Date_now req w
  = (w, Response 400 (VObj [kv "error" (str "Report data is required")])).
Proof.
  intros Hauth Hdata.
  unfold post_api_reports, requireAuth. rewrite Hauth.
  unfold try_catch, save_report_body. by rewrite Hdata.
Qed.

End FurtherReports.

Lemma report_routes_require_session_witness :
  Forall (fun h : request -> handler =>
            h (report_request (lit "GTM-LOYW3V00")) fresh_world
            = (fresh_world,
               Response 401 (VObj [kv "error" (str "Not authenticated")])))
    [post_api_reports admit_all 1 0 1700000000000; get_api_reports;
     get_api_reports_id jsonb_sorted; delete_api_reports_id].
Proof.
  apply (report_routes_require_session jsonb_sorted admit_all 1 0
           1700000000000 (report_request (lit "GTM-LOYW3V00")) fresh_world).
  reflexivity.
Defined.

Lemma save_requires_report_data_witness :
  post_api_reports admit_all 2 0 1700000000000 (report_request [])
    alice_session
  = (alice_session,
     Response 400 (VObj [kv "error" (str "Report data is required")])).
Proof.
  apply (save_requires_report_data admit_all 2 0 1700000000000
           (report_request []) alice_session); reflexivity.
Defined.

(** * The UNIQUE constraint as an invariant *)

Lemma existsb_report_id_false (rid : jsstring) (rows : list report_row) :
  existsb (fun r => eqb (r_report_id r) rid) rows = false ->
  rid ∉ map r_report_id rows.
Proof.
  induction rows as [|r rows IH]; simpl; intros H.
  - apply not_elem_of_nil.
  - apply orb_false_iff in H as [Hr Hrows]. unfold eqb in Hr.
    apply bool_decide_eq_false in Hr.
    intros [?|?]%elem_of_cons; [congruence|]. by apply IH.
Qed.

Lemma unique_after_append (d : Db) (row : report_row) :
  report_ids_unique d ->
  existsb (fun r => eqb (r_report_id r) (r_report_id row)) (reports d) = false ->
  NoDup (map r_report_id (reports d ++ [row])).
Proof.
  intros Huniq Hfresh. rewrite map_app. simpl.
  apply NoDup_app. split; [exact Huniq|]. split.
  - intros x Hx [->|Hnil%elem_of_nil]%elem_of_cons; [|done].
    by apply existsb_report_id_false in Hfresh.
  - apply NoDup_singleton.
Qed.

Lemma unique_after_filter (f : report_row -> bool) (rows : list report_row) :
  NoDup (map r_report_id rows) ->
  NoDup (map r_report_id (List.filter f rows)).
Proof.
  induction rows as [|r rows IH]; simpl; intros H; [exact H|].
  apply NoDup_cons in H as [Hnotin Hnd].
  destruct (f r); simpl; [|by apply IH].
  apply NoDup_cons. split; [|by apply IH].
  intros Hin. apply Hnotin.
  apply list_elem_of_In, in_map_iff in Hin as (x & Hx & Hxin).
  apply filter_In in Hxin as [Hxin _].
  rewrite <- Hx. apply list_elem_of_In, in_map, Hxin.
Qed.

Section Invariant.

Variable jsonb : value -> value.
Variable admits_report : report_row -> bool.
Variables nextval NOW Date_now : Z.

Lemma insert_report_unique (user_id : option Z) (report_id : jsstring)
    (title data lang : value) (score : Z) (w : World) :
  report_ids_unique (db w) ->
  report_ids_unique
    (db (fst (insert_report admits_report nextval NOW user_id report_id title
                data lang score w))).
Proof.
  intros Huniq.
  unfold insert_report, connected, mbind, M_bind, gets, throw, modify.
  destruct (online (db w)); [|exact Huniq].
  destruct user_id as [uid|]; [|exact Huniq].
  destruct (existsb _ (users (db w))); [|exact Huniq]. cbn [negb].
  destruct (existsb _ (reports (db w))) eqn:Hfresh; [exact Huniq|].
  destruct (admits_report _); [|exact Huniq]. cbn [negb fst db with_db].
  unfold report_ids_unique. cbn [reports].
  by apply (unique_after_append (db w)
              (ReportRow nextval uid report_id title data lang score NOW)).
Qed.

(** X5. The report routes keep report ids unique: saving appends only a
    row with an unused id or nothing, deleting only removes rows, listing
    and loading change nothing. *)
Theorem report_routes_keep_ids_unique (req : request) (w : World) :
  report_ids_unique (db w) ->
  Forall (fun h : request -> handler => report_ids_unique (db (fst (h req w))))
    [post_api_reports admits_report nextval NOW Date_now; get_api_reports;
     get_api_reports_id jsonb; delete_api_reports_id].
Proof.
  intros Huniq. repeat constructor.
  - unfold post_api_reports, requireAuth.
    destruct (authenticated w); [|exact Huniq].
    unfold try_catch, save_report_body.
    destruct (negb (ToBoolean _)); [exact Huniq|].
    unfold mbind, M_bind at 1. unfold lift.
    destruct (get_prop _ _) as [e|level]; [exact Huniq|].
    unfold mbind, M_bind at 1. unfold gets.
    unfold mbind, M_bind.
    match goal with
    | |- context [insert_report ?a ?n ?t ?u ?i ?ti ?d ?l ?s ?w0] =>
      pose proof (insert_report_unique u i ti d l s w0 Huniq) as Hins;
      destruct (insert_report a n t u i ti d l s w0) as [w' [e|row]]
    end; exact Hins.
  - unfold get_api_reports, requireAuth.
    destruct (authenticated w); [|exact Huniq].
    unfold try_catch, select_reports_of, connected, mbind, M_bind, gets.
    by destruct (online (db w)).
  - unfold get_api_reports_id, requireAuth.
    destruct (authenticated w); [|exact Huniq].
    unfold try_catch, select_report, connected, mbind, M_bind, gets.
    destruct (online (db w)); [|exact Huniq].
    by destruct (List.filter _ _).
  - unfold delete_api_reports_id, requireAuth.
    destruct (authenticated w); [|exact Huniq].
    unfold try_catch, delete_report, connected, mbind, M_bind, gets, modify.
    destruct (online (db w)); [|exact Huniq].
    cbn [fst db with_db]. unfold report_ids_unique. cbn [reports].
    by apply unique_after_filter.
Qed.

End Invariant.

Lemma report_routes_keep_ids_unique_witness :
  Forall (fun h : request -> handler =>
            report_ids_unique
              (db (fst (h (save_request
                            (VObj [kv "overallRiskLevel" (str "low")]))
                          alice_session))))
    [post_api_reports admit_all 2 1700000000500 1700000000000;
     get_api_reports; get_api_reports_id jsonb_sorted; delete_api_reports_id].
Proof.
  apply (report_routes_keep_ids_unique jsonb_sorted admit_all 2
           1700000000500 1700000000000
           (save_request (VObj [kv "overallRiskLevel" (str "low")]))
           alice_session).
  exact alice_session_unique.
Defined.

(** * More on the fence-stripping scan *)

(** Where no suffix matches, the scan copies its input. *)
Lemma remove_all_no_match (m : jsstring -> option jsstring) (s : jsstring) :
  (forall t rest, m t = Some rest -> (length rest < length t)%nat) ->
  (forall pre suf, s = pre ++ suf -> m suf = None) ->
  Fence.remove_all m s = s.
Proof.
  intros Hshrinks. induction s as [|c s IH]; intros Hnone.
  - rewrite (remove_all_unfold m Hshrinks). by rewrite (Hnone [] []).
  - rewrite (remove_all_unfold m Hshrinks). rewrite (Hnone [] (c :: s)) by done.
    f_equal. apply IH. intros pre suf ->. by apply (Hnone (c :: pre)).
Qed.

Lemma match_fence_prefix (s rest : jsstring) :
  Fence.match_fence s = Some rest -> exists r, s = [96; 96; 96] ++ r.
Proof.
  unfold Fence.match_fence. intros H.
  repeat case_match; try discriminate; subst. eauto.
Qed.

Lemma match_json_fence_prefix (s rest : jsstring) :
  Fence.match_json_fence s = Some rest -> exists r, s = [96; 96; 96] ++ r.
Proof.
  unfold Fence.match_json_fence. intros H.
  repeat (destruct s as [|? s]; [repeat case_match; discriminate|]).
  repeat case_match; try discriminate; subst. eauto.
Qed.

(** A text without fence delimiters is only trimmed. *)
Lemma cleaned_fence_free (text : jsstring) :
  fence_free text -> cleaned text = trim text.
Proof.
  intros Hfree. unfold cleaned.
  rewrite (remove_all_no_match Fence.match_json_fence text
             match_json_fence_shrinks).
  - rewrite (remove_all_no_match Fence.match_fence text match_fence_shrinks);
      [reflexivity|].
    intros pre suf -> . destruct (Fence.match_fence suf) eqn:E; [|reflexivity].
    apply match_fence_prefix in E as [r ->]. by destruct (Hfree pre r).
  - intros pre suf ->.
    destruct (Fence.match_json_fence suf) eqn:E; [|reflexivity].
    apply match_json_fence_prefix in E as [r ->]. by destruct (Hfree pre r).
Qed.

Lemma dropWhile_nothing (p : Z -> bool) (s : jsstring) :
  (forall c r, s = c :: r -> p c = false) -> dropWhile p s = s.
Proof.
  destruct s as [|c r]; [reflexivity|]. intros H. simpl.
  by rewrite (H c r).
Qed.

Lemma trim_idempotent (s : jsstring) : trim (trim s) = trim s.
Proof.
  pose proof (trim_head s) as Hhead. pose proof (trim_last s) as Hlast.
  generalize dependent (trim s). intros t Hhead Hlast. unfold trim.
  rewrite (dropWhile_nothing isWhiteSpace t) by exact Hhead.
  rewrite (dropWhile_nothing isWhiteSpace (rev t)); [apply rev_involutive|].
  intros c r Hrev. apply Hlast.
  apply (f_equal (@rev Z)) in Hrev. rewrite rev_involutive in Hrev.
  rewrite Hrev. simpl. by rewrite last_snoc.
Qed.

(** X6. Cleaning is idempotent: the text the strict tier parses is a fixed
    point of the fence stripping and trimming, so a reply that was cleaned
    once is parsed as it stands. *)
Theorem cleaning_is_idempotent (text : jsstring) :
  cleaned (cleaned text) = cleaned text.
Proof.
  destruct (cleaned_is_clean text) as (Hfree & _ & _).
  rewrite (cleaned_fence_free _ Hfree). unfold cleaned. apply trim_idempotent.
Qed.

(** * The inline handler and the refactored one *)

(** Reading parts changes nothing in the world. *)
Lemma filesToImageParts_frame (files : list file) (w : World) :
  fst (filesToImageParts files w) = w.
Proof.
  induction files as [|f files IH]; [reflexivity|].
  cbn [filesToImageParts].
  assert (Hread : forall mt : jsstring,
    fst ((d ← readFileSync (path f);
          imageParts ← filesToImageParts files;
          mret (Part d mt :: imageParts)) w) = w).
  { intros mt. unfold mbind, M_bind, readFileSync.
    destruct (uploads w !! path f); [|reflexivity]. cbv beta iota.
    destruct (filesToImageParts files w) as [w' [e|ps]]; exact IH. }
  destruct (startsWith _ _); [apply Hread|].
  destruct (eqb _ _); [apply Hread|exact IH].
Qed.

(** Pushing onto the parts read so far yields them followed by what the
    recursive reader returns. *)
Lemma push_parts_spec (files : list file) (acc : list part) (w : World) :
  push_parts files acc w
  = match filesToImageParts files w with
    | (w', inr ps) => (w', inr (acc ++ ps))
    | (w', inl e) => (w', inl e)
    end.
Proof.
  revert acc. induction files as [|f files IH]; intros acc.
  - simpl. unfold mret, M_ret. by rewrite app_nil_r.
  - cbn [push_parts filesToImageParts].
    assert (Hread : forall mt : jsstring,
      (imageData ← readFileSync (path f);
       push_parts files (acc ++ [Part imageData mt])) w
      = match (d ← readFileSync (path f);
               imageParts ← filesToImageParts files;
               mret (Part d mt :: imageParts)) w with
        | (w', inr ps) => (w', inr (acc ++ ps))
        | (w', inl e) => (w', inl e)
        end).
    { intros mt. unfold mbind, M_bind, readFileSync.
      destruct (uploads w !! path f) as [content|]; [|reflexivity].
      cbv beta iota. rewrite IH.
      destruct (filesToImageParts files w) as [w' [e|ps]]; [reflexivity|].
      unfold mret, M_ret. by rewrite <- app_assoc. }
    destruct (startsWith _ _); [apply Hread|].
    destruct (eqb _ _); [apply Hread|apply IH].
Qed.

(** How a bind runs: the continuation sees the value and the world left
    behind; a throw ends the computation. *)
Lemma bind_run {A B} (m : M A) (k : A -> M B) (w : World) :
  (x ← m; k x) w
  = match m w with
    | (w', inr a) => k a w'
    | (w', inl e) => (w', inl e)
    end.
Proof. reflexivity. Qed.

Lemma unlink_each_from (files : list file) (m : M unit) (w : World) :
  foldl (fun done f => _ ← done; unlink (path f)) m files w
  = (_ ← m; cleanupFiles files) w.
Proof.
  revert m. induction files as [|f files IH]; intros m.
  - simpl. unfold mbind, M_bind, mret, M_ret.
    by destruct (m w) as [w' [e|[]]].
  - simpl. rewrite IH. unfold mbind, M_bind.
    by destruct (m w) as [w' [e|[]]].
Qed.

Lemma unlink_each_run (files : list file) (w : World) :
  unlink_each files w = cleanupFiles files w.
Proof. unfold unlink_each. by rewrite unlink_each_from. Qed.

Section Refactoring.

Variable JSON_parse : jsstring -> result value.
Variable generateContent : jsstring -> value -> list part -> result jsstring.
Variable cfg : config.

Lemma method2_is_salvage (text : jsstring) (e : exn) :
  JSON_parse (cleaned text) = inl e ->
  parseGeminiJSON JSON_parse text = method2 JSON_parse text.
Proof.
  intros H. unfold parseGeminiJSON, parseGeminiJSON_trace, method2.
  rewrite H. by destruct (_ && _).
Qed.

(** X7. Factoring the parts loop, the two parse methods and the unlink
    loop out into [filesToImageParts], [parseGeminiJSON] and
    [cleanupFiles] changed nothing: on every request and world the inline
    handler and the refactored one leave the same world and send the same
    response. *)
Theorem refactoring_preserved_analyze (req : request) (w : World) :
  post_api_analyze_inline JSON_parse generateContent cfg req w
  = post_api_analyze JSON_parse generateContent cfg req w.
Proof.
  unfold post_api_analyze_inline, post_api_analyze, try_catch,
    analyze_inline_body, analyze_body.
  destruct (req_files req) as [[|f files]|]; try reflexivity.
  destruct (getGeminiClient cfg) as [genAI|]; [|reflexivity].
  rewrite !bind_run, push_parts_spec. cbn [app].
  destruct (filesToImageParts (f :: files) w) as [w' [e|imageParts]];
    [reflexivity|].
  destruct (bool_decide _); [reflexivity|].
  rewrite !bind_run. unfold lift.
  destruct (generateContent _ _ _) as [e|text]; [reflexivity|].
  destruct (JSON_parse (cleaned text)) as [e1|data] eqn:Hstrict.
  - rewrite (method2_is_salvage text e1 Hstrict).
    destruct (method2 JSON_parse text) as [e2|data]; [reflexivity|].
    rewrite !bind_run. by rewrite unlink_each_run.
  - unfold parseGeminiJSON, parseGeminiJSON_trace. rewrite Hstrict.
    cbn [snd]. rewrite !bind_run. by rewrite unlink_each_run.
Qed.

End Refactoring.

(** * What the upload routes do to the world *)

Lemma filesToImageParts_keeps_world (files : list file) (w : World) :
  filesToImageParts files w = (w, snd (filesToImageParts files w)).
Proof.
  pose proof (filesToImageParts_frame files w) as H.
  destruct (filesToImageParts files w) as [w' r]. simpl in H. by subst.
Qed.

(** A file the filter accepted is read or makes the reader throw; it is
    never skipped. *)
Lemma filesToImageParts_filtered (files : list file) (w : World)
    (ps : list part) :
  Forall (fun f => fileFilter f = true) files ->
  snd (filesToImageParts files w) = inr ps ->
  length ps = length files.
Proof.
  intros Hfilter. revert ps.
  induction Hfilter as [|f files Hf _ IH]; intros ps.
  - intros [= <-]. reflexivity.
  - cbn [filesToImageParts].
    assert (Hread : forall mt : jsstring,
      snd ((d ← readFileSync (path f);
            imageParts ← filesToImageParts files;
            mret (Part d mt :: imageParts)) w) = inr ps ->
      length ps = length (f :: files)).
    { intros mt. rewrite bind_run. unfold readFileSync.
      destruct (uploads w !! path f); [|discriminate].
      rewrite bind_run, filesToImageParts_keeps_world.
      destruct (snd (filesToImageParts files w)) as [e|ps'] eqn:E;
        [discriminate|].
      intros [= <-]. simpl. f_equal. by apply IH. }
    destruct (fileFilter_reads f Hf) as [Himg|[Himg Hpdf]]; rewrite Himg.
    + apply Hread.
    + rewrite Hpdf.
      change (eqb (lit "application/pdf") (lit "application/pdf")) with true.
      cbv iota. rewrite <- Hpdf. apply Hread.
Qed.

Section UploadRoutes.

Variable JSON_parse : jsstring -> result value.
Variable generateContent : jsstring -> value -> list part -> result jsstring.

(** The model call of [/api/extract], with the extraction prompt. *)
Variable generateExtraction : jsstring -> value -> list part -> result jsstring.

Variable cfg : config.

(** X8. [/api/analyze] never touches the store or the session, and it
    leaves the upload directory as it was unless it answers with a live
    analysis, in which case exactly the request's files are removed. *)
Theorem analyze_world_effect (req : request) (w : World) :
  fst (post_api_analyze JSON_parse generateContent cfg req w) = w
  ∨ exists files v,
      req_files req = Some files
      ∧ fst (post_api_analyze JSON_parse generateContent cfg req w)
        = with_uploads (without files (uploads w)) w
      ∧ snd (post_api_analyze JSON_parse generateContent cfg req w)
        = live_response v.
Proof.
  unfold post_api_analyze, try_catch, analyze_body.
  destruct (req_files req) as [[|f files]|]; try (by left).
  destruct (getGeminiClient cfg) as [genAI|]; [|by left].
  rewrite bind_run, filesToImageParts_keeps_world.
  destruct (snd (filesToImageParts (f :: files) w)) as [e|imageParts];
    [by left|].
  destruct (bool_decide _); [by left|].
  rewrite bind_run. unfold lift.
  destruct (generateContent _ _ _) as [e|text]; [by left|].
  destruct (parseGeminiJSON JSON_parse text) as [e|v]; [by left|].
  right. exists (f :: files), v. rewrite bind_run, cleanupFiles_run.
  by repeat split.
Qed.

(** X9. [/api/extract] removes exactly the request's files whenever it
    answers 200 (demo mode included), and leaves the world as it was
    whenever it answers anything else. *)
Theorem extract_world_effect (req : request) (w : World) :
  (status (snd (post_api_extract JSON_parse generateExtraction cfg req w)) = 200
   ∧ exists files,
       req_files req = Some files
       ∧ fst (post_api_extract JSON_parse generateExtraction cfg req w)
         = with_uploads (without files (uploads w)) w)
  ∨ (status (snd (post_api_extract JSON_parse generateExtraction cfg req w))
       ∈ [400; 500]
     ∧ fst (post_api_extract JSON_parse generateExtraction cfg req w) = w).
Proof.
  unfold post_api_extract, try_catch, extract_body.
  destruct (req_files req) as [[|f files]|];
    try (right; split; [left|reflexivity]).
  destruct (getGeminiClient cfg) as [genAI|].
  - rewrite bind_run, filesToImageParts_keeps_world.
    destruct (snd (filesToImageParts (f :: files) w)) as [e|imageParts];
      [right; split; [right; left|reflexivity]|].
    destruct (bool_decide _); [right; split; [left|reflexivity]|].
    rewrite bind_run. unfold lift.
    destruct (generateExtraction _ _ _) as [e|text];
      [right; split; [right; left|reflexivity]|].
    destruct (parseGeminiJSON JSON_parse text) as [e|v];
      [right; split; [right; left|reflexivity]|].
    left. rewrite bind_run, cleanupFiles_run.
    split; [reflexivity|]. by exists (f :: files).
  - left. rewrite bind_run, cleanupFiles_run.
    split; [reflexivity|]. by exists (f :: files).
Qed.

(** X10. Files that passed the upload filter always yield parts: with at
    least one such file, neither upload route answers 400. *)
Theorem filtered_uploads_never_rejected (req : request) (w : World)
    (files : list file) :
  req_files req = Some files -> files ≠ [] ->
  Forall (fun f => fileFilter f = true) files ->
  status (snd (post_api_analyze JSON_parse generateContent cfg req w))
    ∈ [200; 500]
  ∧ status (snd (post_api_extract JSON_parse generateExtraction cfg req w))
    ∈ [200; 500].
Proof.
  intros Hfiles Hne Hfilter.
  assert (Hparts : forall ps,
            snd (filesToImageParts files w) = inr ps ->
            bool_decide (length ps = 0%nat) = false).
  { intros ps Hps. apply bool_decide_eq_false.
    rewrite (filesToImageParts_filtered files w ps Hfilter Hps).
    by destruct files. }
  split.
  - unfold post_api_analyze, try_catch, analyze_body.
    rewrite Hfiles. destruct files as [|f files]; [done|].
    destruct (getGeminiClient cfg) as [genAI|]; [|left].
    rewrite bind_run, filesToImageParts_keeps_world.
    destruct (snd (filesToImageParts (f :: files) w)) as [e|imageParts] eqn:E;
      [right; left|].
    rewrite (Hparts imageParts eq_refl). rewrite bind_run. unfold lift.
    destruct (generateContent _ _ _) as [e|text]; [right; left|].
    destruct (parseGeminiJSON JSON_parse text) as [e|v]; [right; left|].
    rewrite bind_run, cleanupFiles_run. left.
  - unfold post_api_extract, try_catch, extract_body.
    rewrite Hfiles. destruct files as [|f files]; [done|].
    destruct (getGeminiClient cfg) as [genAI|];
      [|rewrite bind_run, cleanupFiles_run; left].
    rewrite bind_run, filesToImageParts_keeps_world.
    destruct (snd (filesToImageParts (f :: files) w)) as [e|imageParts] eqn:E;
      [right; left|].
    rewrite (Hparts imageParts eq_refl). rewrite bind_run. unfold lift.
    destruct (generateExtraction _ _ _) as [e|text]; [right; left|].
    destruct (parseGeminiJSON JSON_parse text) as [e|v]; [right; left|].
    rewrite bind_run, cleanupFiles_run. left.
Qed.

End UploadRoutes.

(** One PNG, whatever the model says and whether or not a key is set. *)
Lemma filtered_uploads_never_rejected_witness :
  status (snd (post_api_analyze Ecma404.JSON_parse
                 (model_says (lit "not json")) with_key upload_request disk))
    ∈ [200; 500]
  ∧ status (snd (post_api_extract Ecma404.JSON_parse (model_says (lit "{}"))
                   with_key upload_request disk))
    ∈ [200; 500].
Proof.
  apply (filtered_uploads_never_rejected Ecma404.JSON_parse
           (model_says (lit "not json")) (model_says (lit "{}")) with_key
           upload_request disk [png]).
  - reflexivity.
  - discriminate.
  - repeat constructor.
Defined.

(** * The other analysis route and the health check *)

Section ConfirmedFacts.

Variable JSON_parse : jsstring -> result value.
Variable generateContent : jsstring -> value -> list part -> result jsstring.
Variable generateConfirmed : jsstring -> value -> value -> result jsstring.
Variable cfg : config.
Variable timestamp : jsstring.
Variable DATABASE_URL : option jsstring.

(** X11. [/api/analyze-confirmed] leaves the world (upload directory,
    store, session) as it was on every path, and a reply that cannot be
    parsed is answered with at most its first 800 units. *)
Theorem confirmed_analysis_world_effect (req : request) (w : World) :
  fst (post_api_analyze_confirmed JSON_parse generateConfirmed cfg req w) = w
  ∧ forall raw,
      body_field "raw"
        (snd (post_api_analyze_confirmed JSON_parse generateConfirmed cfg
                req w)) = VStr raw ->
      (length raw <= 800)%nat.
Proof.
  unfold post_api_analyze_confirmed, try_catch, confirmed_body.
  destruct (negb (ToBoolean _));
    [split; [reflexivity|intros raw H; vm_compute in H; discriminate H]|].
  destruct (getGeminiClient cfg) as [genAI|];
    [|split; [reflexivity|intros raw H; vm_compute in H; discriminate H]].
  rewrite bind_run. unfold lift.
  destruct (generateConfirmed _ _ _) as [e|text];
    [split; [reflexivity|intros raw H; vm_compute in H; discriminate H]|].
  destruct (parseGeminiJSON JSON_parse text) as [e|v];
    [|split; [reflexivity|intros raw H; vm_compute in H; discriminate H]].
  split; [reflexivity|]. intros raw H.
  assert (Hraw : VStr (substring 0 800 text) = VStr raw) by exact H.
  injection Hraw as <-. rewrite (substring_prefix 800 text) by lia.
  rewrite length_take. lia.
Qed.

(** X12. Without a credential the two analysis routes answer with the same
    demo response for the same language selector, whatever files or
    confirmed data they were sent. *)
Theorem demo_agrees_across_routes (req req' : request) (w w' : World)
    (files : list file) :
  getGeminiClient cfg = None ->
  req_files req = Some files -> files ≠ [] ->
  ToBoolean (field (lit "confirmedData") (req_body req')) = true ->
  lang_of req' = lang_of req ->
  snd (post_api_analyze_confirmed JSON_parse generateConfirmed cfg req' w')
  = snd (post_api_analyze JSON_parse generateContent cfg req w).
Proof.
  intros Hclient Hfiles Hne Hdata Hlang.
  rewrite (analyze_demo _ _ _ req w files Hclient Hfiles Hne).
  unfold post_api_analyze_confirmed, try_catch, confirmed_body.
  rewrite Hdata, Hclient. cbn [negb]. fold (lang_of req'). by rewrite Hlang.
Qed.

(** X13. The health check's [geminiConfigured] flag tells demo mode: for a
    request with at least one file, the flag is [false] exactly when
    [/api/analyze] answers with [demo: true]. *)
Theorem health_flag_tells_demo_mode (req : request) (w : World)
    (files : list file) :
  req_files req = Some files -> files ≠ [] ->
  body_field "geminiConfigured"
    (snd (get_api_health timestamp DATABASE_URL cfg req w)) = VBool false
  <-> body_field "demo"
        (snd (post_api_analyze JSON_parse generateContent cfg req w))
      = VBool true.
Proof.
  intros Hfiles Hne.
  assert (Hflag : env_set (GEMINI_API_KEY cfg) = false
                  <-> getGeminiClient cfg = None).
  { unfold env_set, getGeminiClient.
    destruct (GEMINI_API_KEY cfg) as [k|]; [|done].
    destruct (eqb k []); simpl; split; congruence. }
  change (body_field "geminiConfigured"
            (snd (get_api_health timestamp DATABASE_URL cfg req w)))
    with (VBool (env_set (GEMINI_API_KEY cfg))).
  split.
  - intros [= Hoff]. apply Hflag in Hoff.
    by rewrite (analyze_demo _ _ _ req w files Hoff Hfiles Hne).
  - intros Hdemo. f_equal. apply Hflag.
    destruct (getGeminiClient cfg) as [genAI|] eqn:Hclient; [|reflexivity].
    exfalso. revert Hdemo.
    unfold post_api_analyze, try_catch, analyze_body.
    rewrite Hfiles, Hclient. destruct files as [|f files]; [done|].
    rewrite bind_run, filesToImageParts_keeps_world.
    destruct (snd (filesToImageParts (f :: files) w)) as [e|imageParts];
      [intros H; vm_compute in H; discriminate H|].
    destruct (bool_decide _); [intros H; vm_compute in H; discriminate H|].
    rewrite bind_run. unfold lift.
    destruct (generateContent _ _ _) as [e|text];
      [intros H; vm_compute in H; discriminate H|].
    destruct (parseGeminiJSON JSON_parse text) as [e|v];
      [intros H; vm_compute in H; discriminate H|].
    rewrite bind_run, cleanupFiles_run.
    intros H; vm_compute in H; discriminate H.
Qed.

End ConfirmedFacts.

(** * Registration, login, logout, current user *)

Lemma existsb_email_false (email : jsstring) (rows : list user_row) :
  existsb (fun u => eqb (u_email u) email) rows = false <->
  email ∉ map u_email rows.
Proof.
  induction rows as [|u rows IH]; simpl.
  - split; [intros _; apply not_elem_of_nil|reflexivity].
  - rewrite orb_false_iff, IH, not_elem_of_cons. unfold eqb.
    rewrite bool_decide_eq_false. split; intros [H1 H2]; split; congruence.
Qed.

Lemma filter_email_nil (email : jsstring) (rows : list user_row) :
  List.filter (fun u => eqb (u_email u) email) rows = [] <->
  existsb (fun u => eqb (u_email u) email) rows = false.
Proof.
  induction rows as [|u rows IH]; simpl; [tauto|].
  destruct (eqb (u_email u) email); simpl; [split; discriminate|exact IH].
Qed.

Lemma filter_email_app (email : jsstring) (rows : list user_row)
    (row : user_row) :
  email ∉ map u_email rows -> u_email row = email ->
  List.filter (fun u => eqb (u_email u) email) (rows ++ [row]) = [row].
Proof.
  intros Hnew Hrow. rewrite List.filter_app.
  apply existsb_email_false, filter_email_nil in Hnew. rewrite Hnew. simpl.
  unfold eqb. by rewrite bool_decide_eq_true_2.
Qed.

Section AuthFacts.

Variable admits_user : user_row -> bool.
Variables nextval NOW : Z.
Variable toLowerCase : jsstring -> jsstring.
Variable bcrypt_hash : value -> result jsstring.
Variable bcrypt_compare : value -> jsstring -> result bool.
Variable less_than : value -> Z -> bool.

Local Abbreviation register :=
  (post_api_auth_register admits_user nextval NOW toLowerCase bcrypt_hash
     less_than).
Local Abbreviation login := (post_api_auth_login toLowerCase bcrypt_compare).

(** A registration the store takes: the row is appended, the session is
    opened for it, and the row's public columns are answered. *)
Lemma register_creates (req : request) (w : World)
    (e pw n c h : jsstring) :
  online (db w) = true ->
  field (lit "email") (req_body req) = VStr e -> e ≠ [] ->
  field (lit "password") (req_body req) = VStr pw -> (6 <= length pw)%nat ->
  field (lit "name") (req_body req) = VStr n -> n ≠ [] ->
  or_else (field (lit "company") (req_body req)) (VStr []) = VStr c ->
  trim (toLowerCase e) ∉ map u_email (users (db w)) ->
  bcrypt_hash (VStr pw) = inr h ->
  admits_user (row_to_register nextval NOW toLowerCase e h n c) = true ->
  register req w
  = (with_session (Some nextval)
       (with_db (MkDb true
                   (users (db w)
                    ++ [row_to_register nextval NOW toLowerCase e h n c])
                   (reports (db w))) w),
     json (VObj [kv "success" (VBool true);
                 kv "user"
                    (public_user
                       (row_to_register nextval NOW toLowerCase e h n c))])).
Proof.
  intros Honline He Hene Hpw Hlen Hn Hnne Hc Hnew Hhash Hadmits.
  unfold post_api_auth_register, try_catch, register_body.
  rewrite He, Hpw, Hn, Hc.
  assert (Htruthy : forall s : jsstring, s ≠ [] -> ToBoolean (VStr s) = true).
  { intros s Hs. unfold ToBoolean, eqb. by rewrite bool_decide_eq_false_2. }
  rewrite (Htruthy e Hene), (Htruthy n Hnne).
  rewrite (Htruthy pw) by (intros ->; simpl in Hlen; lia).
  assert (Hlong : length_below less_than (VStr pw) 6 = false).
  { simpl. apply Z.ltb_ge. lia. }
  rewrite Hlong. cbn [negb orb].
  unfold receiver, select_users_by_email, insert_user, connected.
  unfold mbind, M_bind, mret, M_ret, gets, lift, modify, throw.
  rewrite Honline.
  pose proof Hnew as Hnone.
  apply existsb_email_false in Hnone.
  pose proof Hnone as Hfilter. apply filter_email_nil in Hfilter.
  rewrite Hfilter. cbn [length bool_decide negb].
  rewrite bool_decide_eq_true_2 by reflexivity. cbn [negb].
  rewrite Hhash, Honline, Hnone.
  fold (row_to_register nextval NOW toLowerCase e h n c).
  rewrite Hadmits. cbn [negb]. rewrite Honline. reflexivity.
Qed.

(** A login the handler accepts. *)
Lemma login_accepts (req : request) (w : World) (e : jsstring)
    (u : user_row) (rest : list user_row) :
  online (db w) = true ->
  field (lit "email") (req_body req) = VStr e -> e ≠ [] ->
  ToBoolean (field (lit "password") (req_body req)) = true ->
  List.filter (fun u => eqb (u_email u) (trim (toLowerCase e))) (users (db w))
  = u :: rest ->
  bcrypt_compare (field (lit "password") (req_body req)) (u_password_hash u)
  = inr true ->
  login req w
  = (with_session (Some (u_id u)) w,
     json (VObj [kv "success" (VBool true); kv "user" (public_user u)])).
Proof.
  intros Honline He Hene Hpw Hrows Hvalid.
  unfold post_api_auth_login, try_catch, login_body.
  rewrite He, Hpw.
  assert (Htruthy : ToBoolean (VStr e) = true).
  { unfold ToBoolean, eqb. by rewrite bool_decide_eq_false_2. }
  rewrite Htruthy. cbn [negb orb].
  unfold receiver, select_users_by_email, connected.
  unfold mbind, M_bind, mret, M_ret, gets, lift, modify.
  rewrite Honline, Hrows, Hvalid. reflexivity.
Qed.

(** X14. A login with an address nobody registered and a login with a
    registered address but a password [bcrypt.compare] refuses get the same
    answer, 401 "Invalid email or password", and leave the world as it
    was: the answer does not tell whether the address is registered. *)
Theorem login_failures_look_alike (req : request) (w : World)
    (e : jsstring) :
  online (db w) = true ->
  field (lit "email") (req_body req) = VStr e -> e ≠ [] ->
  ToBoolean (field (lit "password") (req_body req)) = true ->
  match List.filter (fun u => eqb (u_email u) (trim (toLowerCase e)))
          (users (db w)) with
  | [] => True
  | u :: _ =>
    bcrypt_compare (field (lit "password") (req_body req))
      (u_password_hash u) = inr false
  end ->
  login req w
  = (w, Response 401 (VObj [kv "error" (str "Invalid email or password")])).
Proof.
  intros Honline He Hene Hpw Hrows.
  unfold post_api_auth_login, try_catch, login_body.
  rewrite He, Hpw.
  assert (Htruthy : ToBoolean (VStr e) = true).
  { unfold ToBoolean, eqb. by rewrite bool_decide_eq_false_2. }
  rewrite Htruthy. cbn [negb orb].
  unfold receiver, select_users_by_email, connected.
  unfold mbind, M_bind, mret, M_ret, gets, lift, modify.
  rewrite Honline.
  destruct (List.filter _ _) as [|u rest]; [reflexivity|].
  by rewrite Hrows.
Qed.

(** X15. A login never writes to the store or the upload directory. It
    answers 200 only after opening the session for a row of [users] whose
    email is the normalised address of the request, and it answers with
    that row's public columns; on every other answer the world is as it
    was. *)
Theorem login_opens_session_only_for_a_user (req : request) (w : World) :
  db (fst (login req w)) = db w
  ∧ uploads (fst (login req w)) = uploads w
  ∧ (status (snd (login req w)) = 200 ->
     exists u e,
       u ∈ users (db w)
       ∧ field (lit "email") (req_body req) = VStr e
       ∧ u_email u = trim (toLowerCase e)
       ∧ session_userId (fst (login req w)) = Some (u_id u)
       ∧ body_field "user" (snd (login req w)) = public_user u)
  ∧ (status (snd (login req w)) ≠ 200 -> fst (login req w) = w).
Proof.
  unfold post_api_auth_login, try_catch, login_body.
  destruct (negb (ToBoolean _) || negb (ToBoolean _));
    [by repeat split|].
  destruct (field (lit "email") (req_body req)) as [| |b|x|e|l|o|d];
    try by repeat split.
  unfold receiver, select_users_by_email, connected.
  unfold mbind, M_bind, mret, M_ret, gets, lift, modify.
  destruct (online (db w)); [|by repeat split].
  destruct (List.filter _ _) as [|u rest] eqn:Hrows; [by repeat split|].
  destruct (bcrypt_compare _ _) as [err|[|]]; try by repeat split.
  cbn [negb fst snd db uploads with_session session_userId].
  split; [reflexivity|]. split; [reflexivity|]. split; [|done].
  intros _. exists u, e.
  assert (Hin : u ∈ List.filter
                      (fun u => eqb (u_email u) (trim (toLowerCase e)))
                      (users (db w))) by (rewrite Hrows; left).
  apply elem_of_filter_bool in Hin as [Hin Hmail].
  unfold eqb in Hmail. apply bool_decide_eq_true in Hmail.
  repeat split; assumption || reflexivity.
Qed.

(** X16. Registering, logging out and logging in again with the same body
    gives back the world and the answer of the registration, provided
    [bcrypt.compare] accepts the password against the hash [bcrypt.hash]
    made of it. *)
Theorem register_logout_login (req req' : request) (w : World)
    (e pw n c h : jsstring) :
  online (db w) = true ->
  field (lit "email") (req_body req) = VStr e -> e ≠ [] ->
  field (lit "password") (req_body req) = VStr pw -> (6 <= length pw)%nat ->
  field (lit "name") (req_body req) = VStr n -> n ≠ [] ->
  or_else (field (lit "company") (req_body req)) (VStr []) = VStr c ->
  trim (toLowerCase e) ∉ map u_email (users (db w)) ->
  bcrypt_hash (VStr pw) = inr h ->
  admits_user (row_to_register nextval NOW toLowerCase e h n c) = true ->
  bcrypt_compare (VStr pw) h = inr true ->
  status (snd (register req w)) = 200
  ∧ login req (fst (post_api_auth_logout req' (fst (register req w))))
    = register req w.
Proof.
  intros Honline He Hene Hpw Hlen Hn Hnne Hc Hnew Hhash Hadmits Hvalid.
  rewrite (register_creates req w e pw n c h) by assumption.
  split; [reflexivity|].
  cbn [fst post_api_auth_logout].
  rewrite (login_accepts req _ e
             (row_to_register nextval NOW toLowerCase e h n c) []).
  - reflexivity.
  - reflexivity.
  - exact He.
  - exact Hene.
  - rewrite Hpw. unfold ToBoolean, eqb. rewrite bool_decide_eq_false_2; [done|].
    intros ->. simpl in Hlen. lia.
  - cbn [db with_session with_db users]. by apply filter_email_app.
  - rewrite Hpw. exact Hvalid.
Qed.

(** X17. Registering an address that is already in [users] (after
    lower-casing and trimming) is answered 409 "Email already registered";
    nothing is stored and no session is opened. *)
Theorem duplicate_email_conflict (req : request) (w : World)
    (e : jsstring) (u : user_row) :
  online (db w) = true ->
  field (lit "email") (req_body req) = VStr e -> e ≠ [] ->
  ToBoolean (field (lit "password") (req_body req)) = true ->
  length_below less_than (field (lit "password") (req_body req)) 6 = false ->
  ToBoolean (field (lit "name") (req_body req)) = true ->
  u ∈ users (db w) -> u_email u = trim (toLowerCase e) ->
  register req w
  = (w, Response 409 (VObj [kv "error" (str "Email already registered")])).
Proof.
  intros Honline He Hene Hpw Hlong Hname Hin Hmail.
  unfold post_api_auth_register, try_catch, register_body.
  rewrite He, Hpw, Hname, Hlong.
  assert (Htruthy : ToBoolean (VStr e) = true).
  { unfold ToBoolean, eqb. by rewrite bool_decide_eq_false_2. }
  rewrite Htruthy. cbn [negb orb].
  unfold receiver, select_users_by_email, connected.
  unfold mbind, M_bind, mret, M_ret, gets, lift, modify.
  rewrite Honline.
  destruct (List.filter _ _) as [|x rest] eqn:Hrows; [|reflexivity].
  exfalso.
  assert (Hu : u ∈ List.filter
                     (fun u => eqb (u_email u) (trim (toLowerCase e)))
                     (users (db w))).
  { apply elem_of_filter_bool. split; [exact Hin|].
    unfold eqb. by apply bool_decide_eq_true_2. }
  rewrite Hrows in Hu. by apply elem_of_nil in Hu.
Qed.

(** X18. Registration keeps the addresses in [users] unique, never changes
    or drops a row already there, adds at most one, and leaves [reports]
    and the upload directory alone. *)
Theorem registration_keeps_emails_unique (req : request) (w : World) :
  emails_unique (db w) ->
  emails_unique (db (fst (register req w)))
  ∧ (exists new, users (db (fst (register req w))) = users (db w) ++ new
                 ∧ (length new <= 1)%nat)
  ∧ reports (db (fst (register req w))) = reports (db w)
  ∧ uploads (fst (register req w)) = uploads w.
Proof.
  intros Huniq. pattern (register req w).
  match goal with |- ?P _ => set (kept := P) end.
  assert (Hsame : forall r : response, kept (w, r)).
  { intros r. split; [exact Huniq|]. split; [|done].
    exists []. simpl. rewrite app_nil_r. split; [reflexivity|lia]. }
  unfold post_api_auth_register, try_catch, register_body.
  destruct (negb (ToBoolean _) || negb (ToBoolean _) || negb (ToBoolean _));
    [apply Hsame|].
  destruct (length_below _ _ _); [apply Hsame|].
  rewrite bind_run.
  destruct (field (lit "email") (req_body req)) as [| |b|x|e|l|o|d];
    try apply Hsame.
  cbn [receiver mret M_ret]. rewrite bind_run.
  unfold select_users_by_email at 1. unfold connected.
  unfold mbind at 1. unfold M_bind at 1. unfold gets at 1.
  destruct (online (db w)) eqn:Honline; [|apply Hsame].
  destruct (negb (bool_decide _)); [apply Hsame|].
  rewrite bind_run. unfold lift at 1.
  destruct (bcrypt_hash _) as [err|h]; [apply Hsame|].
  rewrite bind_run.
  destruct (field (lit "name") (req_body req)) as [| |b|x|n|l|o|d];
    try apply Hsame.
  cbn [receiver mret M_ret]. rewrite bind_run.
  destruct (or_else _ _) as [| |b|x|c|l|o|d]; try apply Hsame.
  cbn [receiver mret M_ret].
  unfold insert_user, connected.
  unfold mbind, M_bind, mret, M_ret, gets, lift, modify, throw.
  rewrite Honline.
  destruct (existsb _ _) eqn:Hfresh; [apply Hsame|].
  destruct (admits_user _); [|apply Hsame].
  unfold kept. cbn [negb fst db uploads with_db with_session users reports].
  split; [|split; [|done]].
  - unfold emails_unique. cbn [users]. rewrite map_app. simpl.
    apply NoDup_app. split; [exact Huniq|]. split; [|apply NoDup_singleton].
    intros x Hx [->|Hnil%elem_of_nil]%elem_of_cons; [|done].
    by apply existsb_email_false in Hfresh.
  - eexists. split; [reflexivity|]. simpl. lia.
Qed.

(** X19. [/api/auth/me] always answers 200 and changes nothing. Its [user]
    is [null], or the id, email, name and company (not the password hash)
    of a row of [users] whose id is the session's. *)
Theorem me_answers_public_columns (req : request) (w : World) :
  fst (get_api_auth_me req w) = w
  ∧ status (snd (get_api_auth_me req w)) = 200
  ∧ (body_field "user" (snd (get_api_auth_me req w)) = VNull
     ∨ exists u,
         u ∈ users (db w)
         ∧ session_userId w = Some (u_id u)
         ∧ body_field "user" (snd (get_api_auth_me req w)) = public_user u
         ∧ get_prop (public_user u) (lit "password_hash") = inr VUndefined).
Proof.
  unfold get_api_auth_me, authenticated.
  destruct (session_userId w) as [uid|] eqn:Hsess;
    [|split; [done|split; [done|by left]]].
  destruct (negb (negb (uid =? 0))); [split; [done|split; [done|by left]]|].
  unfold try_catch, select_users_by_id, connected.
  unfold mbind, M_bind, mret, M_ret, gets.
  destruct (online (db w)); [|split; [done|split; [done|by left]]].
  rewrite Hsess.
  destruct (List.filter _ _) as [|u rest] eqn:Hrows;
    [split; [done|split; [done|by left]]|].
  split; [done|]. split; [done|]. right. exists u.
  assert (Hin : u ∈ List.filter (fun u => u_id u =? uid) (users (db w)))
    by (rewrite Hrows; left).
  apply elem_of_filter_bool in Hin as [Hin Hid]. apply Z.eqb_eq in Hid.
  split; [exact Hin|]. split; [by rewrite Hid|]. split; reflexivity.
Qed.

End AuthFacts.

Section LogoutFacts.

Variable jsonb : value -> value.
Variable admits_report : report_row -> bool.
Variables nextval NOW Date_now : Z.

(** X20. After a logout, whoever was logged in, every report route answers
    401 and [/api/auth/me] answers [{user: null}]; the store and the upload
    directory are as they were. *)
Theorem logout_ends_session (req req' : request) (w : World) :
  db (fst (post_api_auth_logout req w)) = db w
  ∧ uploads (fst (post_api_auth_logout req w)) = uploads w
  ∧ snd (get_api_auth_me req' (fst (post_api_auth_logout req w)))
    = json (VObj [kv "user" VNull])
  ∧ Forall (fun h : request -> handler =>
              snd (h req' (fst (post_api_auth_logout req w)))
              = Response 401 (VObj [kv "error" (str "Not authenticated")]))
      [post_api_reports admits_report nextval NOW Date_now; get_api_reports;
       get_api_reports_id jsonb; delete_api_reports_id].
Proof.
  split; [reflexivity|]. split; [reflexivity|]. split; [reflexivity|].
  repeat constructor.
Qed.

End LogoutFacts.

(** * Saving, listing, loading and deleting reports *)

Lemma insert_desc_sorted (r : report_row) (rows : list report_row) :
  newest_first rows -> newest_first (insert_desc r rows).
Proof.
  unfold newest_first.
  induction rows as [|x rows IH]; intros Hsorted; simpl.
  - repeat constructor.
  - apply StronglySorted_inv in Hsorted as [Hrows Hx].
    destruct (r_created_at x <? r_created_at r) eqn:Hnewer.
    + apply Z.ltb_lt in Hnewer. constructor.
      * by constructor.
      * constructor; [lia|].
        eapply Forall_impl; [exact Hx|]. intros y Hy. simpl in Hy. lia.
    + apply Z.ltb_ge in Hnewer. constructor; [by apply IH|].
      apply List.Forall_forall. intros y Hy.
      rewrite <- list_elem_of_In in Hy.
      apply elem_of_insert_desc in Hy as [->|Hy]; [lia|].
      rewrite List.Forall_forall in Hx. apply Hx. by apply list_elem_of_In.
Qed.

Lemma order_by_sorted (rows : list report_row) :
  newest_first (order_by_created_at_desc rows).
Proof.
  unfold order_by_created_at_desc.
  induction rows as [|x rows IH]; simpl; [constructor|].
  by apply insert_desc_sorted.
Qed.

Lemma take_sorted (n : nat) (rows : list report_row) :
  newest_first rows -> newest_first (take n rows).
Proof.
  unfold newest_first. revert n.
  induction rows as [|x rows IH]; intros [|n] Hsorted; simpl;
    try constructor.
  - apply IH. by apply StronglySorted_inv in Hsorted as [? _].
  - apply StronglySorted_inv in Hsorted as [_ Hx].
    rewrite List.Forall_forall in Hx |- *. intros y Hy. apply Hx.
    rewrite <- list_elem_of_In in Hy |- *.
    apply elem_of_take in Hy as (i & Hy & _).
    by apply list_elem_of_lookup_2 in Hy.
Qed.

Lemma length_insert_desc (r : report_row) (rows : list report_row) :
  length (insert_desc r rows) = S (length rows).
Proof.
  induction rows as [|x rows IH]; simpl; [reflexivity|].
  destruct (_ <? _); simpl; [reflexivity|]. by rewrite IH.
Qed.

Lemma length_order_by (rows : list report_row) :
  length (order_by_created_at_desc rows) = length rows.
Proof.
  unfold order_by_created_at_desc.
  induction rows as [|x rows IH]; simpl; [reflexivity|].
  by rewrite length_insert_desc, IH.
Qed.

Lemma existsb_report_id_true (rid : jsstring) (rows : list report_row)
    (r : report_row) :
  r ∈ rows -> r_report_id r = rid ->
  existsb (fun r => eqb (r_report_id r) rid) rows = true.
Proof.
  intros Hin Hid. apply existsb_exists. exists r.
  split; [by apply list_elem_of_In|].
  unfold eqb. by apply bool_decide_eq_true_2.
Qed.

Section ReportFacts.

Variable jsonb : value -> value.
Variable admits_report : report_row -> bool.
Variables nextval NOW Date_now : Z.

Local Abbreviation save :=
  (post_api_reports admits_report nextval NOW Date_now).

(** The load handler on the world a save left: the saved row is the one
    row of that id and owner. *)
Lemma load_after_save (req req' : request) (w : World) (uid : Z)
    (level : value) :
  session_userId w = Some uid -> uid ≠ 0 ->
  ToBoolean (field (lit "reportData") (req_body req)) = true ->
  get_prop (field (lit "reportData") (req_body req)) (lit "overallRiskLevel")
    = inr level ->
  store_takes admits_report (db w)
    (row_to_save nextval NOW Date_now uid req level) ->
  req_reportId req' = report_id_at Date_now ->
  get_api_reports_id jsonb req' (fst (save req w))
  = (fst (save req w),
     json (VObj [kv "report"
                    (loaded_columns jsonb
                       (row_to_save nextval NOW Date_now uid req level))])).
Proof.
  intros Hsess Huid Hdata Hlevel Htakes Hid.
  rewrite (save_report_stores _ _ _ _ req w uid level) by assumption.
  destruct Htakes as (Honline & _ & Hfresh & _).
  cbn [fst]. unfold get_api_reports_id, requireAuth, authenticated.
  cbn [session_userId with_db]. rewrite Hsess.
  apply Z.eqb_neq in Huid. rewrite Huid. cbn [negb].
  unfold try_catch, select_report, connected.
  unfold mbind, M_bind, mret, M_ret, gets.
  cbn [db online session_userId reports with_db].
  rewrite Honline, Hsess, Hid.
  cbn [db online session_userId reports with_db].
  rewrite List.filter_app.
  rewrite (filter_none (matches (report_id_at Date_now) (Some uid))
             (reports (db w))).
  - cbn [List.filter app]. unfold matches at 1, owned_by, eqb.
    cbn [row_to_save r_report_id r_user_id].
    rewrite bool_decide_eq_true_2 by reflexivity.
    rewrite Z.eqb_refl. reflexivity.
  - intros r Hr. unfold matches, eqb.
    case_bool_decide as Hsame; [|reflexivity]. exfalso.
    cbn [row_to_save r_report_id] in Hfresh.
    rewrite (existsb_report_id_true _ _ r Hr Hsame) in Hfresh.
    discriminate Hfresh.
Qed.

(** X21. A report that was saved loads back: a GET of the id the save made,
    by the same user, answers 200 and changes nothing; its report carries
    the [id], [report_id], [title], [score] and [created_at] the save
    answered with, and as [data] what the JSONB column gives back for the
    [reportData] that was sent (the record in the engine's rendering, not
    necessarily as it was written). *)
Theorem saved_report_loads_back (req req' : request) (w : World) (uid : Z)
    (level : value) :
  session_userId w = Some uid -> uid ≠ 0 ->
  ToBoolean (field (lit "reportData") (req_body req)) = true ->
  get_prop (field (lit "reportData") (req_body req)) (lit "overallRiskLevel")
    = inr level ->
  store_takes admits_report (db w)
    (row_to_save nextval NOW Date_now uid req level) ->
  req_reportId req' = report_id_at Date_now ->
  fst (get_api_reports_id jsonb req' (fst (save req w))) = fst (save req w)
  ∧ status (snd (get_api_reports_id jsonb req' (fst (save req w)))) = 200
  ∧ Forall (fun k : string =>
              report_field k
                (snd (get_api_reports_id jsonb req' (fst (save req w))))
              = report_field k (snd (save req w)))
      ["id"%string; "report_id"%string; "title"%string; "score"%string;
       "created_at"%string]
  ∧ report_field "data"
      (snd (get_api_reports_id jsonb req' (fst (save req w))))
    = inr (jsonb (field (lit "reportData") (req_body req))).
Proof.
  intros Hsess Huid Hdata Hlevel Htakes Hid.
  rewrite (load_after_save req req' w uid level) by assumption.
  rewrite (save_report_stores _ _ _ _ req w uid level) by assumption.
  cbn [fst snd]. split; [reflexivity|]. split; [reflexivity|].
  split; [|vm_compute; reflexivity].
  repeat constructor; vm_compute; reflexivity.
Qed.

(** X22. The report list of a logged-in user holds at most 50 rows, newest
    first, each a row of [reports] owned by that user; when the user owns
    at most 50 reports, all of them are listed. Listing changes nothing. *)
Theorem report_list_bounded_sorted_owned (req : request) (w : World)
    (uid : Z) :
  session_userId w = Some uid -> uid ≠ 0 -> online (db w) = true ->
  exists rows,
    get_api_reports req w
    = (w, json (VObj [kv "reports" (VArr (map listed_columns rows))]))
    ∧ (length rows <= 50)%nat
    ∧ newest_first rows
    ∧ (forall r, r ∈ rows -> r ∈ reports (db w) ∧ r_user_id r = uid)
    ∧ ((length (List.filter (owned_by (Some uid)) (reports (db w))) <= 50)%nat
       -> forall r, r ∈ reports (db w) -> r_user_id r = uid -> r ∈ rows).
Proof.
  intros Hsess Huid Honline.
  exists (take 50 (order_by_created_at_desc
                     (List.filter (owned_by (Some uid)) (reports (db w))))).
  split; [|split; [|split; [|split]]].
  - unfold get_api_reports, requireAuth, authenticated. rewrite Hsess.
    apply Z.eqb_neq in Huid. rewrite Huid. cbn [negb].
    unfold try_catch, select_reports_of, connected.
    unfold mbind, M_bind, mret, M_ret, gets.
    by rewrite Honline, Hsess.
  - rewrite length_take. lia.
  - apply take_sorted, order_by_sorted.
  - intros r Hr. apply elem_of_take in Hr as (i & Hr & _).
    apply list_elem_of_lookup_2 in Hr.
    apply elem_of_order_by, elem_of_filter_bool in Hr as [Hin Howned].
    split; [exact Hin|]. by apply Z.eqb_eq in Howned.
  - intros Hfew r Hin Howned.
    rewrite take_ge by (rewrite length_order_by; exact Hfew).
    apply elem_of_order_by, elem_of_filter_bool. split; [exact Hin|].
    by apply Z.eqb_eq.
Qed.

(** X23. A delete by a logged-in user removes exactly the rows that carry
    the requested id and belong to that user: every other row, of this
    user or of another, stays, and [users] is untouched. A GET of the id
    afterwards answers 404, and a second delete changes nothing. *)
Theorem owner_delete_removes_report (req : request) (w : World) (uid : Z) :
  session_userId w = Some uid -> uid ≠ 0 -> online (db w) = true ->
  snd (delete_api_reports_id req w) = json (VObj [kv "success" (VBool true)])
  ∧ (forall r,
       r ∈ reports (db (fst (delete_api_reports_id req w)))
       <-> r ∈ reports (db w)
           ∧ ¬ (r_report_id r = req_reportId req ∧ r_user_id r = uid))
  ∧ users (db (fst (delete_api_reports_id req w))) = users (db w)
  ∧ get_api_reports_id jsonb req (fst (delete_api_reports_id req w))
    = (fst (delete_api_reports_id req w),
       Response 404 (VObj [kv "error" (str "Report not found")]))
  ∧ delete_api_reports_id req (fst (delete_api_reports_id req w))
    = delete_api_reports_id req w.
Proof.
  intros Hsess Huid Honline.
  assert (Hmatch : forall r,
            matches (req_reportId req) (Some uid) r = true
            <-> r_report_id r = req_reportId req ∧ r_user_id r = uid).
  { intros r. unfold matches, owned_by, eqb.
    rewrite andb_true_iff, bool_decide_eq_true, Z.eqb_eq. reflexivity. }
  assert (Hrun : delete_api_reports_id req w
                 = (with_db (MkDb true (users (db w))
                               (List.filter
                                  (fun r => negb (matches (req_reportId req)
                                                    (Some uid) r))
                                  (reports (db w)))) w,
                    json (VObj [kv "success" (VBool true)]))).
  { unfold delete_api_reports_id, requireAuth, authenticated. rewrite Hsess.
    pose proof Huid as Hnz. apply Z.eqb_neq in Hnz. rewrite Hnz. cbn [negb].
    unfold try_catch, delete_report, connected.
    unfold mbind, M_bind, mret, M_ret, gets, modify.
    rewrite Honline. cbn beta iota. by rewrite Honline, Hsess. }
  rewrite Hrun. cbn [fst snd db with_db users reports].
  split; [reflexivity|]. split; [|split; [reflexivity|split]].
  - intros r. rewrite elem_of_filter_bool, negb_true_iff.
    rewrite <- Hmatch, not_true_iff_false. reflexivity.
  - unfold get_api_reports_id, requireAuth, authenticated.
    cbn [session_userId with_db]. rewrite Hsess.
    pose proof Huid as Hnz. apply Z.eqb_neq in Hnz. rewrite Hnz. cbn [negb].
    unfold try_catch, select_report, connected.
    unfold mbind, M_bind, mret, M_ret, gets.
    cbn [db online session_userId reports with_db]. rewrite Hsess.
    rewrite filter_none; [reflexivity|].
    intros r [_ Hr]%elem_of_filter_bool. by apply negb_true_iff in Hr.
  - unfold delete_api_reports_id at 1. unfold requireAuth, authenticated.
    cbn [session_userId with_db]. rewrite Hsess.
    pose proof Huid as Hnz. apply Z.eqb_neq in Hnz. rewrite Hnz. cbn [negb].
    unfold try_catch, delete_report, connected.
    unfold mbind, M_bind, mret, M_ret, gets, modify.
    cbn [db online session_userId reports users with_db uploads]. rewrite Hsess.
    unfold with_db. cbn [uploads db session_userId].
    rewrite (filter_all _ (List.filter _ _)); [reflexivity|].
    intros r [_ Hr]%elem_of_filter_bool. exact Hr.
Qed.

(** X24. The report id is made from the clock alone, so a save at a
    millisecond whose id is already in [reports] (saved by anyone) fails:
    it is answered 500 "Failed to save report" and stores nothing. *)
Theorem report_id_collision_fails_save (req : request) (w : World)
    (r : report_row) :
  authenticated w = true ->
  ToBoolean (field (lit "reportData") (req_body req)) = true ->
  r ∈ reports (db w) -> r_report_id r = report_id_at Date_now ->
  save req w
  = (w, Response 500 (VObj [kv "error" (str "Failed to save report")])).
Proof.
  intros Hauth Hdata Hin Hid.
  unfold post_api_reports, requireAuth. rewrite Hauth.
  unfold try_catch, save_report_body. rewrite Hdata. cbn [negb].
  rewrite bind_run. unfold lift at 1.
  destruct (get_prop _ _) as [e|level]; [reflexivity|].
  unfold insert_report, connected.
  unfold mbind, M_bind, mret, M_ret, gets, modify, throw.
  destruct (online (db w)); [|reflexivity].
  destruct (session_userId w) as [uid|]; [|reflexivity].
  destruct (negb (existsb _ (users (db w)))); [reflexivity|].
  fold (report_id_at Date_now).
  by rewrite (existsb_report_id_true _ _ r Hin Hid).
Qed.

End ReportFacts.

(** * Report ids *)

Lemma digit_value_digit (d : Z) :
  0 <= d < 36 ->
  digit_value
    ((fun c => if (97 <=? c) && (c <=? 122) then c - 32 else c)
       (Radix.digit d)) = d.
Proof.
  intros Hd. unfold Radix.digit, digit_value. cbn beta.
  destruct (d <? 10) eqn:Hsmall.
  - apply Z.ltb_lt in Hsmall.
    replace (97 <=? 48 + d) with false by (symmetry; apply Z.leb_gt; lia).
    cbn [andb].
    replace (48 + d <? 58) with true by (symmetry; apply Z.ltb_lt; lia). lia.
  - apply Z.ltb_ge in Hsmall.
    replace (97 <=? 87 + d) with true by (symmetry; apply Z.leb_le; lia).
    replace (87 + d <=? 122) with true by (symmetry; apply Z.leb_le; lia).
    cbn [andb].
    replace (87 + d - 32 <? 58) with false by (symmetry; apply Z.ltb_ge; lia).
    lia.
Qed.

(** Reading the digits back gives the number they were made from. *)
Lemma digits36_value (fuel : nat) :
  forall (n : Z) (acc : jsstring),
    0 <= n < 36 ^ Z.of_nat fuel ->
    foldl (fun a c => a * 36 + digit_value c) 0
      (Radix.toUpperCase (Radix.digits36 fuel n acc))
    = foldl (fun a c => a * 36 + digit_value c) n (Radix.toUpperCase acc).
Proof.
  induction fuel as [|fuel IH]; intros n acc Hn.
  - simpl in *. by replace n with 0 by lia.
  - cbn [Radix.digits36].
    assert (Hmod : 0 <= n mod 36 < 36) by (apply Z.mod_pos_bound; lia).
    assert (Hdiv : n = 36 * (n / 36) + n mod 36) by (apply Z.div_mod; lia).
    destruct (n / 36 =? 0) eqn:Hlast.
    + apply Z.eqb_eq in Hlast. unfold Radix.toUpperCase. cbn [map foldl].
      rewrite (digit_value_digit _ Hmod). f_equal. lia.
    + rewrite IH.
      * unfold Radix.toUpperCase. cbn [map foldl].
        rewrite (digit_value_digit _ Hmod). f_equal. lia.
      * split; [apply Z.div_pos; lia|].
        apply Z.div_lt_upper_bound; [lia|].
        replace (Z.of_nat (S fuel)) with (Z.succ (Z.of_nat fuel)) in Hn by lia.
        rewrite Z.pow_succ_r in Hn by lia. lia.
Qed.

Lemma enough_digits (t : Z) :
  0 <= t -> t < 36 ^ Z.of_nat (S (Z.to_nat (Z.log2 t))).
Proof.
  intros Ht.
  replace (Z.of_nat (S (Z.to_nat (Z.log2 t)))) with (Z.succ (Z.log2 t))
    by (pose proof (Z.log2_nonneg t); lia).
  destruct (Z.eq_dec t 0) as [->|Hpos]; [reflexivity|].
  apply Z.lt_le_trans with (2 ^ Z.succ (Z.log2 t)).
  - apply Z.log2_spec. lia.
  - apply Z.pow_le_mono_l. pose proof (Z.log2_nonneg t). lia.
Qed.

Lemma report_id_round_trip (t : Z) :
  0 <= t -> time_of_report_id (report_id_at t) = t.
Proof.
  intros Ht. unfold time_of_report_id, report_id_at.
  change (lit "GTM-") with [71; 84; 77; 45]. cbn [app drop].
  unfold parse36, Radix.toString36.
  replace (t <? 0) with false by (symmetry; apply Z.ltb_ge; lia).
  cbn [app]. rewrite Z.abs_eq by lia. rewrite drop_0.
  rewrite digits36_value; [reflexivity|].
  split; [lia|by apply enough_digits].
Qed.

(** X25. A report id encodes the millisecond it was made at: reading the
    base-36 digits after ["GTM-"] gives the time back, so saves at
    different times never get the same id. *)
Theorem report_id_encodes_save_time (t : Z) :
  0 <= t ->
  time_of_report_id (report_id_at t) = t
  ∧ forall t', 0 <= t' -> report_id_at t' = report_id_at t -> t' = t.
Proof.
  intros Ht. split; [by apply report_id_round_trip|].
  intros t' Ht' Hsame.
  rewrite <- (report_id_round_trip t Ht), <- (report_id_round_trip t' Ht').
  by rewrite Hsame.
Qed.

(** * The properties above on the sample requests *)

(** Without a key, the confirmed route answers the upload route's demo
    record. *)
Lemma demo_agrees_across_routes_witness :
  snd (post_api_analyze_confirmed Ecma404.JSON_parse
         (confirmed_says (lit "{}")) no_key confirmed_request fresh_world)
  = snd (post_api_analyze Ecma404.JSON_parse (model_says (lit "{}")) no_key
           upload_request disk).
Proof.
  apply (demo_agrees_across_routes Ecma404.JSON_parse
           (model_says (lit "{}")) (confirmed_says (lit "{}")) no_key
           upload_request confirmed_request disk fresh_world [png]).
  - reflexivity.
  - reflexivity.
  - discriminate.
  - reflexivity.
  - reflexivity.
Defined.

Lemma health_flag_tells_demo_mode_witness :
  body_field "geminiConfigured"
    (snd (get_api_health (lit "2024-01-01T00:00:00.000Z") None no_key
            upload_request disk)) = VBool false
  <-> body_field "demo"
        (snd (post_api_analyze Ecma404.JSON_parse (model_says (lit "{}"))
                no_key upload_request disk)) = VBool true.
Proof.
  apply (health_flag_tells_demo_mode Ecma404.JSON_parse
           (model_says (lit "{}")) no_key (lit "2024-01-01T00:00:00.000Z")
           None upload_request disk [png]).
  - reflexivity.
  - discriminate.
Defined.

(** Alice's address with a wrong password. *)
Lemma login_failures_look_alike_witness :
  post_api_auth_login ascii_toLowerCase sample_compare
    (login_request "Alice@Example.com" "guess") fresh_world
  = (fresh_world,
     Response 401 (VObj [kv "error" (str "Invalid email or password")]))
  ∧ post_api_auth_login ascii_toLowerCase sample_compare
      (login_request "Alice@Example.com" "guess") alice_session
    = (alice_session,
       Response 401 (VObj [kv "error" (str "Invalid email or password")])).
Proof.
  split.
  - apply (login_failures_look_alike ascii_toLowerCase sample_compare
             (login_request "Alice@Example.com" "guess") fresh_world
             (lit "Alice@Example.com")).
    + reflexivity.
    + reflexivity.
    + discriminate.
    + reflexivity.
    + vm_compute. exact I.
  - apply (login_failures_look_alike ascii_toLowerCase sample_compare
             (login_request "Alice@Example.com" "guess") alice_session
             (lit "Alice@Example.com")).
    + reflexivity.
    + reflexivity.
    + discriminate.
    + reflexivity.
    + vm_compute. reflexivity.
Defined.

Lemma register_logout_login_witness :
  status (snd (post_api_auth_register admit_all 1 1700000000500
                 ascii_toLowerCase sample_hash never_less
                 (register_request " Carol@Example.com " "abcdef" " Carol ")
                 fresh_world)) = 200
  ∧ post_api_auth_login ascii_toLowerCase sample_compare
      (register_request " Carol@Example.com " "abcdef" " Carol ")
      (fst (post_api_auth_logout (report_request [])
              (fst (post_api_auth_register admit_all 1 1700000000500
                      ascii_toLowerCase sample_hash never_less
                      (register_request " Carol@Example.com " "abcdef"
                         " Carol ")
                      fresh_world))))
    = post_api_auth_register admit_all 1 1700000000500 ascii_toLowerCase
        sample_hash never_less
        (register_request " Carol@Example.com " "abcdef" " Carol ")
        fresh_world.
Proof.
  apply (register_logout_login admit_all 1 1700000000500 ascii_toLowerCase
           sample_hash sample_compare never_less
           (register_request " Carol@Example.com " "abcdef" " Carol ")
           (report_request []) fresh_world
           (lit " Carol@Example.com ") (lit "abcdef") (lit " Carol ") []
           (lit "$2a$12$abcdef")).
  - reflexivity.
  - reflexivity.
  - discriminate.
  - reflexivity.
  - vm_compute. lia.
  - reflexivity.
  - discriminate.
  - reflexivity.
  - vm_compute. apply not_elem_of_nil.
  - reflexivity.
  - reflexivity.
  - vm_compute. reflexivity.
Defined.

Lemma duplicate_email_conflict_witness :
  post_api_auth_register admit_all 3 1700000000500 ascii_toLowerCase
    sample_hash never_less
    (register_request " ALICE@example.com" "abcdef" "Alice") alice_session
  = (alice_session,
     Response 409 (VObj [kv "error" (str "Email already registered")])).
Proof.
  apply (duplicate_email_conflict admit_all 3 1700000000500
           ascii_toLowerCase sample_hash never_less
           (register_request " ALICE@example.com" "abcdef" "Alice")
           alice_session (lit " ALICE@example.com") alice).
  - reflexivity.
  - reflexivity.
  - discriminate.
  - reflexivity.
  - reflexivity.
  - reflexivity.
  - left.
  - vm_compute. reflexivity.
Defined.

Lemma alice_session_emails_unique : emails_unique (db alice_session).
Proof.
  unfold emails_unique. simpl. apply NoDup_cons. split.
  - intros [Hin|Hin%elem_of_nil]%elem_of_cons; [|done].
    vm_compute in Hin. discriminate Hin.
  - apply NoDup_singleton.
Qed.

Lemma registration_keeps_emails_unique_witness :
  emails_unique
    (db (fst (post_api_auth_register admit_all 3 1700000000500
                ascii_toLowerCase sample_hash never_less
                (register_request "carol@example.com" "abcdef" "Carol")
                alice_session)))
  ∧ (exists new,
       users (db (fst (post_api_auth_register admit_all 3 1700000000500
                         ascii_toLowerCase sample_hash never_less
                         (register_request "carol@example.com" "abcdef"
                            "Carol")
                         alice_session)))
       = users (db alice_session) ++ new
       ∧ (length new <= 1)%nat)
  ∧ reports (db (fst (post_api_auth_register admit_all 3 1700000000500
                        ascii_toLowerCase sample_hash never_less
                        (register_request "carol@example.com" "abcdef"
                           "Carol")
                        alice_session)))
    = reports (db alice_session)
  ∧ uploads (fst (post_api_auth_register admit_all 3 1700000000500
                    ascii_toLowerCase sample_hash never_less
                    (register_request "carol@example.com" "abcdef" "Carol")
                    alice_session))
    = uploads alice_session.
Proof.
  apply (registration_keeps_emails_unique admit_all 3 1700000000500
           ascii_toLowerCase sample_hash never_less
           (register_request "carol@example.com" "abcdef" "Carol")
           alice_session).
  exact alice_session_emails_unique.
Defined.

(** Alice saves a record whose keys are not in the engine's order and
    loads it back. *)
Lemma saved_report_loads_back_witness :
  fst (get_api_reports_id jsonb_sorted
         (report_request (report_id_at 1700000000000))
         (fst (post_api_reports admit_all 2 1700000000500 1700000000000
                 (save_request (VObj [kv "overallRiskLevel" (str "low");
                                      kv "product" (str "Tea")]))
                 alice_session)))
  = fst (post_api_reports admit_all 2 1700000000500 1700000000000
           (save_request (VObj [kv "overallRiskLevel" (str "low");
                                kv "product" (str "Tea")]))
           alice_session)
  ∧ report_field "data"
      (snd (get_api_reports_id jsonb_sorted
              (report_request (report_id_at 1700000000000))
              (fst (post_api_reports admit_all 2 1700000000500 1700000000000
                      (save_request (VObj [kv "overallRiskLevel" (str "low");
                                           kv "product" (str "Tea")]))
                      alice_session))))
    = inr (VObj [kv "product" (str "Tea");
                 kv "overallRiskLevel" (str "low")]).
Proof.
  destruct (saved_report_loads_back jsonb_sorted admit_all 2 1700000000500
              1700000000000
              (save_request (VObj [kv "overallRiskLevel" (str "low");
                                   kv "product" (str "Tea")]))
              (report_request (report_id_at 1700000000000))
              alice_session 1 (str "low")) as (Hworld & _ & _ & Hdata).
  - reflexivity.
  - lia.
  - reflexivity.
  - vm_compute. reflexivity.
  - vm_compute. repeat split.
  - reflexivity.
  - split; [exact Hworld|]. rewrite Hdata. vm_compute. reflexivity.
Defined.

Lemma report_list_bounded_sorted_owned_witness :
  exists rows,
    get_api_reports (report_request []) bob_session
    = (bob_session,
       json (VObj [kv "reports" (VArr (map listed_columns rows))]))
    ∧ (length rows <= 50)%nat
    ∧ newest_first rows
    ∧ (forall r, r ∈ rows -> r ∈ reports (db bob_session) ∧ r_user_id r = 2)
    ∧ ((length (List.filter (owned_by (Some 2%Z))
                  (reports (db bob_session))) <= 50)%nat
       -> forall r, r ∈ reports (db bob_session) -> r_user_id r = 2 ->
                    r ∈ rows).
Proof.
  apply (report_list_bounded_sorted_owned (report_request []) bob_session 2).
  - reflexivity.
  - lia.
  - reflexivity.
Defined.

Lemma owner_delete_removes_report_witness :
  snd (delete_api_reports_id (report_request (lit "GTM-LOYW3V00")) bob_session)
  = json (VObj [kv "success" (VBool true)])
  ∧ (forall r,
       r ∈ reports (db (fst (delete_api_reports_id
                               (report_request (lit "GTM-LOYW3V00"))
                               bob_session)))
       <-> r ∈ reports (db bob_session)
           ∧ ¬ (r_report_id r
                = req_reportId (report_request (lit "GTM-LOYW3V00"))
                ∧ r_user_id r = 2))
  ∧ users (db (fst (delete_api_reports_id
                      (report_request (lit "GTM-LOYW3V00")) bob_session)))
    = users (db bob_session)
  ∧ get_api_reports_id jsonb_sorted (report_request (lit "GTM-LOYW3V00"))
      (fst (delete_api_reports_id (report_request (lit "GTM-LOYW3V00"))
              bob_session))
    = (fst (delete_api_reports_id (report_request (lit "GTM-LOYW3V00"))
              bob_session),
       Response 404 (VObj [kv "error" (str "Report not found")]))
  ∧ delete_api_reports_id (report_request (lit "GTM-LOYW3V00"))
      (fst (delete_api_reports_id (report_request (lit "GTM-LOYW3V00"))
              bob_session))
    = delete_api_reports_id (report_request (lit "GTM-LOYW3V00")) bob_session.
Proof.
  apply (owner_delete_removes_report jsonb_sorted
           (report_request (lit "GTM-LOYW3V00")) bob_session 2).
  - reflexivity.
  - lia.
  - reflexivity.
Defined.

(** Alice saving in the millisecond Bob's report was saved in. *)
Lemma report_id_collision_fails_save_witness :
  post_api_reports admit_all 2 1700000000500 bobs_millisecond
    (save_request (VObj [kv "overallRiskLevel" (str "low")])) alice_session
  = (alice_session,
     Response 500 (VObj [kv "error" (str "Failed to save report")])).
Proof.
  apply (report_id_collision_fails_save admit_all 2 1700000000500
           bobs_millisecond
           (save_request (VObj [kv "overallRiskLevel" (str "low")]))
           alice_session bobs_report).
  - reflexivity.
  - reflexivity.
  - left.
  - vm_compute. reflexivity.
Defined.

Lemma report_id_encodes_save_time_witness :
  time_of_report_id (report_id_at 1700000000000) = 1700000000000
  ∧ forall t', 0 <= t' -> report_id_at t' = report_id_at 1700000000000 ->
               t' = 1700000000000.
Proof.
  apply (report_id_encodes_save_time 1700000000000). lia.
Defined.

(** * The session a login opens *)

Lemma filter_id_unique (rows : list user_row) (u : user_row) :
  NoDup (map u_id rows) -> u ∈ rows ->
  List.filter (fun x => u_id x =? u_id u) rows = [u].
Proof.
  induction rows as [|a rows IH]; intros Hnd Hin.
  - by apply elem_of_nil in Hin.
  - simpl in Hnd. apply NoDup_cons in Hnd as [Hfresh Hnd].
    assert (Hids : forall x, x ∈ rows -> u_id x ∈ map u_id rows).
    { intros x Hx. apply list_elem_of_In, in_map, list_elem_of_In, Hx. }
    simpl. apply elem_of_cons in Hin as [->|Hin].
    + rewrite Z.eqb_refl. f_equal. apply filter_none.
      intros x Hx. apply Z.eqb_neq. intros Hsame.
      apply Hfresh. rewrite <- Hsame. by apply Hids.
    + replace (u_id a =? u_id u) with false; [by apply IH|].
      symmetry. apply Z.eqb_neq. intros Hsame.
      apply Hfresh. rewrite Hsame. by apply Hids.
Qed.

Section SessionFacts.

Variable toLowerCase : jsstring -> jsstring.
Variable bcrypt_compare : value -> jsstring -> result bool.

Local Abbreviation login := (post_api_auth_login toLowerCase bcrypt_compare).

(** X26. After a login that answered 200, [/api/auth/me] answers with the
    user object the login answered with, given the ids [SERIAL PRIMARY KEY]
    hands out (unique, positive). *)
Theorem me_after_login_names_the_user (req req' : request) (w : World) :
  user_ids_serial (db w) ->
  status (snd (login req w)) = 200 ->
  get_api_auth_me req' (fst (login req w))
  = (fst (login req w),
     json (VObj [kv "user" (body_field "user" (snd (login req w)))])).
Proof.
  intros [Hnd Hpos].
  unfold post_api_auth_login, try_catch, login_body.
  destruct (negb (ToBoolean _) || negb (ToBoolean _)); [discriminate|].
  destruct (field (lit "email") (req_body req)) as [| |b|x|e|l|o|d];
    try discriminate.
  unfold receiver, select_users_by_email, connected.
  unfold mbind, M_bind, mret, M_ret, gets, lift, modify.
  destruct (online (db w)) eqn:Honline; [|discriminate].
  destruct (List.filter _ _) as [|u rest] eqn:Hrows; [discriminate|].
  destruct (bcrypt_compare _ _) as [err|[|]]; try discriminate.
  intros _. cbn [negb fst snd].
  assert (Hin : u ∈ users (db w)).
  { assert (Hu : u ∈ List.filter
                       (fun u => eqb (u_email u) (trim (toLowerCase e)))
                       (users (db w))) by (rewrite Hrows; left).
    by apply elem_of_filter_bool in Hu as [Hu _]. }
  unfold get_api_auth_me, authenticated. cbn [session_userId with_session].
  replace (u_id u =? 0) with false
    by (symmetry; apply Z.eqb_neq; specialize (Hpos u Hin); lia).
  cbn [negb]. unfold try_catch, select_users_by_id, connected.
  unfold mbind, M_bind, mret, M_ret, gets.
  cbn [db with_session session_userId]. rewrite Honline.
  cbn [db with_session session_userId].
  by rewrite (filter_id_unique _ u Hnd Hin).
Qed.

End SessionFacts.

Lemma alice_session_ids_serial :
  user_ids_serial (db (with_session None alice_session)).
Proof.
  split.
  - simpl. apply NoDup_cons. split; [|apply NoDup_singleton].
    intros [Hin|Hin%elem_of_nil]%elem_of_cons; [discriminate Hin|done].
  - intros u [->|[->|Hin%elem_of_nil]%elem_of_cons]%elem_of_cons;
      [reflexivity|reflexivity|done].
Qed.

(** Alice logs in and asks who she is. *)
Lemma me_after_login_names_the_user_witness :
  get_api_auth_me (report_request [])
    (fst (post_api_auth_login ascii_toLowerCase sample_compare
            (login_request "Alice@Example.com" "aaaa")
            (with_session None alice_session)))
  = (fst (post_api_auth_login ascii_toLowerCase sample_compare
            (login_request "Alice@Example.com" "aaaa")
            (with_session None alice_session)),
     json (VObj [kv "user"
                    (body_field "user"
                       (snd (post_api_auth_login ascii_toLowerCase
                               sample_compare
                               (login_request "Alice@Example.com" "aaaa")
                               (with_session None alice_session))))])).
Proof.
  apply (me_after_login_names_the_user ascii_toLowerCase sample_compare
           (login_request "Alice@Example.com" "aaaa") (report_request [])
           (with_session None alice_session)).
  - exact alice_session_ids_serial.
  - vm_compute. reflexivity.
Defined.
